(** * Technitium DNS Prometheus exporter: the collector, embedded and verified

    A shallow embedding of [technitium_exporter.py]: the upstream query helper
    [_call_api] and the generator [collect] of [TechnitiumCollector].

    JSON payloads are modelled untyped, as Python sees them after
    [resp.json()]; every dynamic failure of the source ([.get] on something
    that is not a dict, [float] of something that is not a number, ...) is an
    explicit exception of the model. *)

From Stdlib Require Import ZArith List String Ascii Bool Lia DecimalString.
From Stdlib Require Import Floats.SpecFloat.
Import ListNotations.
Open Scope string_scope.
Set Warnings "-register-all".

(** ** Python values and built-ins *)

(** A Python [float] is an IEEE 754 binary64 number. *)
Definition prec : Z := 53.
Definition emax : Z := 1024.

Definition float_of_Z (z : Z) : spec_float := binary_normalize prec emax z 0 false.

Definition f_zero : spec_float := S754_zero false.
Definition f_one : spec_float := float_of_Z 1.

(** A Python [str] is modelled by its UTF-8 encoding, one [ascii] per byte:
    equality, [in], [replace] and [rstrip] on the text are those on the
    bytes; [for c in s], [s[0]] and [s.lower()] go by code point
    ([code_points], [lower]). *)

(** What [json.loads] builds.  A dict keeps insertion order, so it is an
    association list; [dict_get] reads the first binding of a key. *)
Inductive json : Type :=
| JNull
| JBool (b : bool)
| JInt (z : Z)
| JFloat (f : spec_float)
| JStr (s : string)
| JArr (l : list json)
| JObj (kvs : list (string * json)).

Inductive exn_class : Type :=
| AttributeError | TypeError | ValueError | KeyError | IndexError
| OverflowError | RequestException | HTTPError | JSONDecodeError.

(** An exception: its class and [str(e)]. *)
Record exn : Type := Exn { exn_cls : exn_class; exn_msg : string }.

Definition type_name (v : json) : string :=
  match v with
  | JNull => "NoneType"
  | JBool _ => "bool"
  | JInt _ => "int"
  | JFloat _ => "float"
  | JStr _ => "str"
  | JArr _ => "list"
  | JObj _ => "dict"
  end.

(** [bool(v)] *)
Definition truthy (v : json) : bool :=
  match v with
  | JNull => false
  | JBool b => b
  | JInt z => negb (z =? 0)%Z
  | JFloat (S754_zero _) => false
  | JFloat _ => true
  | JStr s => negb (s =? "")
  | JArr l => match l with [] => false | _ => true end
  | JObj kvs => match kvs with [] => false | _ => true end
  end.

Fixpoint dict_get (kvs : list (string * json)) (key : string) (default : json) : json :=
  match kvs with
  | [] => default
  | (k, v) :: rest => if k =? key then v else dict_get rest key default
  end.

Fixpoint dict_mem (kvs : list (string * json)) (key : string) : bool :=
  match kvs with
  | [] => false
  | (k, _) :: rest => (k =? key) || dict_mem rest key
  end.

(** [d[key] = v]: an existing key keeps its position. *)
Fixpoint dict_set (kvs : list (string * json)) (key : string) (v : json)
  : list (string * json) :=
  match kvs with
  | [] => [(key, v)]
  | (k, w) :: rest =>
      if k =? key then (k, v) :: rest else (k, w) :: dict_set rest key v
  end.

(** [d.update(other)] *)
Definition dict_update (kvs other : list (string * json)) : list (string * json) :=
  fold_left (fun acc kv => dict_set acc (fst kv) (snd kv)) other kvs.

(** [v.get(key, default)]: only a dict has the method. *)
Definition py_get (v : json) (key : string) (default : json) : exn + json :=
  match v with
  | JObj kvs => inr (dict_get kvs key default)
  | _ => inl (Exn AttributeError
                ("'" ++ type_name v ++ "' object has no attribute 'get'"))
  end.

(** A continuation byte of UTF-8, [10xxxxxx]: it belongs to the code point
    begun before it. *)
Definition is_continuation (c : ascii) : bool :=
  let n := nat_of_ascii c in (128 <=? n)%nat && (n <? 192)%nat.

(** The continuation bytes [s] starts with, and the code points after them. *)
Fixpoint split_code_points (s : string) : string * list string :=
  match s with
  | EmptyString => (EmptyString, [])
  | String c rest =>
      let (tail, cps) := split_code_points rest in
      if is_continuation c then (String c tail, cps)
      else (EmptyString, String c tail :: cps)
  end.

(** The code points of a text, each with the bytes that encode it. *)
Definition code_points (s : string) : list string :=
  match split_code_points s with
  | (EmptyString, cps) => cps
  | (stray, cps) => stray :: cps
  end.

(** [v[0]] *)
Definition py_index0 (py_repr : json -> string) (v : json) : exn + json :=
  match v with
  | JArr [] => inl (Exn IndexError "list index out of range")
  | JArr (x :: _) => inr x
  | JStr s =>
      match code_points s with
      | [] => inl (Exn IndexError "string index out of range")
      | c :: _ => inr (JStr c)
      end
  | JObj _ => inl (Exn KeyError (py_repr (JInt 0)))
  | _ => inl (Exn TypeError
                ("'" ++ type_name v ++ "' object is not subscriptable"))
  end.

(** The characters [for c in s] walks: one string per code point. *)
Definition chars (s : string) : list json := map JStr (code_points s).

(** [iter(v)], read to the end: a list gives its elements, a string its
    characters, a dict its keys. *)
Definition py_iter (v : json) : exn + list json :=
  match v with
  | JArr l => inr l
  | JStr s => inr (chars s)
  | JObj kvs => inr (map (fun kv => JStr (fst kv)) kvs)
  | _ => inl (Exn TypeError ("'" ++ type_name v ++ "' object is not iterable"))
  end.

(** [zip(a, b)] on the two element sequences: it stops at the shorter. *)
Fixpoint zip {A B : Type} (a : list A) (b : list B) : list (A * B) :=
  match a, b with
  | x :: a', y :: b' => (x, y) :: zip a' b'
  | _, _ => []
  end.

Definition string_of_Z (z : Z) : string := NilZero.string_of_int (Z.to_int z).

Definition lower_ascii (c : ascii) : ascii :=
  let n := nat_of_ascii c in
  if (65 <=? n)%nat && (n <=? 90)%nat then ascii_of_nat (n + 32) else c.

(** The text holds ASCII characters only. *)
Definition is_ascii (s : string) : bool :=
  forallb (fun c => (nat_of_ascii c <? 128)%nat) (list_ascii_of_string s).

(** [s.lower()] of an ASCII text: the letters A to Z are lowered, nothing
    else changes. *)
Fixpoint lower (s : string) : string :=
  match s with
  | EmptyString => EmptyString
  | String c rest => String (lower_ascii c) (lower rest)
  end.

(** [needle in s] *)
Fixpoint contains (needle s : string) : bool :=
  prefix needle s ||
  match s with
  | EmptyString => false
  | String _ rest => contains needle rest
  end.

(** The scan of [str.replace] for a non-empty [old]: left to right, without
    overlap; [skip] counts the characters of a match still to be passed. *)
Fixpoint replace_scan (old new : string) (skip : nat) (s : string) : string :=
  match s with
  | EmptyString => EmptyString
  | String c rest =>
      match skip with
      | S k => replace_scan old new k rest
      | O =>
          if prefix old s
          then new ++ replace_scan old new (String.length old - 1) rest
          else String c (replace_scan old new 0 rest)
      end
  end.

Fixpoint intersperse_after (new s : string) : string :=
  match s with
  | EmptyString => EmptyString
  | String c rest => String c (new ++ intersperse_after new rest)
  end.

(** [s.replace(old, new)] *)
Definition replace (old new s : string) : string :=
  match old with
  | EmptyString => new ++ intersperse_after new s
  | _ => replace_scan old new 0 s
  end.

(** ** Metric families, log lines, HTTP *)

Inductive metric_kind : Type := Gauge | Info.

Inductive sample_value : Type :=
| GaugeValue (f : spec_float)
| InfoValue (kv : list (string * string)).

(** One [add_metric(labels, value)]: the positional label values, as given. *)
Record sample : Type := Sample { s_labels : list json; s_value : sample_value }.

Record family : Type := Family {
  f_kind : metric_kind;
  f_name : string;
  f_doc : string;
  f_labelnames : list string;
  f_samples : list sample
}.

(** [logger.error(fmt, *args)] *)
Record log_line : Type := LogError { log_fmt : string; log_args : list string }.

Record response : Type := Response {
  status_code : Z;
  reason : string;
  resp_url : string;
  body : string + json   (* [inl msg]: not JSON, [resp.json()] raises with [msg] *)
}.

(** What [session.get] does: raise, or hand back a response. *)
Inductive http_result : Type :=
| Raises (e : exn)
| Responds (r : response).

(** [Response.raise_for_status] of requests: only 4xx and 5xx raise. *)
Definition raise_for_status (r : response) : exn + unit :=
  if (400 <=? status_code r)%Z && (status_code r <? 500)%Z then
    inl (Exn HTTPError (string_of_Z (status_code r) ++ " Client Error: "
                          ++ reason r ++ " for url: " ++ resp_url r))
  else if (500 <=? status_code r)%Z && (status_code r <? 600)%Z then
    inl (Exn HTTPError (string_of_Z (status_code r) ++ " Server Error: "
                          ++ reason r ++ " for url: " ++ resp_url r))
  else inr tt.

Definition resp_json (r : response) : exn + json :=
  match body r with
  | inl msg => inl (Exn JSONDecodeError msg)
  | inr v => inr v
  end.

(** ** The generator as a trace

    A run of [collect] is the sequence of what it does to the outside (a
    family yielded, a line logged, a request sent, the clock read) and how it
    ends: [inr] when it returns, [inl e] when [e] escapes. *)

Inductive event : Type :=
| Yield (f : family)
| Log (l : log_line)
| Call (url : string) (params : list (string * json))
| Tick (now : spec_float).   (* [time.time()] answered [now] *)

Definition M (A : Type) : Type := list event * (exn + A).

Definition ret {A : Type} (a : A) : M A := ([], inr a).
Definition raise {A : Type} (e : exn) : M A := ([], inl e).
Definition emit (ev : event) : M unit := ([ev], inr tt).
Definition lift {A : Type} (r : exn + A) : M A := ([], r).

Definition bind {A B : Type} (m : M A) (k : A -> M B) : M B :=
  match m with
  | (t, inl e) => (t, inl e)
  | (t, inr a) => let (t', r) := k a in ((t ++ t')%list, r)
  end.

(** [try: m  except Exception as e: h e] *)
Definition try_except {A : Type} (m : M A) (h : exn -> M A) : M A :=
  match m with
  | (t, inl e) => let (t', r) := h e in ((t ++ t')%list, r)
  | (t, inr a) => (t, inr a)
  end.

Notation "x <- m ;; k" := (bind m (fun x => k))
  (at level 61, m at next level, right associativity).
Notation "m ;;; k" := (bind m (fun _ => k))
  (at level 61, right associativity).

(** A [for] loop whose body may raise. *)
Fixpoint for_each {A : Type} (l : list A) (body : A -> M unit) : M unit :=
  match l with
  | [] => ret tt
  | x :: rest => body x ;;; for_each rest body
  end.

(** A loop that only accumulates: the samples added so far are lost with the
    family when an iteration raises. *)
Fixpoint collect_samples {A : Type} (l : list A) (f : A -> exn + sample)
  : exn + list sample :=
  match l with
  | [] => inr []
  | x :: rest =>
      match f x with
      | inl e => inl e
      | inr s =>
          match collect_samples rest f with
          | inl e => inl e
          | inr ss => inr (s :: ss)
          end
      end
  end.

Definition yielded (t : list event) : list family :=
  flat_map (fun ev => match ev with Yield f => [f] | _ => [] end) t.

Definition logged (t : list event) : list log_line :=
  flat_map (fun ev => match ev with Log l => [l] | _ => [] end) t.

(** [v[key]] for a string key *)
Definition py_getitem (py_repr : json -> string) (v : json) (key : string)
  : exn + json :=
  match v with
  | JObj kvs =>
      if dict_mem kvs key then inr (dict_get kvs key JNull)
      else inl (Exn KeyError (py_repr (JStr key)))
  | JArr _ => inl (Exn TypeError "list indices must be integers or slices, not str")
  | JStr _ => inl (Exn TypeError "string indices must be integers, not 'str'")
  | _ => inl (Exn TypeError
                ("'" ++ type_name v ++ "' object is not subscriptable"))
  end.

Definition sbind {A B : Type} (r : exn + A) (k : A -> exn + B) : exn + B :=
  match r with
  | inl e => inl e
  | inr a => k a
  end.

Notation "x <-- r ;; k" := (sbind r (fun x => k))
  (at level 61, r at next level, right associativity).

(** ** Dict keys

    [counts] of the DHCP step is keyed by whatever the lease holds: the key
    must be hashable, and two keys are one when Python finds them equal
    ([1 == 1.0 == True]) or finds them to be the same object: [json.loads]
    hands out one NaN object for every [NaN] it reads, so a NaN key is found
    again although [nan != nan]. *)

Definition hashable (v : json) : bool :=
  match v with
  | JArr _ | JObj _ => false
  | _ => true
  end.

(** The exact comparison of an integer with a float. *)
Definition Z_eq_float (z : Z) (f : spec_float) : bool :=
  match f with
  | S754_zero _ => (z =? 0)%Z
  | S754_finite s m e =>
      let sm := if s then Z.neg m else Z.pos m in
      match e with
      | Zneg p => (z * 2 ^ Z.pos p =? sm)%Z
      | _ => (z =? sm * 2 ^ e)%Z
      end
  | _ => false
  end.

Definition key_eqb (a b : json) : bool :=
  match a, b with
  | JNull, JNull => true
  | JStr s, JStr t => s =? t
  | JBool x, JBool y => Bool.eqb x y
  | JBool x, JInt z | JInt z, JBool x => (Z.b2z x =? z)%Z
  | JInt x, JInt y => (x =? y)%Z
  | JBool x, JFloat f | JFloat f, JBool x => Z_eq_float (Z.b2z x) f
  | JInt z, JFloat f | JFloat f, JInt z => Z_eq_float z f
  | JFloat S754_nan, JFloat S754_nan => true
  | JFloat f, JFloat g => SFeqb f g
  | _, _ => false
  end.

(** [counts.get(k, 0) + 1] stored back, for a dict of counters. *)
Fixpoint count_incr (m : list (json * Z)) (k : json) : list (json * Z) :=
  match m with
  | [] => [(k, 1%Z)]
  | (k', n) :: rest =>
      if key_eqb k' k then (k', (n + 1)%Z) :: rest
      else (k', n) :: count_incr rest k
  end.

(** [if scope not in counts: counts[scope] = {}] and then
    [counts[scope][ltype] = counts[scope].get(ltype, 0) + 1]. *)
Fixpoint counts_incr (counts : list (json * list (json * Z))) (scope ltype : json)
  : list (json * list (json * Z)) :=
  match counts with
  | [] => [(scope, [(ltype, 1%Z)])]
  | (s, tm) :: rest =>
      if key_eqb s scope then (s, count_incr tm ltype) :: rest
      else (s, tm) :: counts_incr rest scope ltype
  end.

Definition unhashable (v : json) : exn :=
  Exn TypeError ("unhashable type: '" ++ type_name v ++ "'").

(** ** Reading a trace *)

(** The requests of a run, in the order they were sent. *)
Definition calls (t : list event) : list (string * list (string * json)) :=
  flat_map (fun ev => match ev with Call url ps => [(url, ps)] | _ => [] end) t.

(** [l] with some elements left out, the others in their order. *)
Inductive subseq {A : Type} : list A -> list A -> Prop :=
| subseq_nil : forall l, subseq [] l
| subseq_keep : forall x l1 l2, subseq l1 l2 -> subseq (x :: l1) (x :: l2)
| subseq_skip : forall x l1 l2, subseq l1 l2 -> subseq l1 (x :: l2).

Definition prefix_of {A : Type} (p l : list A) : Prop := exists rest, l = (p ++ rest)%list.

(** [s.rstrip(c)] for a one-character [c]. *)
Fixpoint rstrip (c : ascii) (s : string) : string :=
  match s with
  | EmptyString => EmptyString
  | String a rest =>
      match rstrip c rest with
      | EmptyString => if Ascii.eqb a c then EmptyString else String a EmptyString
      | kept => String a kept
      end
  end.

Fixpoint repeat_char (c : ascii) (n : nat) : string :=
  match n with
  | O => EmptyString
  | S k => String c (repeat_char c k)
  end.

(** [os.getenv(name, default)] *)
Definition getenv (env : string -> option string) (name default : string) : string :=
  match env name with
  | Some v => v
  | None => default
  end.

(** [TECHNITIUM_BASE_URL], as the module computes it on import. *)
Definition base_url_of_env (env : string -> option string) : string :=
  rstrip "/" (getenv env "TECHNITIUM_BASE_URL" "http://technitium:5380").

(** The event is not a request. *)
Definition silent (ev : event) : Prop :=
  match ev with
  | Call _ _ => False
  | _ => True
  end.

(** ** A deployment to run the collector on

    One configuration and a few upstreams, used below to run the model on
    concrete answers. *)

Module Fixture.

Definition base_url : string := "http://technitium:5380".
Definition token : string := "s3cr3t".
Definition stats_range : string := "LastHour".
Definition top_limit : Z := 50.
Definition server_label : string := "technitium".
Definition node : string := "".

(** No string of these runs is read as a number, no [repr] is shown, and no
    text that is not ASCII is lowered. *)
Definition float_of_str (s : string) : option spec_float := None.
Definition py_repr (v : json) : string := "".
Definition str_lower (s : string) : string := s.

Definition ok (payload : json) : http_result :=
  Responds (Response 200 "OK" "" (inr (JObj [("status", JStr "ok");
                                              ("response", payload)]))).

Definition counters : list (string * json) :=
  [ ("totalQueries", JInt 100); ("totalNoError", JInt 80); ("totalNxDomain", JInt 20) ].

(** Three labels for two values. *)
Definition chart : list (string * json) :=
  [ ("labels", JArr [JStr "NoError"; JStr "NxDomain"; JStr "Refused"]);
    ("datasets", JArr [JObj [("data", JArr [JInt 80; JInt 20])]]) ].

Definition stats_fields : list (string * json) :=
  [ ("stats", JObj counters); ("queryResponseChartData", JObj chart) ].

Definition stats_answer : json := JObj stats_fields.

Definition category_sample (category : string) (value : Z) : sample :=
  Sample [JStr server_label; JStr category] (GaugeValue (float_of_Z value)).

Definition zone : list (string * json) :=
  [ ("name", JStr "example.com"); ("type", JStr "Primary");
    ("disabled", JBool false); ("internal", JBool false); ("soaSerial", JInt 5) ].

Definition zones_answer : json := JObj [("zones", JArr [JObj zone])].

Definition leases : list (list (string * json)) :=
  [ [("scope", JStr "A"); ("type", JStr "Dynamic")];
    [("scope", JStr "A"); ("type", JStr "Dynamic")];
    [("scope", JStr "A"); ("type", JStr "Reserved")] ].

Definition leases_answer : json := JObj [("leases", JArr (map JObj leases))].

Definition timed_out : http_result :=
  Raises (Exn RequestException
            "Read timed out for url: /api/dashboard/stats/getTop?token=s3cr3t").

Definition client_item : list (string * json) :=
  [("name", JStr "10.0.0.2"); ("domain", JStr "laptop"); ("hits", JInt 7)].

(** The answers to the three top-N queries: the second one times out. *)
Definition top_answer (params : list (string * json)) : http_result :=
  match dict_get params "statsType" JNull with
  | JStr "TopClients" => ok (JObj [("topClients", JArr [JObj client_item])])
  | JStr "TopBlockedDomains" =>
      ok (JObj [("topBlockedDomains",
                 JArr [JObj [("name", JStr "ads.example"); ("hits", JInt 3)]])])
  | _ => timed_out
  end.

Definition endpoint_of (url : string) : string :=
  substring (String.length base_url) (String.length url - String.length base_url) url.

(** A healthy upstream but for the top-domains query. *)
Definition upstream (url : string) (params : list (string * json)) : http_result :=
  match endpoint_of url with
  | "/api/dashboard/stats/get" => ok stats_answer
  | "/api/zones/list" => ok zones_answer
  | "/api/dhcp/leases/list" => ok leases_answer
  | "/api/dashboard/stats/getTop" => top_answer params
  | _ => Responds (Response 404 "Not Found" url (inl "Expecting value"))
  end.

(** An upstream behind a cache that answers 304 with the body it holds. *)
Definition upstream_304 (url : string) (params : list (string * json)) : http_result :=
  Responds (Response 304 "Not Modified" url
              (inr (JObj [("status", JStr "ok"); ("response", zones_answer)]))).

Definition no_counter_fields : list (string * json) :=
  [ ("stats", JObj []);
    ("queryResponseChartData",
     JObj [ ("labels", JArr [JStr "NoError"]);
            ("datasets", JArr [JObj [("data", JArr [JInt 5])]]) ]) ].

(** An upstream whose stats answer holds a chart but no counters. *)
Definition upstream_no_counters (url : string) (params : list (string * json))
  : http_result :=
  match endpoint_of url with
  | "/api/dashboard/stats/get" => ok (JObj no_counter_fields)
  | _ => upstream url params
  end.

(** An upstream whose stats answer holds a null counter. *)
Definition upstream_null_counter (url : string) (params : list (string * json))
  : http_result :=
  match endpoint_of url with
  | "/api/dashboard/stats/get" => ok (JObj [("stats", JObj [("zones", JNull)])])
  | _ => upstream url params
  end.

(** An upstream whose stats answer holds a query counter that is null. *)
Definition upstream_null_blocked (url : string) (params : list (string * json))
  : http_result :=
  match endpoint_of url with
  | "/api/dashboard/stats/get" =>
      ok (JObj [("stats", JObj [("totalQueries", JInt 100); ("totalBlocked", JNull)])])
  | _ => upstream url params
  end.

(** An upstream that is down. *)
Definition upstream_down (url : string) (params : list (string * json)) : http_result :=
  Raises (Exn RequestException "Connection refused").

(** An upstream that raises with a message made of the text [RED]. *)
Definition upstream_red (url : string) (params : list (string * json)) : http_result :=
  Raises (Exn RequestException "Max retries exceeded with url: /?token=RED").

(** Two readings of the clock, two seconds apart. *)
Definition t0 : spec_float := float_of_Z 1000.
Definition t1 : spec_float := float_of_Z 1002.

(** The line logged for the query that times out. *)
Definition timeout_line : log_line :=
  LogError "Request Failed [%s]: %s"
    [ "/api/dashboard/stats/getTop";
      "Read timed out for url: /api/dashboard/stats/getTop?token=REDACTED" ].

Definition top_clients : string * string * list string * string :=
  ("TopClients", "technitium_dns_top_client_hits",
   ["server"; "client_ip"; "client_name"], "topClients").



Definition response_chart : string * string * string * string :=
  ("queryResponseChartData", "technitium_dns_response_type_total",
   "Response types in the current stats window", "type").

Definition lease_keys : list (string * string) :=
  [("A", "Dynamic"); ("A", "Dynamic"); ("A", "Reserved")].

(** What the counting loop makes of [leases]. *)
Definition lease_counts : list (json * list (json * Z)) :=
  [(JStr "A", [(JStr "Dynamic", 2%Z); (JStr "Reserved", 1%Z)])].

(** The extra parameters of the top-clients query. *)
Definition top_clients_params : list (string * json) :=
  [("statsType", JStr "TopClients"); ("limit", JInt top_limit)].

(** A chart with a dataset and no labels; its data hold a null. *)
Definition chart_no_labels : list (string * json) :=
  [("datasets", JArr [JObj [("data", JArr [JInt 1; JNull])]])].

Definition no_label_fields : list (string * json) :=
  [("stats", JObj counters); ("queryTypeChartData", JObj chart_no_labels)].

Definition zone_family : family :=
  Family Info "technitium_zone" "Zone detailed information"
    ["server"; "zone"; "type"; "disabled"; "internal"]
    [Sample [ JStr "technitium"; JStr "example.com"; JStr "Primary";
              JStr "false"; JStr "false" ]
       (InfoValue [("serial", "5")])].

(** The chart of [chart], its second value null. *)
Definition chart_null_datum : list (string * json) :=
  [ ("labels", JArr [JStr "NoError"; JStr "NxDomain"; JStr "Refused"]);
    ("datasets", JArr [JObj [("data", JArr [JInt 80; JNull])]]) ].

Definition null_datum_fields : list (string * json) :=
  [ ("stats", JObj counters); ("queryResponseChartData", JObj chart_null_datum) ].

(** An upstream whose response chart pairs a label with a null. *)
Definition upstream_null_datum (url : string) (params : list (string * json))
  : http_result :=
  match endpoint_of url with
  | "/api/dashboard/stats/get" => ok (JObj null_datum_fields)
  | _ => upstream url params
  end.

(** The response-type family of [chart]. *)
Definition response_family : family :=
  Family Gauge "technitium_dns_response_type_total"
    "Response types in the current stats window" ["server"; "type"]
    [ category_sample "NoError" 80; category_sample "NxDomain" 20 ].

(** An upstream whose zone list holds a null. *)
Definition upstream_null_zone (url : string) (params : list (string * json))
  : http_result :=
  match endpoint_of url with
  | "/api/zones/list" => ok (JObj [("zones", JArr [JNull])])
  | _ => upstream url params
  end.

(** Three leases whose scopes are the numbers 1, true and 1.0. *)
Definition numeric_leases : list (list (string * json)) :=
  [ [("scope", JInt 1); ("type", JStr "Dynamic")];
    [("scope", JBool true); ("type", JStr "Dynamic")];
    [("scope", JFloat (float_of_Z 1)); ("type", JStr "Dynamic")] ].

Definition upstream_numeric_scopes (url : string) (params : list (string * json))
  : http_result :=
  match endpoint_of url with
  | "/api/dhcp/leases/list" => ok (JObj [("leases", JArr (map JObj numeric_leases))])
  | _ => upstream url params
  end.

(** An upstream whose lease list holds a null. *)
Definition upstream_null_lease (url : string) (params : list (string * json))
  : http_result :=
  match endpoint_of url with
  | "/api/dhcp/leases/list" => ok (JObj [("leases", JArr [JNull])])
  | _ => upstream url params
  end.

End Fixture.

(** ** The collector *)

Section Collector.

(** The configuration read from the environment at start-up. *)
Variable TECHNITIUM_BASE_URL : string.
Variable TECHNITIUM_TOKEN : string.
Variable TECHNITIUM_STATS_RANGE : string.
Variable TECHNITIUM_TOP_LIMIT : Z.
Variable SERVER_LABEL : string.
Variable TECHNITIUM_NODE : string.

(** Three built-ins of Python left abstract: [float(s)] of a string ([None]
    when it raises [ValueError]), [repr], and [s.lower()] of a text that is
    not all ASCII (the case mapping of Unicode). *)
Variable float_of_str : string -> option spec_float.
Variable py_repr : json -> string.
Variable str_lower : string -> string.

(** The upstream, as [session.get(url, params=..., timeout=10)] sees it. *)
Variable session_get : string -> list (string * json) -> http_result.

(** [float(v)] *)
Definition py_float (v : json) : exn + spec_float :=
  match v with
  | JInt z =>
      match float_of_Z z with
      | S754_infinity _ => inl (Exn OverflowError "int too large to convert to float")
      | f => inr f
      end
  | JFloat f => inr f
  | JBool b => inr (if b then f_one else f_zero)
  | JStr s =>
      match float_of_str s with
      | Some f => inr f
      | None => inl (Exn ValueError
                       ("could not convert string to float: " ++ py_repr v))
      end
  | _ => inl (Exn TypeError
                ("float() argument must be a string or a real number, not '"
                   ++ type_name v ++ "'"))
  end.

(** [str(v)] *)
Definition py_str (v : json) : string :=
  match v with
  | JStr s => s
  | JNull => "None"
  | JBool true => "True"
  | JBool false => "False"
  | JInt z => string_of_Z z
  | _ => py_repr v
  end.

(** [s.lower()] *)
Definition py_lower (s : string) : string :=
  if is_ascii s then lower s else str_lower s.

(** The sanitising step shared by both [except] blocks. *)
Definition redact (error_msg : string) : string :=
  if negb (TECHNITIUM_TOKEN =? "") && (0 <? String.length TECHNITIUM_TOKEN)%nat
  then replace TECHNITIUM_TOKEN "REDACTED" error_msg
  else error_msg.

Definition request_params (params : option (list (string * json)))
  : list (string * json) :=
  let default_params := [("token", JStr TECHNITIUM_TOKEN)] in
  let default_params :=
    if negb (TECHNITIUM_NODE =? "")
    then dict_set default_params "node" (JStr TECHNITIUM_NODE)
    else default_params in
  match params with
  | Some (kv :: more) => dict_update default_params (kv :: more)
  | _ => default_params
  end.

Definition is_ok (status : json) : bool :=
  match status with
  | JStr s => s =? "ok"
  | _ => false
  end.

Definition _call_api (endpoint : string) (params : option (list (string * json)))
  : M json :=
  let url := TECHNITIUM_BASE_URL ++ endpoint in
  let default_params := request_params params in
  try_except
    (emit (Call url default_params) ;;;
     resp <- lift (match session_get url default_params with
                   | Raises e => inl e
                   | Responds r => inr r
                   end) ;;
     lift (raise_for_status resp) ;;;
     data <- lift (resp_json resp) ;;
     status <- lift (py_get data "status" JNull) ;;
     if negb (is_ok status) then
       emit (Log (LogError "Technitium API returned non-ok status for %s"
                    [endpoint])) ;;;
       ret (JObj [])
     else
       lift (py_get data "response" (JObj [])))
    (fun e =>
       let error_msg := redact (exn_msg e) in
       emit (Log (LogError "Request Failed [%s]: %s" [endpoint; error_msg])) ;;;
       ret (JObj [])).

Definition server : json := JStr SERVER_LABEL.

Definition simple_map : list (string * string) :=
  [ ("technitium_dns_clients_window", "totalClients");
    ("technitium_dns_zones", "zones");
    ("technitium_dns_cached_entries", "cachedEntries");
    ("technitium_dns_allowed_zones", "allowedZones");
    ("technitium_dns_blocked_zones", "blockedZones");
    ("technitium_dns_allowlist_zones", "allowListZones");
    ("technitium_dns_blocklist_zones", "blockListZones") ].

Definition q_map : list (string * string) :=
  [ ("totalQueries", "all");
    ("totalNoError", "no_error");
    ("totalServerFailure", "servfail");
    ("totalNxDomain", "nxdomain");
    ("totalRefused", "refused");
    ("totalAuthoritative", "authoritative");
    ("totalRecursive", "recursive");
    ("totalCached", "cached");
    ("totalBlocked", "blocked");
    ("totalDropped", "dropped") ].

Definition g_up (stats : json) : family :=
  Family Gauge "technitium_up" "Technitium API reachable" ["server"]
    [Sample [server] (GaugeValue (if truthy stats then f_one else f_zero))].

(** One round of the loop over [simple_map]. *)
Definition simple_gauge (stats : json) (mk : string * string) : M unit :=
  let (metric, key) := mk in
  v <- lift (x <-- py_get stats key (JInt 0) ;; py_float x) ;;
  emit (Yield (Family Gauge metric ("From Dashboard Stats: " ++ key) ["server"]
                 [Sample [server] (GaugeValue v)])).

Definition q_sample (stats : json) (kl : string * string) : exn + sample :=
  let (key, label) := kl in
  v <-- (x <-- py_get stats key (JInt 0) ;; py_float x) ;;
  inr (Sample [server; JStr label] (GaugeValue v)).

Definition q_metric (samples : list sample) : family :=
  Family Gauge "technitium_dns_queries_window"
    "Queries by result category in the current stats window"
    ["server"; "category"] samples.

Definition chart_sample (lv : json * json) : exn + sample :=
  let (label, val) := lv in
  v <-- py_float val ;;
  inr (Sample [server; label] (GaugeValue v)).

(** The three chart blocks differ by the key read and the family built. *)
Definition chart_metric (stats_data : json) (chart_key name doc label_name : string)
  : M unit :=
  chart <- lift (py_get stats_data chart_key (JObj [])) ;;
  shown <- (if truthy chart
            then datasets <- lift (py_get chart "datasets" JNull) ;;
                 ret (truthy datasets)
            else ret false) ;;
  if shown : bool then
    labels <- lift (py_get chart "labels" (JArr [])) ;;
    data <- lift (datasets <-- py_getitem py_repr chart "datasets" ;;
                  first <-- py_index0 py_repr datasets ;;
                  py_get first "data" (JArr [])) ;;
    pairs <- lift (ls <-- py_iter labels ;; ds <-- py_iter data ;; inr (zip ls ds)) ;;
    samples <- lift (collect_samples pairs chart_sample) ;;
    emit (Yield (Family Gauge name doc ["server"; label_name] samples))
  else ret tt.

Definition stats_metrics (stats_data stats : json) : M unit :=
  for_each simple_map (simple_gauge stats) ;;;
  samples <- lift (collect_samples q_map (q_sample stats)) ;;
  emit (Yield (q_metric samples)) ;;;
  chart_metric stats_data "queryResponseChartData"
    "technitium_dns_response_type_total"
    "Response types in the current stats window" "type" ;;;
  chart_metric stats_data "queryTypeChartData"
    "technitium_dns_query_type_total"
    "DNS query types in the current stats window" "qtype" ;;;
  chart_metric stats_data "protocolTypeChartData"
    "technitium_dns_protocol_queries"
    "Queries by protocol in the current stats window" "protocol".

(** 1. Dashboard stats *)
Definition dashboard_stats : M unit :=
  stats_data <- _call_api "/api/dashboard/stats/get"
                  (Some [("type", JStr TECHNITIUM_STATS_RANGE); ("utc", JStr "true")]) ;;
  stats <- lift (py_get stats_data "stats" (JObj [])) ;;
  emit (Yield (g_up stats)) ;;;
  if truthy stats then stats_metrics stats_data stats else ret tt.

Definition zone_sample (zone : json) : exn + sample :=
  name <-- py_get zone "name" (JStr "unknown") ;;
  type <-- py_get zone "type" (JStr "unknown") ;;
  disabled <-- py_get zone "disabled" (JBool false) ;;
  internal <-- py_get zone "internal" (JBool false) ;;
  serial <-- py_get zone "soaSerial" (JInt 0) ;;
  inr (Sample [server; name; type;
               JStr (py_lower (py_str disabled)); JStr (py_lower (py_str internal))]
         (InfoValue [("serial", py_str serial)])).

Definition z_info (samples : list sample) : family :=
  Family Info "technitium_zone" "Zone detailed information"
    ["server"; "zone"; "type"; "disabled"; "internal"] samples.

(** 2. Zone health *)
Definition zone_health : M unit :=
  zones_data <- _call_api "/api/zones/list"
                  (Some [("pageNumber", JInt 1); ("pageSize", JInt 1000)]) ;;
  zones_list <- lift (py_get zones_data "zones" (JArr [])) ;;
  if truthy zones_list then
    samples <- lift (zones <-- py_iter zones_list ;;
                     collect_samples zones zone_sample) ;;
    emit (Yield (z_info samples))
  else ret tt.

(** One round of the counting loop over the leases. *)
Definition count_lease (counts : list (json * list (json * Z))) (lease : json)
  : exn + list (json * list (json * Z)) :=
  scope <-- py_get lease "scope" (JStr "unknown") ;;
  ltype <-- py_get lease "type" (JStr "Unknown") ;;
  if negb (hashable scope) then inl (unhashable scope)
  else if negb (hashable ltype) then inl (unhashable ltype)
  else inr (counts_incr counts scope ltype).

Fixpoint count_leases (leases : list json) (counts : list (json * list (json * Z)))
  : exn + list (json * list (json * Z)) :=
  match leases with
  | [] => inr counts
  | lease :: rest =>
      counts' <-- count_lease counts lease ;; count_leases rest counts'
  end.

(** [counts.items()] and, inside, [type_map.items()], in iteration order. *)
Definition count_items (counts : list (json * list (json * Z)))
  : list (json * json * Z) :=
  flat_map (fun st => map (fun tc => (fst st, fst tc, snd tc)) (snd st)) counts.

Definition lease_sample (g : json * json * Z) : exn + sample :=
  let '(scope, ltype, count) := g in
  v <-- py_float (JInt count) ;;
  inr (Sample [server; scope; ltype] (GaugeValue v)).

Definition dhcp_lease_metric (samples : list sample) : family :=
  Family Gauge "technitium_dhcp_leases_total"
    "Number of DHCP leases by scope and type" ["server"; "scope"; "type"] samples.

(** 3. DHCP stats *)
Definition dhcp_stats : M unit :=
  dhcp_leases_data <- _call_api "/api/dhcp/leases/list" None ;;
  leases <- lift (py_get dhcp_leases_data "leases" (JArr [])) ;;
  if truthy leases then
    samples <- lift (ls <-- py_iter leases ;;
                     counts <-- count_leases ls [] ;;
                     collect_samples (count_items counts) lease_sample) ;;
    emit (Yield (dhcp_lease_metric samples))
  else ret tt.

(** The table the top-N loop walks:
    (stats_type, metric_name, labels, json_key). *)
Definition top_table : list (string * string * list string * string) :=
  [ ("TopClients", "technitium_dns_top_client_hits",
     ["server"; "client_ip"; "client_name"], "topClients");
    ("TopDomains", "technitium_dns_top_domain_hits",
     ["server"; "domain"], "topDomains");
    ("TopBlockedDomains", "technitium_dns_top_blocked_domain_hits",
     ["server"; "domain"], "topBlockedDomains") ].

Definition top_sample (stats_type : string) (item : json) : exn + sample :=
  l_vals <-- (if stats_type =? "TopClients" then
                name <-- py_get item "name" (JStr "") ;;
                domain <-- py_get item "domain" (JStr "") ;;
                inr [server; name; domain]
              else
                name <-- py_get item "name" (JStr "") ;;
                inr [server; name]) ;;
  hits <-- (x <-- py_get item "hits" (JInt 0) ;; py_float x) ;;
  inr (Sample l_vals (GaugeValue hits)).

(** The body of the [try] of one round. *)
Definition top_try (row : string * string * list string * string) : M unit :=
  let '(stats_type, metric_name, labels, json_key) := row in
  data <- _call_api "/api/dashboard/stats/getTop"
            (Some [("statsType", JStr stats_type);
                   ("limit", JInt TECHNITIUM_TOP_LIMIT)]) ;;
  items <- lift (py_get data json_key (JArr [])) ;;
  if truthy items then
    samples <- lift (its <-- py_iter items ;;
                     collect_samples its (top_sample stats_type)) ;;
    emit (Yield (Family Gauge metric_name ("Hits for " ++ stats_type) labels samples))
  else ret tt.

Definition top_except (row : string * string * list string * string) (e : exn)
  : M unit :=
  let '(stats_type, _, _, _) := row in
  let error_msg := redact (exn_msg e) in
  emit (Log (LogError "Failed to scrape %s: %s" [stats_type; error_msg])).

Definition top_round (row : string * string * list string * string) : M unit :=
  try_except (top_try row) (top_except row).

(** 4. Top stats *)
Definition top_stats : M unit := for_each top_table top_round.

Definition g_dur (start_t now : spec_float) : family :=
  Family Gauge "technitium_scrape_duration_seconds" "Exporter scrape duration"
    ["server"] [Sample [server] (GaugeValue (SFsub prec emax now start_t))].

(** [collect], run to exhaustion.  [start_t] is what [time.time()] answers on
    entry and [end_t] what it answers in step 5. *)
Definition collect (start_t end_t : spec_float) : M unit :=
  emit (Tick start_t) ;;;
  dashboard_stats ;;;
  zone_health ;;;
  dhcp_stats ;;;
  top_stats ;;;
  emit (Tick end_t) ;;;
  emit (Yield (g_dur start_t end_t)).

(** ** What the spec says of the query operation

    The payload the spec promises for each outcome of the HTTP exchange: the
    empty sentinel on a transport error, on a status [raise_for_status]
    rejects, on a body that is not JSON and on a top-level status other than
    ["ok"]; the nested response payload otherwise. *)

Definition rejected_status (r : response) : bool :=
  (400 <=? status_code r)%Z && (status_code r <? 600)%Z.

Definition non_2xx (r : response) : bool :=
  negb ((200 <=? status_code r)%Z && (status_code r <? 300)%Z).

Definition api_payload_spec (hr : http_result) : json :=
  match hr with
  | Raises _ => JObj []
  | Responds r =>
      if rejected_status r then JObj []
      else match body r with
           | inl _ => JObj []
           | inr (JObj kvs) =>
               if is_ok (dict_get kvs "status" JNull)
               then dict_get kvs "response" (JObj [])
               else JObj []
           | inr _ => JObj []
           end
  end.

(** ** Properties of a run *)

Definition trace_all (P : event -> Prop) {A : Type} (m : M A) : Prop :=
  Forall P (fst m).

(** The sample carries the display label in first position. *)
Definition server_first (s : sample) : Prop :=
  hd_error (s_labels s) = Some server.

Definition labelled (ev : event) : Prop :=
  match ev with
  | Yield f => Forall server_first (f_samples f)
  | _ => True
  end.

(** The two log lines built from an exception. *)
Definition exception_line (l : log_line) : bool :=
  (log_fmt l =? "Request Failed [%s]: %s")
  || (log_fmt l =? "Failed to scrape %s: %s").

(** The failure modes of the query operation, read off the HTTP exchange. *)
Definition call_fails (hr : http_result) : bool :=
  match hr with
  | Raises _ => true
  | Responds r =>
      rejected_status r
      || match body r with
         | inl _ => true
         | inr (JObj kvs) => negb (is_ok (dict_get kvs "status" JNull))
         | inr _ => true
         end
  end.

(** The request of one top-N round and what the upstream does with it. *)
Definition top_url : string := TECHNITIUM_BASE_URL ++ "/api/dashboard/stats/getTop".

Definition top_params (row : string * string * list string * string)
  : list (string * json) :=
  let '(stats_type, _, _, _) := row in
  request_params (Some [("statsType", JStr stats_type);
                        ("limit", JInt TECHNITIUM_TOP_LIMIT)]).

Definition top_request (row : string * string * list string * string) : http_result :=
  session_get top_url (top_params row).




(** What the three list queries of a cycle return. *)
Definition stats_payload : json :=
  api_payload_spec
    (session_get (TECHNITIUM_BASE_URL ++ "/api/dashboard/stats/get")
       (request_params (Some [("type", JStr TECHNITIUM_STATS_RANGE);
                              ("utc", JStr "true")]))).

Definition zones_payload : json :=
  api_payload_spec
    (session_get (TECHNITIUM_BASE_URL ++ "/api/zones/list")
       (request_params (Some [("pageNumber", JInt 1); ("pageSize", JInt 1000)]))).

Definition leases_payload : json :=
  api_payload_spec
    (session_get (TECHNITIUM_BASE_URL ++ "/api/dhcp/leases/list")
       (request_params None)).

(** The value is a number [float] accepts. *)
Definition converts (v : json) : Prop := exists f, py_float v = inr f.

(** The float a counter of the stats payload is read as, 0 by default. *)
Definition counter_value (kvs : list (string * json)) (key : string) : spec_float :=
  match py_float (dict_get kvs key (JInt 0)) with
  | inr f => f
  | inl _ => f_zero
  end.

(** Every family yielded bears one of the names [ns]. *)
Definition names_within (ns : list string) (ev : event) : Prop :=
  match ev with
  | Yield f => In (f_name f) ns
  | _ => True
  end.

(** A family named [name] is yielded only as [Q] says. *)
Definition yields_as (name : string) (Q : family -> Prop) (ev : event) : Prop :=
  match ev with
  | Yield f => f_name f = name -> Q f
  | _ => True
  end.

(** The three chart blocks: (key of the chart object, family name, help
    text, name of the second label). *)
Definition chart_blocks : list (string * string * string * string) :=
  [ ("queryResponseChartData", "technitium_dns_response_type_total",
     "Response types in the current stats window", "type");
    ("queryTypeChartData", "technitium_dns_query_type_total",
     "DNS query types in the current stats window", "qtype");
    ("protocolTypeChartData", "technitium_dns_protocol_queries",
     "Queries by protocol in the current stats window", "protocol") ].

(** The sample pairs one label with the float of the value facing it. *)
Definition pairs_with (lv : json * json) (s : sample) : Prop :=
  s_labels s = [JStr SERVER_LABEL; fst lv]
  /\ exists v, py_float (snd lv) = inr v /\ s_value s = GaugeValue v.

(** The chart object under [key] is present with a first dataset, and the
    samples of [f] pair its labels with the data of that dataset, position
    by position, up to the shorter of the two. *)
Definition chart_family_spec (stats_data : json) (key : string) (f : family) : Prop :=
  exists pkvs chart first others labels data,
    stats_data = JObj pkvs
    /\ dict_get pkvs key (JObj []) = JObj chart
    /\ chart <> []
    /\ dict_get chart "datasets" JNull = JArr (JObj first :: others)
    /\ py_iter (dict_get chart "labels" (JArr [])) = inr labels
    /\ py_iter (dict_get first "data" (JArr [])) = inr data
    /\ Forall2 pairs_with (zip labels data) (f_samples f)
    /\ List.length (f_samples f) = Nat.min (List.length labels) (List.length data).

Definition dashboard_names : list string :=
  ("technitium_up" :: map fst simple_map
     ++ [ "technitium_dns_queries_window";
          "technitium_dns_response_type_total";
          "technitium_dns_query_type_total";
          "technitium_dns_protocol_queries" ])%list.

Definition top_names : list string :=
  map (fun row : string * string * list string * string => snd (fst (fst row)))
    top_table.

(** The sample of one zone object. *)
Definition zone_info_sample (zone : list (string * json)) : sample :=
  Sample [ JStr SERVER_LABEL;
           dict_get zone "name" (JStr "unknown");
           dict_get zone "type" (JStr "unknown");
           JStr (py_lower (py_str (dict_get zone "disabled" (JBool false))));
           JStr (py_lower (py_str (dict_get zone "internal" (JBool false)))) ]
    (InfoValue [("serial", py_str (dict_get zone "soaSerial" (JInt 0)))]).

(** The request for [endpoint] was sent during the run. *)
Definition sent (endpoint : string) (t : list event) : Prop :=
  exists ps, In (Call (TECHNITIUM_BASE_URL ++ endpoint) ps) t.

(** *** The counting of leases, on string keys

    When every scope and lease type is a string, [counts] is a dict of dicts
    keyed by strings; [bump] and [bump2] are [count_incr] and [counts_incr]
    seen on such dicts ([count_incr_embed], [counts_incr_embed]). *)

Fixpoint bump (tm : list (string * Z)) (t : string) : list (string * Z) :=
  match tm with
  | [] => [(t, 1%Z)]
  | (t', n) :: rest =>
      if t' =? t then (t', (n + 1)%Z) :: rest else (t', n) :: bump rest t
  end.

Fixpoint bump2 (c : list (string * list (string * Z))) (s t : string)
  : list (string * list (string * Z)) :=
  match c with
  | [] => [(s, [(t, 1%Z)])]
  | (s', tm) :: rest =>
      if s' =? s then (s', bump tm t) :: rest else (s', tm) :: bump2 rest s t
  end.

Definition embed_types (tm : list (string * Z)) : list (json * Z) :=
  map (fun tn => (JStr (fst tn), snd tn)) tm.

Definition embed_counts (c : list (string * list (string * Z)))
  : list (json * list (json * Z)) :=
  map (fun st => (JStr (fst st), embed_types (snd st))) c.

Fixpoint get1 (tm : list (string * Z)) (t : string) : option Z :=
  match tm with
  | [] => None
  | (t', n) :: rest => if t' =? t then Some n else get1 rest t
  end.

Fixpoint get2 (c : list (string * list (string * Z))) (s t : string) : option Z :=
  match c with
  | [] => None
  | (s', tm) :: rest => if s' =? s then get1 tm t else get2 rest s t
  end.

Definition tally (keys : list (string * string)) : list (string * list (string * Z)) :=
  fold_left (fun c st => bump2 c (fst st) (snd st)) keys [].

(** The groups in the order the family lists them. *)
Definition tally_items (c : list (string * list (string * Z)))
  : list (string * string * Z) :=
  flat_map (fun st => map (fun tn => (fst st, fst tn, snd tn)) (snd st)) c.

(** The (scope, type) pair a lease object is counted under. *)
Definition lease_key (lease : list (string * json)) : json * json :=
  (dict_get lease "scope" (JStr "unknown"), dict_get lease "type" (JStr "Unknown")).

Definition pair_eq_dec (p q : string * string) : {p = q} + {p <> q}.
Proof. decide equality; apply string_dec. Defined.

(** The number of leases of a group, in the spec's words. *)
Definition leases_in_group (keys : list (string * string)) (p : string * string) : Z :=
  Z.of_nat (count_occ pair_eq_dec keys p).

(** *** Clock readings

    [time.time()] answers a finite float; such a float is the integer
    [signed_mantissa] scaled by two to the [exponent_of]. *)

Definition is_reading (f : spec_float) : bool :=
  match f with
  | S754_zero _ | S754_finite _ _ _ => true
  | _ => false
  end.

Definition signed_mantissa (f : spec_float) : Z :=
  match f with
  | S754_finite s m _ => if s then Z.neg m else Z.pos m
  | _ => 0
  end.

Definition exponent_of (f : spec_float) : Z :=
  match f with
  | S754_finite _ _ e => e
  | _ => 0
  end.

(** [a <= b] as real numbers, both scaled to the smaller exponent. *)
Definition reading_le (a b : spec_float) : Prop :=
  let e := Z.min (exponent_of a) (exponent_of b) in
  (signed_mantissa a * 2 ^ (exponent_of a - e)
   <= signed_mantissa b * 2 ^ (exponent_of b - e))%Z.

Definition non_negative (f : spec_float) : bool :=
  match f with
  | S754_zero _ => true
  | S754_finite s _ _ => negb s
  | S754_infinity s => negb s
  | S754_nan => false
  end.

(** How many families of the run bear [name]. *)
Definition times_yielded (name : string) (t : list event) : nat :=
  List.length (filter (fun f => f_name f =? name) (yielded t)).

(** The six requests of a cycle, in the order [collect] sends them. *)
Definition cycle_requests : list (string * list (string * json)) :=
  (TECHNITIUM_BASE_URL ++ "/api/dashboard/stats/get",
   request_params (Some [("type", JStr TECHNITIUM_STATS_RANGE); ("utc", JStr "true")]))
  :: (TECHNITIUM_BASE_URL ++ "/api/zones/list",
      request_params (Some [("pageNumber", JInt 1); ("pageSize", JInt 1000)]))
  :: (TECHNITIUM_BASE_URL ++ "/api/dhcp/leases/list", request_params None)
  :: map (fun row => (top_url, top_params row)) top_table.

(** The names of every family [collect] can yield, in the order of the
    source. *)
Definition family_order : list string :=
  (dashboard_names
     ++ ["technitium_zone"; "technitium_dhcp_leases_total"]
     ++ top_names
     ++ ["technitium_scrape_duration_seconds"])%list.

(** The families of the run bear names of [ns], in the order of [ns], each
    at most once. *)
Definition in_order (ns : list string) {A : Type} (m : M A) : Prop :=
  subseq (map f_name (yielded (fst m))) ns.

(** Every sample of the family has one label value per label name. *)
Definition arity_ok (ev : event) : Prop :=
  match ev with
  | Yield f =>
      Forall (fun s => List.length (s_labels s) = List.length (f_labelnames f))
        (f_samples f)
  | _ => True
  end.

(** The leases counted in [counts], all groups together. *)
Definition counted (counts : list (json * list (json * Z))) : Z :=
  fold_right Z.add 0%Z (map (fun g => snd g) (count_items counts)).

(** The family has a sample, unless it is one of the chart families. *)
Definition populated (ev : event) : Prop :=
  match ev with
  | Yield f =>
      f_samples f <> []
      \/ In (f_name f) (map (fun b : string * string * string * string =>
                               snd (fst (fst b))) chart_blocks)
  | _ => True
  end.

(** The family of one row of [simple_map], for the counters [kvs]. *)
Definition simple_gauge_family (kvs : list (string * json)) (mk : string * string)
  : family :=
  Family Gauge (fst mk) ("From Dashboard Stats: " ++ snd mk) ["server"]
    [Sample [JStr SERVER_LABEL] (GaugeValue (counter_value kvs (snd mk)))].

(** The sample of one item of a top-N list. *)
Definition top_item_sample (stats_type : string) (item : list (string * json))
  : sample :=
  Sample (if stats_type =? "TopClients"
          then [ JStr SERVER_LABEL; dict_get item "name" (JStr "");
                 dict_get item "domain" (JStr "") ]
          else [ JStr SERVER_LABEL; dict_get item "name" (JStr "") ])
    (GaugeValue (counter_value item "hits")).

(** The exception the [try] block of the query operation ends with, read off
    the HTTP exchange as the block reads it; [None] when the block returns. *)
Definition call_exception (hr : http_result) : option exn :=
  match hr with
  | Raises e => Some e
  | Responds r =>
      match (_ <-- raise_for_status r ;;
             data <-- resp_json r ;;
             status <-- py_get data "status" JNull ;;
             if negb (is_ok status) then inr (JObj [])
             else py_get data "response" (JObj [])) with
      | inl e => Some e
      | inr _ => None
      end
  end.

(** The exception is raised in the [try] block of a query to [endpoint]. *)
Definition raised_by_query (endpoint : string) (e : exn) : Prop :=
  exists params,
    call_exception (session_get (TECHNITIUM_BASE_URL ++ endpoint)
                      (request_params params)) = Some e.

(** The exception is raised in the [try] block of the top-N round for
    [stats_type]. *)
Definition raised_by_round (stats_type : string) (e : exn) : Prop :=
  exists row,
    In row top_table /\ fst (fst (fst row)) = stats_type
    /\ snd (top_try row) = inl e.

(** A line logged from an exception names where the exception was raised and
    carries its text, sanitised. *)
Definition redacted_line (ev : event) : Prop :=
  match ev with
  | Log l =>
      exception_line l = true ->
      exists what e,
        ((log_fmt l = "Request Failed [%s]: %s" /\ raised_by_query what e)
         \/ (log_fmt l = "Failed to scrape %s: %s" /\ raised_by_round what e))
        /\ log_args l = [what; redact (exn_msg e)]
  | _ => True
  end.

(** The chart block [b] of a stats answer raises nothing. *)
Definition chart_returns (stats_data : json) (b : string * string * string * string)
  : Prop :=
  let '(key, name, doc, label_name) := b in
  snd (chart_metric stats_data key name doc label_name) = inr tt.

(** ** The query operation *)

Lemma raise_for_status_rejected (r : response) :
  rejected_status r = true -> exists e, raise_for_status r = inl e.
Proof.
  unfold rejected_status, raise_for_status. intros H.
  apply andb_true_iff in H. destruct H as [Hlo Hhi].
  rewrite Hlo. simpl.
  destruct (status_code r <? 500)%Z eqn:E5; [eauto|].
  assert (H5 : (500 <=? status_code r)%Z = true).
  { apply Z.leb_le. apply Z.ltb_ge in E5. exact E5. }
  rewrite H5, Hhi. simpl. eauto.
Qed.

Lemma raise_for_status_accepted (r : response) :
  rejected_status r = false -> raise_for_status r = inr tt.
Proof.
  unfold rejected_status, raise_for_status. intros H.
  destruct (400 <=? status_code r)%Z eqn:E4; simpl in *.
  - rewrite H.
    assert (E5 : (status_code r <? 500)%Z = false).
    { apply Z.ltb_ge. apply Z.ltb_ge in H. lia. }
    rewrite E5, andb_false_r. reflexivity.
  - assert (E5 : (500 <=? status_code r)%Z = false).
    { apply Z.leb_gt. apply Z.leb_gt in E4. lia. }
    rewrite E5. reflexivity.
Qed.

(** What the query operation returns, for the steps that call it. *)
Lemma call_api_returns (endpoint : string) (params : option (list (string * json))) :
  snd (_call_api endpoint params)
  = inr (api_payload_spec
           (session_get (TECHNITIUM_BASE_URL ++ endpoint) (request_params params))).
Proof.
  unfold _call_api, api_payload_spec.
  destruct (session_get _ _) as [e | r]; [reflexivity|].
  destruct (rejected_status r) eqn:Hrej.
  - destruct (raise_for_status_rejected r Hrej) as [e He].
    cbn. rewrite He. reflexivity.
  - cbn. rewrite (raise_for_status_accepted r Hrej).
    unfold resp_json. destruct (body r) as [msg | data]; [reflexivity|].
    destruct data; try reflexivity.
    cbn. destruct (is_ok (dict_get kvs "status" JNull)); reflexivity.
Qed.

(** C1 (as the code has it): callAPI never raises and returns exactly the
    payload of [api_payload_spec]: the empty sentinel when the request raises,
    when the status is 4xx or 5xx, when the body is not JSON, or when the
    top-level status is not the string "ok"; the nested response payload on
    success. *)
Theorem call_api_payload (endpoint : string) (params : option (list (string * json))) :
  snd (_call_api endpoint params)
  = inr (api_payload_spec
           (session_get (TECHNITIUM_BASE_URL ++ endpoint) (request_params params))).
Proof.
  unfold _call_api, api_payload_spec.
  destruct (session_get _ _) as [e | r]; [reflexivity|].
  destruct (rejected_status r) eqn:Hrej.
  - destruct (raise_for_status_rejected r Hrej) as [e He].
    cbn. rewrite He. reflexivity.
  - cbn. rewrite (raise_for_status_accepted r Hrej).
    unfold resp_json. destruct (body r) as [msg | data]; [reflexivity|].
    destruct data; try reflexivity.
    cbn. destruct (is_ok (dict_get kvs "status" JNull)); reflexivity.
Qed.

(** ** Redaction: what [str.replace] leaves behind *)

Lemma contains_empty (old : string) : old <> "" -> contains old "" = false.
Proof. destruct old; [congruence | reflexivity]. Qed.

(** A prefix of the output that avoids the first character of the marker
    was copied from the input. *)
Lemma prefix_replace_scan (old : string) (r : ascii) (new' : string) :
  forall p s,
    ~ In r (list_ascii_of_string p) ->
    prefix p (replace_scan old (String r new') 0 s) = true ->
    prefix p s = true.
Proof.
  induction p as [| a p IH]; intros s Hr Hp.
  - destruct s; reflexivity.
  - destruct s as [| c rest]; [discriminate Hp|].
    cbn [replace_scan] in Hp.
    destruct (prefix old (String c rest)).
    + cbn in Hp. destruct (ascii_dec a r) as [-> |]; [|discriminate].
      exfalso. apply Hr. left. reflexivity.
    + cbn in Hp |- *. destruct (ascii_dec a c); [|discriminate].
      apply IH; [|exact Hp]. intros Hin. apply Hr. right. exact Hin.
Qed.

(** No occurrence starts inside the marker when the marker avoids the first
    character of [old]. *)
Lemma contains_marker_app (c0 : ascii) (old' : string) :
  forall new o,
    ~ In c0 (list_ascii_of_string new) ->
    contains (String c0 old') o = false ->
    contains (String c0 old') (new ++ o) = false.
Proof.
  induction new as [| n new IH]; intros o Hn Ho; [exact Ho|].
  cbn. destruct (ascii_dec c0 n) as [-> |].
  - exfalso. apply Hn. left. reflexivity.
  - apply IH; [|exact Ho]. intros Hin. apply Hn. right. exact Hin.
Qed.

Lemma replace_scan_clean (c0 : ascii) (old' : string) (r : ascii) (new' : string) :
  ~ In c0 (list_ascii_of_string (String r new')) ->
  ~ In r (list_ascii_of_string (String c0 old')) ->
  forall s skip,
    contains (String c0 old') (replace_scan (String c0 old') (String r new') skip s)
    = false.
Proof.
  intros Hc0 Hr. induction s as [| c rest IH]; intros skip.
  - reflexivity.
  - cbn [replace_scan]. destruct skip as [| k]; [|apply IH].
    destruct (prefix (String c0 old') (String c rest)) eqn:Hpre.
    + apply contains_marker_app; [exact Hc0 | apply IH].
    + cbn [contains]. rewrite IH, orb_false_r.
      destruct (prefix (String c0 old')
                  (String c (replace_scan (String c0 old') (String r new') 0 rest)))
        eqn:Hout; [|reflexivity].
      rewrite <- Hpre. symmetry.
      apply (prefix_replace_scan (String c0 old') r new' (String c0 old')
               (String c rest) Hr).
      cbn [replace_scan]. rewrite Hpre. exact Hout.
Qed.

(** The redacted text holds no occurrence of a token whose first character
    is not in the marker and which does not hold the marker's first
    character. *)
Lemma redact_clean (error_msg : string) :
  TECHNITIUM_TOKEN <> "" ->
  (forall c t, TECHNITIUM_TOKEN = String c t ->
               ~ In c (list_ascii_of_string "REDACTED")) ->
  ~ In "R"%char (list_ascii_of_string TECHNITIUM_TOKEN) ->
  contains TECHNITIUM_TOKEN (redact error_msg) = false.
Proof.
  intros Hne Hhead HR. unfold redact.
  destruct TECHNITIUM_TOKEN as [| c0 old'] eqn:Htok; [congruence|].
  cbn [String.eqb negb String.length Nat.ltb Nat.leb andb replace].
  apply replace_scan_clean; [|exact HR].
  apply (Hhead c0 old'). reflexivity.
Qed.

(** ** Invariants of a trace *)

Section TraceInvariant.

Variable P : event -> Prop.

Lemma trace_all_ret {A : Type} (a : A) : trace_all P (ret a).
Proof. constructor. Qed.

Lemma trace_all_lift {A : Type} (r : exn + A) : trace_all P (lift r).
Proof. constructor. Qed.

Lemma trace_all_emit (ev : event) : P ev -> trace_all P (emit ev).
Proof. intros H. constructor; [exact H | constructor]. Qed.

Lemma trace_all_bind {A B : Type} (m : M A) (k : A -> M B) :
  trace_all P m -> (forall a, snd m = inr a -> trace_all P (k a)) ->
  trace_all P (bind m k).
Proof.
  unfold trace_all, bind. destruct m as [t [e | a]]; intros Hm Hk; [exact Hm|].
  specialize (Hk a eq_refl). destruct (k a) as [t' r]. cbn in *.
  apply Forall_app. split; assumption.
Qed.

Lemma trace_all_try {A : Type} (m : M A) (h : exn -> M A) :
  trace_all P m -> (forall e, trace_all P (h e)) -> trace_all P (try_except m h).
Proof.
  unfold trace_all, try_except. destruct m as [t [e | a]]; intros Hm Hh; [|exact Hm].
  specialize (Hh e). destruct (h e) as [t' r]. cbn in *.
  apply Forall_app. split; assumption.
Qed.

Lemma trace_all_for_each {A : Type} (l : list A) (body : A -> M unit) :
  (forall x, trace_all P (body x)) -> trace_all P (for_each l body).
Proof.
  intros Hb. induction l as [| x rest IH]; cbn [for_each].
  - apply trace_all_ret.
  - apply trace_all_bind; [apply Hb | intros _ _; exact IH].
Qed.

Lemma trace_all_if {A : Type} (b : bool) (m1 m2 : M A) :
  trace_all P m1 -> trace_all P m2 -> trace_all P (if b then m1 else m2).
Proof. destruct b; auto. Qed.

End TraceInvariant.

Lemma collect_samples_Forall {A : Type} (Q : sample -> Prop) (f : A -> exn + sample) :
  (forall x s, f x = inr s -> Q s) ->
  forall l ss, collect_samples l f = inr ss -> Forall Q ss.
Proof.
  intros Hf. induction l as [| x rest IH]; intros ss H; cbn in H.
  - injection H as <-. constructor.
  - destruct (f x) as [e | s] eqn:Hx; [discriminate|].
    destruct (collect_samples rest f) as [e | ss'] eqn:Hrest; [discriminate|].
    injection H as <-. constructor; [eapply Hf; eassumption | apply IH; reflexivity].
Qed.

Lemma collect_samples_length {A : Type} (f : A -> exn + sample) :
  forall l ss, collect_samples l f = inr ss -> List.length ss = List.length l.
Proof.
  induction l as [| x rest IH]; intros ss H; cbn in H.
  - injection H as <-. reflexivity.
  - destruct (f x) as [e | s]; [discriminate|].
    destruct (collect_samples rest f) as [e | ss'] eqn:Hrest; [discriminate|].
    injection H as <-. cbn. f_equal. apply IH. reflexivity.
Qed.

Lemma bind_lift_inr {A B : Type} (a : A) (k : A -> M B) : bind (lift (inr a)) k = k a.
Proof. unfold bind, lift. destruct (k a). reflexivity. Qed.

Lemma bind_lift_inl {A B : Type} (e : exn) (k : A -> M B) :
  bind (lift (inl e)) k = ([], inl e).
Proof. reflexivity. Qed.

Lemma bind_ret {A B : Type} (a : A) (k : A -> M B) : bind (ret a) k = k a.
Proof. unfold bind, ret. destruct (k a). reflexivity. Qed.

Lemma bind_emit {B : Type} (ev : event) (k : unit -> M B) :
  bind (emit ev) k = (ev :: fst (k tt), snd (k tt)).
Proof. unfold bind, emit. destruct (k tt). reflexivity. Qed.

Lemma sbind_inr {A B : Type} (r : exn + A) (k : A -> exn + B) (b : B) :
  sbind r k = inr b -> exists a, r = inr a /\ k a = inr b.
Proof. destruct r as [e | a]; cbn; [discriminate | eauto]. Qed.

Ltac sbind_inv :=
  repeat match goal with
    | H : sbind _ _ = inr _ |- _ =>
        let a := fresh "a" in
        let Ha := fresh "Ha" in
        apply sbind_inr in H; destruct H as [a [Ha H]]
    | H : inr _ = inr _ |- _ => injection H as H
    | H : (if ?b then _ else _) = inr _ |- _ => destruct b
    end.

Ltac trace_step :=
  first [ apply trace_all_ret
        | apply trace_all_lift
        | apply trace_all_if
        | apply trace_all_for_each; intros ?
        | apply trace_all_try; [| intros ?]
        | apply trace_all_bind; [| intros ? ?] ].

(** ** The display label comes first *)

Lemma q_sample_labelled stats kl s : q_sample stats kl = inr s -> server_first s.
Proof.
  unfold q_sample. destruct kl as [key label]. intros H. sbind_inv.
  subst s. reflexivity.
Qed.

Lemma chart_sample_labelled lv s : chart_sample lv = inr s -> server_first s.
Proof.
  unfold chart_sample. destruct lv as [label val]. intros H. sbind_inv.
  subst s. reflexivity.
Qed.

Lemma zone_sample_labelled zone s : zone_sample zone = inr s -> server_first s.
Proof. unfold zone_sample. intros H. sbind_inv. subst s. reflexivity. Qed.

Lemma lease_sample_labelled g s : lease_sample g = inr s -> server_first s.
Proof.
  unfold lease_sample. destruct g as [[scope ltype] count]. intros H. sbind_inv.
  subst s. reflexivity.
Qed.

Lemma top_sample_labelled stats_type item s :
  top_sample stats_type item = inr s -> server_first s.
Proof.
  unfold top_sample. intros H. sbind_inv; subst; reflexivity.
Qed.

Lemma call_api_trace (P : event -> Prop) endpoint params :
  P (Call (TECHNITIUM_BASE_URL ++ endpoint) (request_params params)) ->
  P (Log (LogError "Technitium API returned non-ok status for %s" [endpoint])) ->
  (forall raw, P (Log (LogError "Request Failed [%s]: %s" [endpoint; redact raw]))) ->
  trace_all P (_call_api endpoint params).
Proof.
  intros Hcall Hnok Hfail. unfold _call_api.
  repeat first [ apply trace_all_emit; auto | trace_step ].
Qed.

Lemma call_api_labelled endpoint params : trace_all labelled (_call_api endpoint params).
Proof. apply call_api_trace; intros; exact I. Qed.

Lemma chart_metric_labelled stats_data chart_key name doc label_name :
  trace_all labelled (chart_metric stats_data chart_key name doc label_name).
Proof.
  unfold chart_metric.
  repeat first [ apply trace_all_emit | trace_step ]; try exact I.
  cbn [snd lift labelled f_samples q_metric z_info dhcp_lease_metric] in *. eapply collect_samples_Forall; [|eassumption].
  intros x s Hs. eapply chart_sample_labelled; eassumption.
Qed.

Lemma dashboard_stats_labelled : trace_all labelled dashboard_stats.
Proof.
  unfold dashboard_stats, stats_metrics, simple_gauge.
  repeat first [ apply call_api_labelled | apply chart_metric_labelled
               | apply trace_all_emit | trace_step
               | match goal with |- trace_all _ (let (_, _) := ?x in _) => destruct x end ];
    cbn [snd lift labelled f_samples q_metric z_info dhcp_lease_metric] in *.
  - repeat constructor.
  - repeat constructor.
  - eapply collect_samples_Forall; [|eassumption].
    intros x s Hs. eapply q_sample_labelled; eassumption.
Qed.

Lemma zone_health_labelled : trace_all labelled zone_health.
Proof.
  unfold zone_health.
  repeat first [ apply call_api_labelled | apply trace_all_emit | trace_step ].
  cbn [snd lift labelled f_samples q_metric z_info dhcp_lease_metric] in *. sbind_inv.
  eapply collect_samples_Forall; [|eassumption].
  intros x s Hs. eapply zone_sample_labelled; eassumption.
Qed.

Lemma dhcp_stats_labelled : trace_all labelled dhcp_stats.
Proof.
  unfold dhcp_stats.
  repeat first [ apply call_api_labelled | apply trace_all_emit | trace_step ].
  cbn [snd lift labelled f_samples q_metric z_info dhcp_lease_metric] in *. sbind_inv.
  eapply collect_samples_Forall; [|eassumption].
  intros x s Hs. eapply lease_sample_labelled; eassumption.
Qed.

Lemma top_stats_labelled : trace_all labelled top_stats.
Proof.
  unfold top_stats. apply trace_all_for_each. intros [[[stats_type name] labels] key].
  unfold top_round, top_try, top_except.
  repeat first [ apply call_api_labelled | apply trace_all_emit | trace_step ];
    try exact I.
  cbn [snd lift labelled f_samples q_metric z_info dhcp_lease_metric] in *. sbind_inv.
  eapply collect_samples_Forall; [|eassumption].
  intros x s Hs. eapply top_sample_labelled; eassumption.
Qed.

Lemma collect_labelled start_t end_t : trace_all labelled (collect start_t end_t).
Proof.
  unfold collect.
  repeat first [ apply dashboard_stats_labelled | apply zone_health_labelled
               | apply dhcp_stats_labelled | apply top_stats_labelled
               | apply trace_all_emit; exact I
               | apply trace_all_emit | trace_step ].
  repeat constructor.
Qed.

Lemma in_yielded (t : list event) (f : family) : In f (yielded t) -> In (Yield f) t.
Proof.
  unfold yielded. intros H. apply in_flat_map in H. destruct H as [ev [Hev Hf]].
  destruct ev; cbn in Hf; try contradiction.
  destruct Hf as [-> | []]. exact Hev.
Qed.

Lemma in_logged (t : list event) (l : log_line) : In l (logged t) -> In (Log l) t.
Proof.
  unfold logged. intros H. apply in_flat_map in H. destruct H as [ev [Hev Hl]].
  destruct ev; cbn in Hl; try contradiction.
  destruct Hl as [-> | []]. exact Hev.
Qed.

(** C10: every sample of every family the collection yields, whatever the
    upstream answers, has the configured server label as its first label
    value. *)
Theorem server_label_first start_t end_t (f : family) (s : sample) :
  In f (yielded (fst (collect start_t end_t))) ->
  In s (f_samples f) ->
  hd_error (s_labels s) = Some (JStr SERVER_LABEL).
Proof.
  intros Hf Hs. apply in_yielded in Hf.
  pose proof (collect_labelled start_t end_t) as Hall.
  unfold trace_all in Hall. rewrite Forall_forall in Hall.
  specialize (Hall _ Hf). cbn in Hall. rewrite Forall_forall in Hall.
  exact (Hall _ Hs).
Qed.

(** ** The query operation, event by event *)

Lemma call_api_quiet endpoint params :
  call_fails (session_get (TECHNITIUM_BASE_URL ++ endpoint) (request_params params))
  = false ->
  fst (_call_api endpoint params)
  = [Call (TECHNITIUM_BASE_URL ++ endpoint) (request_params params)].
Proof.
  unfold _call_api, call_fails.
  destruct (session_get _ _) as [e | r]; [discriminate|].
  intros H. apply orb_false_iff in H. destruct H as [Hrej Hbody].
  cbn. rewrite (raise_for_status_accepted r Hrej).
  unfold resp_json. destruct (body r) as [msg | data]; [discriminate|].
  destruct data; try discriminate.
  cbn. apply negb_false_iff in Hbody. rewrite Hbody. reflexivity.
Qed.

Lemma call_api_noisy endpoint params :
  call_fails (session_get (TECHNITIUM_BASE_URL ++ endpoint) (request_params params))
  = true ->
  exists l,
    _call_api endpoint params
    = ([Call (TECHNITIUM_BASE_URL ++ endpoint) (request_params params); Log l],
       inr (JObj [])).
Proof.
  unfold _call_api, call_fails.
  destruct (session_get _ _) as [e | r]; [intros _; cbn; eauto|].
  destruct (rejected_status r) eqn:Hrej.
  - intros _. destruct (raise_for_status_rejected r Hrej) as [e He].
    cbn. rewrite He. cbn. eauto.
  - cbn [orb]. intros Hbody. cbn. rewrite (raise_for_status_accepted r Hrej).
    unfold resp_json. destruct (body r) as [msg | data]; [cbn; eauto|].
    destruct data; try (cbn; eauto; fail).
    cbn. apply negb_true_iff in Hbody. rewrite Hbody. cbn. eauto.
Qed.

(** ** The top-N rounds *)

Lemma yielded_app (t1 t2 : list event) :
  yielded (t1 ++ t2)%list = (yielded t1 ++ yielded t2)%list.
Proof. apply flat_map_app. Qed.

Lemma logged_app (t1 t2 : list event) :
  logged (t1 ++ t2)%list = (logged t1 ++ logged t2)%list.
Proof. apply flat_map_app. Qed.

Lemma top_try_noisy row :
  call_fails (top_request row) = true ->
  exists l, top_try row = ([Call top_url (top_params row); Log l], inr tt).
Proof.
  destruct row as [[[stats_type metric_name] labels] json_key]. intros Hfail.
  destruct (call_api_noisy "/api/dashboard/stats/getTop"
              (Some [("statsType", JStr stats_type);
                     ("limit", JInt TECHNITIUM_TOP_LIMIT)]) Hfail) as [l Hl].
  exists l. unfold top_try. rewrite Hl. reflexivity.
Qed.

(** After a query that did not fail, the round either raises before it
    yields, or ends with nothing to show, or yields its one family. *)
Lemma top_try_quiet row :
  call_fails (top_request row) = false ->
  (exists e, top_try row = ([Call top_url (top_params row)], inl e))
  \/ (top_try row = ([Call top_url (top_params row)], inr tt)
      /\ forall items,
           py_get (api_payload_spec (top_request row)) (snd row) (JArr []) = inr items ->
           truthy items = false)
  \/ (exists samples,
        top_try row
        = ([Call top_url (top_params row);
            Yield (Family Gauge (snd (fst (fst row)))
                     ("Hits for " ++ fst (fst (fst row))) (snd (fst row)) samples)],
           inr tt)).
Proof.
  destruct row as [[[stats_type metric_name] labels] json_key]. intros Hquiet.
  pose proof (call_api_quiet "/api/dashboard/stats/getTop"
                (Some [("statsType", JStr stats_type);
                       ("limit", JInt TECHNITIUM_TOP_LIMIT)]) Hquiet) as Hfst.
  pose proof (call_api_returns "/api/dashboard/stats/getTop"
                (Some [("statsType", JStr stats_type);
                       ("limit", JInt TECHNITIUM_TOP_LIMIT)])) as Hsnd.
  unfold top_try.
  destruct (_call_api _ _) as [t r]. cbn [fst snd] in Hfst, Hsnd. subst t r.
  cbn [bind]. unfold top_url, top_params, top_request, top_url, top_params.
  cbn [snd].
  destruct (py_get _ json_key (JArr [])) as [e | items];
    [left; exists e; reflexivity|].
  destruct (truthy items) eqn:Hitems.
  2:{ right; left. split; [cbn; rewrite Hitems; reflexivity|].
      intros items' H. injection H as <-. exact Hitems. }
  destruct (sbind (py_iter items) (fun its => collect_samples its (top_sample stats_type)))
    as [e | samples] eqn:Hsamples.
  - left. exists e. cbn. rewrite Hitems. cbn. rewrite Hsamples. reflexivity.
  - right; right. exists samples. cbn. rewrite Hitems. cbn. rewrite Hsamples.
    reflexivity.
Qed.



Lemma top_round_total row : snd (top_round row) = inr tt.
Proof.
  unfold top_round. destruct (call_fails (top_request row)) eqn:Hcall.
  - destruct (top_try_noisy row Hcall) as [l ->]. reflexivity.
  - destruct row as [[[stats_type metric_name] labels] json_key].
    destruct (top_try_quiet _ Hcall) as [[e' H] | [[H _] | [samples H]]];
      rewrite H; reflexivity.
Qed.

Lemma for_each_total {A : Type} (body : A -> M unit) :
  (forall x, snd (body x) = inr tt) ->
  forall l, for_each l body = (flat_map (fun x => fst (body x)) l, inr tt).
Proof.
  intros Hb. induction l as [| x rest IH]; [reflexivity|].
  cbn [for_each flat_map]. rewrite IH. specialize (Hb x).
  destruct (body x) as [t r]. cbn in Hb. subst r. reflexivity.
Qed.

Lemma top_stats_total :
  top_stats = (flat_map (fun row => fst (top_round row)) top_table, inr tt).
Proof. apply for_each_total. exact top_round_total. Qed.

(** ** Reaching the top-N step *)

Lemma append_inj_l (p a b : string) : p ++ a = p ++ b -> a = b.
Proof.
  induction p as [| c p IH]; cbn; intros H; [exact H|].
  injection H as H. apply IH. exact H.
Qed.













(** ** The reachability gauge *)

Lemma call_api_yields_nothing endpoint params :
  yielded (fst (_call_api endpoint params)) = [].
Proof.
  destruct (call_fails (session_get (TECHNITIUM_BASE_URL ++ endpoint)
                          (request_params params))) eqn:Hcall.
  - destruct (call_api_noisy endpoint params Hcall) as [l ->]. reflexivity.
  - rewrite (call_api_quiet endpoint params Hcall). reflexivity.
Qed.

Lemma call_api_run endpoint params :
  _call_api endpoint params
  = (fst (_call_api endpoint params),
     inr (api_payload_spec
            (session_get (TECHNITIUM_BASE_URL ++ endpoint) (request_params params)))).
Proof.
  rewrite <- call_api_returns. destruct (_call_api endpoint params). reflexivity.
Qed.

Lemma fst_bind {A B : Type} (m : M A) (k : A -> M B) :
  exists t, fst (bind m k) = (fst m ++ t)%list.
Proof.
  unfold bind. destruct m as [t [e | a]].
  - exists []. cbn. rewrite app_nil_r. reflexivity.
  - destruct (k a) as [t' r]. exists t'. reflexivity.
Qed.

Lemma dashboard_stats_starts kvs :
  stats_payload = JObj kvs ->
  exists t,
    yielded (fst dashboard_stats)
    = g_up (dict_get kvs "stats" (JObj [])) :: t.
Proof.
  unfold stats_payload, dashboard_stats. intros Hpayload.
  rewrite call_api_run, Hpayload. cbn [bind].
  change (lift (py_get (JObj kvs) "stats" (JObj [])))
    with (ret (A := json) (dict_get kvs "stats" (JObj []))).
  cbn [bind ret].
  destruct (fst_bind (emit (Yield (g_up (dict_get kvs "stats" (JObj [])))))
              (fun _ => if truthy (dict_get kvs "stats" (JObj []))
                        then stats_metrics (JObj kvs) (dict_get kvs "stats" (JObj []))
                        else ret tt)) as [t Ht].
  destruct (bind (emit _) _) as [t' r]. cbn [fst] in Ht. subst t'.
  cbn [app fst]. rewrite yielded_app, call_api_yields_nothing.
  exists (yielded t). reflexivity.
Qed.

(** C4 (as the code has it): whenever the dashboard-stats query returns a
    JSON object (the empty sentinel of a failed query included), the
    reachability gauge is the first family emitted, with the single server
    label, and its value is 1 if the [stats] entry of that object is
    non-empty and 0 otherwise. *)
Theorem up_gauge_first start_t end_t kvs :
  stats_payload = JObj kvs ->
  hd_error (yielded (fst (collect start_t end_t)))
  = Some (Family Gauge "technitium_up" "Technitium API reachable" ["server"]
            [Sample [JStr SERVER_LABEL]
               (GaugeValue (if truthy (dict_get kvs "stats" (JObj []))
                            then float_of_Z 1 else float_of_Z 0))]).
Proof.
  intros Hpayload. destruct (dashboard_stats_starts kvs Hpayload) as [t Ht].
  unfold collect. rewrite bind_emit. cbn [fst].
  destruct (fst_bind dashboard_stats
              (fun _ => zone_health ;;; dhcp_stats ;;; top_stats ;;;
                        emit (Tick end_t) ;;;
                        emit (Yield (g_dur start_t end_t)))) as [t' ->].
  change (yielded (Tick start_t :: (fst dashboard_stats ++ t')%list))
    with (yielded (fst dashboard_stats ++ t')%list).
  rewrite yielded_app, Ht. reflexivity.
Qed.

(** ** The query-category family *)

Lemma in_bind_l {A B : Type} (m : M A) (k : A -> M B) (ev : event) :
  In ev (fst m) -> In ev (fst (bind m k)).
Proof.
  intros H. destruct (fst_bind m k) as [t ->]. apply in_or_app. left. exact H.
Qed.

Lemma in_bind_r {A B : Type} (m : M A) (k : A -> M B) (a : A) (ev : event) :
  snd m = inr a -> In ev (fst (k a)) -> In ev (fst (bind m k)).
Proof.
  unfold bind. destruct m as [t r]. cbn. intros -> H.
  destruct (k a) as [t' r']. cbn in *. apply in_or_app. right. exact H.
Qed.

Lemma snd_bind {A B : Type} (m : M A) (k : A -> M B) (a : A) :
  snd m = inr a -> snd (bind m k) = snd (k a).
Proof.
  unfold bind. destruct m as [t r]. cbn. intros ->.
  destruct (k a) as [t' r']. reflexivity.
Qed.

Lemma yielded_in (t : list event) (f : family) : In (Yield f) t -> In f (yielded t).
Proof.
  intros H. unfold yielded. apply in_flat_map. exists (Yield f).
  split; [exact H | left; reflexivity].
Qed.

Lemma dict_get_converts kvs key default :
  converts default ->
  (forall k v, In (k, v) kvs -> converts v) ->
  converts (dict_get kvs key default).
Proof.
  intros Hd Hall. induction kvs as [| [k v] rest IH]; cbn; [exact Hd|].
  destruct (k =? key).
  - apply (Hall k v). left. reflexivity.
  - apply IH. intros k' v' Hin. apply (Hall k' v'). right. exact Hin.
Qed.

Lemma zero_converts : converts (JInt 0).
Proof. exists (float_of_Z 0). reflexivity. Qed.

Lemma counter_value_spec kvs key :
  (forall k v, In (k, v) kvs -> converts v) ->
  py_float (dict_get kvs key (JInt 0)) = inr (counter_value kvs key).
Proof.
  intros Hall. unfold counter_value.
  destruct (dict_get_converts kvs key (JInt 0) zero_converts Hall) as [f ->].
  reflexivity.
Qed.

Lemma dict_get_absent kvs key default :
  dict_mem kvs key = false -> dict_get kvs key default = default.
Proof.
  induction kvs as [| [k v] rest IH]; cbn; [reflexivity|].
  destruct (k =? key); cbn; [discriminate | exact IH].
Qed.

Lemma simple_gauges_return kvs :
  (forall k v, In (k, v) kvs -> converts v) ->
  snd (for_each simple_map (simple_gauge (JObj kvs))) = inr tt.
Proof.
  intros Hall. rewrite for_each_total; [reflexivity|].
  intros [metric key]. unfold simple_gauge. cbn [py_get sbind].
  rewrite (counter_value_spec kvs key Hall). reflexivity.
Qed.

Lemma collect_samples_map {A : Type} (f : A -> exn + sample) (g : A -> sample) :
  forall l, (forall x, In x l -> f x = inr (g x)) ->
            collect_samples l f = inr (map g l).
Proof.
  induction l as [| x rest IH]; intros Hf; [reflexivity|].
  cbn. rewrite (Hf x (or_introl eq_refl)), IH; [reflexivity|].
  intros y Hy. apply Hf. right. exact Hy.
Qed.

Lemma q_samples_return kvs :
  (forall k v, In (k, v) kvs -> converts v) ->
  collect_samples q_map (q_sample (JObj kvs))
  = inr (map (fun kl => Sample [server; JStr (snd kl)]
                          (GaugeValue (counter_value kvs (fst kl)))) q_map).
Proof.
  intros Hall. apply collect_samples_map. intros [key label] _.
  unfold q_sample. cbn [py_get sbind fst snd].
  rewrite (counter_value_spec kvs key Hall). reflexivity.
Qed.

Lemma stats_metrics_in_collect start_t end_t pkvs kvs (ev : event) :
  stats_payload = JObj pkvs ->
  dict_get pkvs "stats" (JObj []) = JObj kvs ->
  kvs <> [] ->
  In ev (fst (stats_metrics (JObj pkvs) (JObj kvs))) ->
  In ev (fst (collect start_t end_t)).
Proof.
  intros Hpayload Hstats Hne Hev. unfold collect.
  eapply in_bind_r; [reflexivity|]. apply in_bind_l.
  unfold dashboard_stats.
  eapply in_bind_r; [apply call_api_returns|]. fold stats_payload.
  rewrite Hpayload.
  eapply in_bind_r; [cbn; rewrite Hstats; reflexivity|].
  eapply in_bind_r; [reflexivity|].
  destruct kvs; [congruence | exact Hev].
Qed.

(** C5 (as the code has it): for a non-empty stats payload whose fields are
    all numbers, the
    query-category family is emitted with exactly ten samples, one per
    category in the fixed order, each holding the float of the corresponding
    counter, and 0 when the counter is absent. *)
Theorem query_category_family start_t end_t pkvs kvs :
  stats_payload = JObj pkvs ->
  dict_get pkvs "stats" (JObj []) = JObj kvs ->
  kvs <> [] ->
  (forall k v, In (k, v) kvs -> converts v) ->
  let sample_of key category :=
    Sample [JStr SERVER_LABEL; JStr category] (GaugeValue (counter_value kvs key)) in
  In (Family Gauge "technitium_dns_queries_window"
        "Queries by result category in the current stats window"
        ["server"; "category"]
        [ sample_of "totalQueries" "all";
          sample_of "totalNoError" "no_error";
          sample_of "totalServerFailure" "servfail";
          sample_of "totalNxDomain" "nxdomain";
          sample_of "totalRefused" "refused";
          sample_of "totalAuthoritative" "authoritative";
          sample_of "totalRecursive" "recursive";
          sample_of "totalCached" "cached";
          sample_of "totalBlocked" "blocked";
          sample_of "totalDropped" "dropped" ])
     (yielded (fst (collect start_t end_t)))
  /\ (forall key, py_float (dict_get kvs key (JInt 0)) = inr (counter_value kvs key))
  /\ (forall key, dict_mem kvs key = false -> counter_value kvs key = float_of_Z 0).
Proof.
  intros Hpayload Hstats Hne Hall sample_of. repeat split.
  - apply yielded_in.
    apply (stats_metrics_in_collect start_t end_t pkvs kvs _ Hpayload Hstats Hne).
    unfold stats_metrics.
    eapply in_bind_r; [apply (simple_gauges_return kvs Hall)|].
    eapply in_bind_r; [cbn [lift snd]; apply (q_samples_return kvs Hall)|].
    apply in_bind_l. left. reflexivity.
  - intros key. apply counter_value_spec. exact Hall.
  - intros key Habsent. unfold counter_value.
    rewrite (dict_get_absent kvs key (JInt 0) Habsent). reflexivity.
Qed.

(** ** Which step yields which family *)

Lemma trace_all_for_each_in (P : event -> Prop) {A : Type} (l : list A)
  (body : A -> M unit) :
  (forall x, In x l -> trace_all P (body x)) -> trace_all P (for_each l body).
Proof.
  induction l as [| x rest IH]; intros Hb; cbn [for_each].
  - apply trace_all_ret.
  - apply trace_all_bind; [apply Hb; left; reflexivity|].
    intros _ _. apply IH. intros y Hy. apply Hb. right. exact Hy.
Qed.

Lemma trace_all_impl (P Q : event -> Prop) {A : Type} (m : M A) :
  (forall ev, P ev -> Q ev) -> trace_all P m -> trace_all Q m.
Proof. intros HPQ. unfold trace_all. apply Forall_impl. exact HPQ. Qed.

Lemma names_within_yields_as ns name Q {A : Type} (m : M A) :
  ~ In name ns -> trace_all (names_within ns) m -> trace_all (yields_as name Q) m.
Proof.
  intros Hout. apply trace_all_impl. intros [f | l | url ps | now]; cbn; auto.
  intros Hin Heq. subst name. contradiction.
Qed.

Lemma call_api_names ns endpoint params :
  trace_all (names_within ns) (_call_api endpoint params).
Proof. apply call_api_trace; intros; exact I. Qed.

Ltac names_step :=
  first [ apply call_api_names
        | apply trace_all_emit; cbn; tauto
        | match goal with
          | |- trace_all _ (let (_, _) := ?x in _) => destruct x
          end
        | trace_step ].

Lemma chart_metric_names stats_data chart_key name doc label_name :
  trace_all (names_within [name])
    (chart_metric stats_data chart_key name doc label_name).
Proof. unfold chart_metric. repeat names_step. Qed.

Lemma names_within_incl ns ns' {A : Type} (m : M A) :
  incl ns ns' -> trace_all (names_within ns) m -> trace_all (names_within ns') m.
Proof.
  intros Hinc. apply trace_all_impl. intros [f | l | url ps | now]; cbn; auto.
Qed.

Lemma dashboard_stats_names : trace_all (names_within dashboard_names) dashboard_stats.
Proof.
  unfold dashboard_stats, stats_metrics.
  repeat first
    [ apply trace_all_for_each_in;
      let x := fresh "x" in
      let Hx := fresh "Hx" in
      intros x Hx; cbn in Hx;
      repeat (destruct Hx as [<- | Hx]); [.. | contradiction];
      unfold simple_gauge
    | eapply names_within_incl; [| apply chart_metric_names];
      intros n [<- | []]; cbn; tauto
    | names_step ].
Qed.

Lemma zone_health_names : trace_all (names_within ["technitium_zone"]) zone_health.
Proof. unfold zone_health. repeat names_step. Qed.

Lemma dhcp_stats_names :
  trace_all (names_within ["technitium_dhcp_leases_total"]) dhcp_stats.
Proof. unfold dhcp_stats. repeat names_step. Qed.

Lemma top_stats_names : trace_all (names_within top_names) top_stats.
Proof.
  unfold top_stats. apply trace_all_for_each_in. intros row Hrow. cbn in Hrow.
  repeat (destruct Hrow as [<- | Hrow]); [.. | contradiction];
    unfold top_round, top_try, top_except; repeat names_step.
Qed.

(** ** The steps of a run *)

Lemma fst_bind_cases {A B : Type} (m : M A) (k : A -> M B) (ev : event) :
  In ev (fst (bind m k)) ->
  In ev (fst m) \/ exists a, snd m = inr a /\ In ev (fst (k a)).
Proof.
  unfold bind. destruct m as [t [e | a]]; cbn; [auto|].
  destruct (k a) as [t' r] eqn:Hk. cbn. intros H. apply in_app_or in H.
  destruct H as [H | H]; [auto|]. right. exists a. rewrite Hk. auto.
Qed.

Lemma collect_event_cases start_t end_t (ev : event) :
  In ev (fst (collect start_t end_t)) ->
  (ev = Tick start_t \/ ev = Tick end_t)
  \/ In ev (fst dashboard_stats)
  \/ (snd dashboard_stats = inr tt /\ In ev (fst zone_health))
  \/ (snd dashboard_stats = inr tt /\ snd zone_health = inr tt
      /\ In ev (fst dhcp_stats))
  \/ (snd dashboard_stats = inr tt /\ snd zone_health = inr tt
      /\ snd dhcp_stats = inr tt
      /\ (In ev (fst top_stats) \/ ev = Yield (g_dur start_t end_t))).
Proof.
  unfold collect. rewrite bind_emit. cbn [fst In]. intros [H | H]; [auto|].
  apply fst_bind_cases in H. destruct H as [H | [[] [H1 H]]]; [auto|].
  apply fst_bind_cases in H. destruct H as [H | [[] [H2 H]]]; [auto|].
  apply fst_bind_cases in H. destruct H as [H | [[] [H3 H]]]; [right; auto 6|].
  apply fst_bind_cases in H. destruct H as [H | [[] [H4 H]]]; [right; auto 8|].
  rewrite bind_emit in H. cbn [fst emit In] in H.
  destruct H as [H | [H | []]]; [auto | right; auto 8].
Qed.

Lemma call_api_not target endpoint params :
  endpoint <> target ->
  trace_all (fun ev => forall ps, ev <> Call (TECHNITIUM_BASE_URL ++ target) ps)
    (_call_api endpoint params).
Proof.
  intros Hne. apply call_api_trace; intros; try discriminate.
  intros H. injection H as H _. apply append_inj_l in H. contradiction.
Qed.

Ltac not_call :=
  repeat first
    [ apply call_api_not; assumption
    | apply trace_all_emit; intros; discriminate
    | match goal with
      | |- trace_all _ (let (_, _) := ?x in _) => destruct x
      end
    | trace_step ].

Lemma dashboard_stats_not target :
  "/api/dashboard/stats/get" <> target ->
  trace_all (fun ev => forall ps, ev <> Call (TECHNITIUM_BASE_URL ++ target) ps)
    dashboard_stats.
Proof.
  intros Hne. unfold dashboard_stats, stats_metrics, simple_gauge, chart_metric.
  not_call.
Qed.

Lemma zone_health_not target :
  "/api/zones/list" <> target ->
  trace_all (fun ev => forall ps, ev <> Call (TECHNITIUM_BASE_URL ++ target) ps)
    zone_health.
Proof. intros Hne. unfold zone_health. not_call. Qed.

Lemma not_call_absurd {A : Type} (m : M A) target ps :
  trace_all (fun ev => forall ps, ev <> Call (TECHNITIUM_BASE_URL ++ target) ps) m ->
  ~ In (Call (TECHNITIUM_BASE_URL ++ target) ps) (fst m).
Proof.
  unfold trace_all. rewrite Forall_forall. intros Hall Hin.
  exact (Hall _ Hin ps eq_refl).
Qed.

(** The zone query is only sent once step 1 has returned. *)
Lemma zones_sent_after start_t end_t :
  sent "/api/zones/list" (fst (collect start_t end_t)) ->
  snd dashboard_stats = inr tt.
Proof.
  intros [ps H]. apply collect_event_cases in H.
  destruct H as [[H | H] | [H | [[H1 _] | [[H1 _] | [H1 _]]]]];
    try exact H1; try discriminate.
  exfalso. revert H. apply not_call_absurd. apply dashboard_stats_not. discriminate.
Qed.

(** The lease query is only sent once steps 1 and 2 have returned. *)
Lemma leases_sent_after start_t end_t :
  sent "/api/dhcp/leases/list" (fst (collect start_t end_t)) ->
  snd dashboard_stats = inr tt /\ snd zone_health = inr tt.
Proof.
  intros [ps H]. apply collect_event_cases in H.
  destruct H as [[H | H] | [H | [[H1 H] | [[H1 [H2 _]] | [H1 [H2 _]]]]]];
    try discriminate; auto; exfalso; revert H; apply not_call_absurd.
  - apply dashboard_stats_not. discriminate.
  - apply zone_health_not. discriminate.
Qed.

Lemma names_of_yield ns {A : Type} (m : M A) (f : family) :
  trace_all (names_within ns) m -> In (Yield f) (fst m) -> In (f_name f) ns.
Proof.
  unfold trace_all. rewrite Forall_forall. intros Hall Hin. exact (Hall _ Hin).
Qed.

(** The steps a family of a given name can come from. *)
Lemma yielded_by_step start_t end_t (f : family) :
  In f (yielded (fst (collect start_t end_t))) ->
  In (f_name f) dashboard_names
  \/ (snd dashboard_stats = inr tt /\ In f (yielded (fst zone_health)))
  \/ (snd dashboard_stats = inr tt /\ snd zone_health = inr tt
      /\ In f (yielded (fst dhcp_stats)))
  \/ In (f_name f) top_names
  \/ f = g_dur start_t end_t.
Proof.
  intros H. apply in_yielded in H. apply collect_event_cases in H.
  destruct H as [[H | H] | [H | [[H1 H] | [[H1 [H2 H]] | [H1 [H2 [H3 [H | H]]]]]]]];
    try discriminate.
  - left. exact (names_of_yield _ _ f dashboard_stats_names H).
  - right; left. split; [exact H1 | apply yielded_in; exact H].
  - right; right; left. repeat split; try assumption. apply yielded_in; exact H.
  - right; right; right; left. exact (names_of_yield _ _ f top_stats_names H).
  - right; right; right; right. injection H as ->. reflexivity.
Qed.

(** ** The zone-info family *)

Lemma zone_samples_return zs :
  collect_samples (map JObj zs) zone_sample = inr (map zone_info_sample zs).
Proof.
  induction zs as [| z rest IH]; [reflexivity|].
  cbn [map collect_samples]. rewrite IH. reflexivity.
Qed.

Lemma zone_health_run pkvs zs :
  zones_payload = JObj pkvs ->
  dict_get pkvs "zones" (JArr []) = JArr (map JObj zs) ->
  zone_health
  = ((fst (_call_api "/api/zones/list"
             (Some [("pageNumber", JInt 1); ("pageSize", JInt 1000)]))
        ++ match zs with
           | [] => []
           | _ => [Yield (z_info (map zone_info_sample zs))]
           end)%list,
     inr tt).
Proof.
  unfold zones_payload, zone_health. intros Hpayload Hzones.
  rewrite call_api_run, Hpayload. cbn [bind lift py_get]. rewrite Hzones.
  destruct zs as [| z rest]; [reflexivity|].
  pose proof (zone_samples_return (z :: rest)) as Hs.
  cbn [map truthy py_iter sbind] in Hs |- *. rewrite Hs. reflexivity.
Qed.

(** C7 (as the code has it): in a cycle that reaches the zones query, for a
    returned zone list whose elements are all objects, a family named
    technitium_zone is yielded only for a non-empty list and is then the info
    family with exactly one sample per zone, in order: the server label, the
    name and the type (default "unknown"), the disabled and internal flags as
    the lowered text of their values ("true" or "false" for a boolean, "false"
    by default), and the serial as text (default "0"); for a non-empty list it
    is yielded. *)
Theorem zone_info_family start_t end_t pkvs (zs : list (list (string * json))) :
  sent "/api/zones/list" (fst (collect start_t end_t)) ->
  zones_payload = JObj pkvs ->
  dict_get pkvs "zones" (JArr []) = JArr (map JObj zs) ->
  let z_family :=
    Family Info "technitium_zone" "Zone detailed information"
      ["server"; "zone"; "type"; "disabled"; "internal"]
      (map zone_info_sample zs) in
  (forall f, In f (yielded (fst (collect start_t end_t))) ->
             f_name f = "technitium_zone" -> zs <> [] /\ f = z_family)
  /\ (zs <> [] -> In z_family (yielded (fst (collect start_t end_t))))
  /\ (forall b : bool, py_lower (py_str (JBool b)) = if b then "true" else "false")
  /\ py_str (JInt 0) = "0".
Proof.
  intros Hsent Hpayload Hzones z_family.
  pose proof (zone_health_run pkvs zs Hpayload Hzones) as Hrun.
  repeat split.
  - destruct (yielded_by_step start_t end_t f H)
      as [Hn | [[_ Hf] | [[_ [_ Hf]] | [Hn | ->]]]]; try discriminate.
    + exfalso. rewrite H0 in Hn. cbn in Hn. intuition discriminate.
    + rewrite Hrun in Hf. cbn [fst] in Hf.
      rewrite yielded_app, call_api_yields_nothing in Hf.
      destruct zs; [contradiction | discriminate].
    + exfalso. apply in_yielded in Hf.
      pose proof (names_of_yield _ _ f dhcp_stats_names Hf) as Hn.
      rewrite H0 in Hn. cbn in Hn. intuition discriminate.
    + exfalso. rewrite H0 in Hn. cbn in Hn. intuition discriminate.
  - destruct (yielded_by_step start_t end_t f H)
      as [Hn | [[_ Hf] | [[_ [_ Hf]] | [Hn | ->]]]]; try discriminate.
    + exfalso. rewrite H0 in Hn. cbn in Hn. intuition discriminate.
    + rewrite Hrun in Hf. cbn [fst] in Hf.
      rewrite yielded_app, call_api_yields_nothing in Hf.
      destruct zs; [contradiction|]. destruct Hf as [<- | []]. reflexivity.
    + exfalso. apply in_yielded in Hf.
      pose proof (names_of_yield _ _ f dhcp_stats_names Hf) as Hn.
      rewrite H0 in Hn. cbn in Hn. intuition discriminate.
    + exfalso. rewrite H0 in Hn. cbn in Hn. intuition discriminate.
  - intros Hne. apply yielded_in. unfold collect.
    eapply in_bind_r; [reflexivity|].
    eapply in_bind_r; [exact (zones_sent_after start_t end_t Hsent)|].
    apply in_bind_l. rewrite Hrun. cbn [fst]. apply in_or_app. right.
    destruct zs; [congruence | left; reflexivity].
  - destruct b; reflexivity.
Qed.

(** ** The DHCP lease counts *)

Lemma embed_types_cons t n rest :
  embed_types ((t, n) :: rest) = (JStr t, n) :: embed_types rest.
Proof. reflexivity. Qed.

Lemma embed_counts_cons s tm rest :
  embed_counts ((s, tm) :: rest) = (JStr s, embed_types tm) :: embed_counts rest.
Proof. reflexivity. Qed.

Lemma count_incr_embed tm t :
  count_incr (embed_types tm) (JStr t) = embed_types (bump tm t).
Proof.
  induction tm as [| [t' n] rest IH]; [reflexivity|].
  rewrite embed_types_cons. cbn [count_incr bump key_eqb].
  destruct (t' =? t); [reflexivity|].
  rewrite embed_types_cons, IH. reflexivity.
Qed.

Lemma counts_incr_embed c s t :
  counts_incr (embed_counts c) (JStr s) (JStr t) = embed_counts (bump2 c s t).
Proof.
  induction c as [| [s' tm] rest IH]; [reflexivity|].
  rewrite embed_counts_cons. cbn [counts_incr bump2 key_eqb].
  destruct (s' =? s).
  - rewrite embed_counts_cons, count_incr_embed. reflexivity.
  - rewrite embed_counts_cons, IH. reflexivity.
Qed.

Lemma count_leases_embed :
  forall (ls : list (list (string * json))) (keys : list (string * string)) c,
    map lease_key ls = map (fun st => (JStr (fst st), JStr (snd st))) keys ->
    count_leases (map JObj ls) (embed_counts c)
    = inr (embed_counts (fold_left (fun c st => bump2 c (fst st) (snd st)) keys c)).
Proof.
  induction ls as [| l rest IH]; intros keys c Hkeys.
  - destruct keys; [reflexivity | discriminate].
  - destruct keys as [| [s t] keys]; [discriminate|].
    cbn [map] in Hkeys. unfold lease_key at 1 in Hkeys. cbn [fst snd] in Hkeys.
    injection Hkeys as Hs Ht Hrest.
    cbn [map count_leases fold_left fst snd]. unfold count_lease.
    cbn [py_get sbind]. rewrite Hs, Ht. cbn [hashable negb].
    rewrite counts_incr_embed. cbn [sbind]. apply IH. exact Hrest.
Qed.

Lemma count_items_embed c :
  count_items (embed_counts c)
  = map (fun g => (JStr (fst (fst g)), JStr (snd (fst g)), snd g)) (tally_items c).
Proof.
  unfold count_items, tally_items, embed_counts, embed_types.
  induction c as [| [s tm] rest IH]; [reflexivity|].
  cbn [map flat_map fst snd]. rewrite map_app, IH. f_equal.
  rewrite !map_map. reflexivity.
Qed.

Ltac eqb_cases :=
  repeat match goal with
    | |- context [(?a =? ?b)%string] =>
        destruct (String.eqb_spec a b); subst; cbn [andb get1 get2]
    end;
  try congruence.

Lemma get1_bump tm t t' :
  get1 (bump tm t) t'
  = if t' =? t
    then Some (match get1 tm t with Some n => n + 1 | None => 1 end)%Z
    else get1 tm t'.
Proof.
  induction tm as [| [t0 n] rest IH]; cbn [bump get1].
  - eqb_cases.
  - destruct (String.eqb_spec t0 t) as [E | Hne]; cbn [get1].
    + subst t0. eqb_cases.
    + rewrite IH. eqb_cases.
Qed.

Lemma get2_bump2 c s t s' t' :
  get2 (bump2 c s t) s' t'
  = if (s' =? s) && (t' =? t)
    then Some (match get2 c s t with Some n => n + 1 | None => 1 end)%Z
    else get2 c s' t'.
Proof.
  induction c as [| [s0 tm] rest IH]; cbn [bump2 get2 get1].
  - eqb_cases.
  - destruct (String.eqb_spec s0 s) as [E | Hne]; cbn [get2].
    + subst s0. destruct (String.eqb_spec s s') as [E | Hne'].
      * subst s'. rewrite String.eqb_refl. cbn [andb]. apply get1_bump.
      * rewrite (proj2 (String.eqb_neq s' s)) by congruence. reflexivity.
    + rewrite IH. eqb_cases.
Qed.

Lemma fold_bump2_get keys :
  forall c s t,
    get2 (fold_left (fun c st => bump2 c (fst st) (snd st)) keys c) s t
    = match get2 c s t with
      | Some n => Some (n + leases_in_group keys (s, t))%Z
      | None => if (leases_in_group keys (s, t) =? 0)%Z then None
                else Some (leases_in_group keys (s, t))
      end.
Proof.
  unfold leases_in_group.
  induction keys as [| [s0 t0] keys IH]; intros c s t; cbn [fold_left fst snd].
  - cbn. destruct (get2 c s t); [f_equal; lia | reflexivity].
  - rewrite IH, get2_bump2. cbn [count_occ].
    destruct (pair_eq_dec (s0, t0) (s, t)) as [Heq | Hne].
    + injection Heq as -> ->. rewrite !String.eqb_refl. cbn [andb].
      destruct (get2 c s t) as [n |].
      * f_equal. lia.
      * replace (Z.of_nat (S (count_occ pair_eq_dec keys (s, t))) =? 0)%Z
          with false by (symmetry; apply Z.eqb_neq; lia).
        f_equal. lia.
    + assert (Hb : (s =? s0) && (t =? t0) = false).
      { apply andb_false_iff.
        destruct (String.eqb_spec s s0) as [-> |]; [|auto].
        destruct (String.eqb_spec t t0) as [-> |]; [congruence | auto]. }
      rewrite Hb. reflexivity.
Qed.

Lemma bump_keys_in tm t x :
  In x (map fst (bump tm t)) -> x = t \/ In x (map fst tm).
Proof.
  induction tm as [| [t0 n] rest IH]; cbn [bump map fst In].
  - intros [H | []]. auto.
  - destruct (t0 =? t); cbn [map fst In]; [tauto|].
    intros [H | H]; [auto|]. destruct (IH H); auto.
Qed.

Lemma bump_nodup tm t : NoDup (map fst tm) -> NoDup (map fst (bump tm t)).
Proof.
  induction tm as [| [t0 n] rest IH]; cbn [bump map fst]; intros Hnd.
  - constructor; [intros [] | constructor].
  - inversion Hnd as [| x l Hnotin Hrest]; subst.
    destruct (String.eqb_spec t0 t) as [E | Hne]; cbn [map fst].
    + constructor; assumption.
    + constructor; [|apply IH; exact Hrest].
      intros Hin. destruct (bump_keys_in rest t t0 Hin); [congruence | contradiction].
Qed.

Lemma bump2_keys_in c s t x :
  In x (map fst (bump2 c s t)) -> x = s \/ In x (map fst c).
Proof.
  induction c as [| [s0 tm] rest IH]; cbn [bump2 map fst In].
  - intros [H | []]. auto.
  - destruct (s0 =? s); cbn [map fst In]; [tauto|].
    intros [H | H]; [auto|]. destruct (IH H); auto.
Qed.

Lemma bump2_nodup c s t :
  NoDup (map fst c) -> NoDup (map fst (bump2 c s t)).
Proof.
  induction c as [| [s0 tm] rest IH]; cbn [bump2 map fst]; intros Hnd.
  - constructor; [intros [] | constructor].
  - inversion Hnd as [| x l Hnotin Hrest]; subst.
    destruct (String.eqb_spec s0 s) as [E | Hne]; cbn [map fst].
    + constructor; assumption.
    + constructor; [|apply IH; exact Hrest].
      intros Hin. destruct (bump2_keys_in rest s t s0 Hin); [congruence | contradiction].
Qed.

Lemma bump2_inner_nodup c s t :
  Forall (fun st => NoDup (map fst (snd st))) c ->
  Forall (fun st => NoDup (map fst (snd st))) (bump2 c s t).
Proof.
  induction c as [| [s0 tm] rest IH]; cbn [bump2]; intros Hall.
  - repeat constructor. intros [].
  - inversion Hall as [| x l Hhead Hrest]; subst. cbn [snd] in Hhead.
    destruct (s0 =? s); constructor; auto.
    cbn [snd]. apply bump_nodup. exact Hhead.
Qed.

Lemma fold_bump2_nodup keys :
  forall c,
    NoDup (map fst c) ->
    Forall (fun st => NoDup (map fst (snd st))) c ->
    NoDup (map fst (fold_left (fun c st => bump2 c (fst st) (snd st)) keys c))
    /\ Forall (fun st => NoDup (map fst (snd st)))
         (fold_left (fun c st => bump2 c (fst st) (snd st)) keys c).
Proof.
  induction keys as [| [s t] keys IH]; intros c Hnd Hin; cbn [fold_left fst snd].
  - split; assumption.
  - apply IH; [apply bump2_nodup | apply bump2_inner_nodup]; assumption.
Qed.

Lemma get1_in tm t n :
  NoDup (map fst tm) -> (In (t, n) tm <-> get1 tm t = Some n).
Proof.
  induction tm as [| [t0 n0] rest IH]; cbn [map fst get1 In]; intros Hnd.
  - split; [intros [] | discriminate].
  - inversion Hnd as [| x l Hnotin Hrest]; subst. specialize (IH Hrest).
    destruct (String.eqb_spec t0 t) as [E | Hne].
    + subst t0. split.
      * intros [H | H]; [congruence|]. exfalso. apply Hnotin.
        apply in_map_iff. exists (t, n). auto.
      * intros H. left. congruence.
    + split.
      * intros [H | H]; [congruence | apply IH; exact H].
      * intros H. right. apply IH. exact H.
Qed.

Lemma in_tally_items c s t n :
  In (s, t, n) (tally_items c) <-> exists tm, In (s, tm) c /\ In (t, n) tm.
Proof.
  unfold tally_items. rewrite in_flat_map. split.
  - intros [[s0 tm] [Hc Hin]]. cbn [fst snd] in Hin.
    apply in_map_iff in Hin. destruct Hin as [[t0 n0] [Heq Htm]].
    cbn [fst snd] in Heq. injection Heq as -> -> ->. eauto.
  - intros [tm [Hc Htm]]. exists (s, tm). split; [exact Hc|].
    cbn [fst snd]. apply in_map_iff. exists (t, n). auto.
Qed.

Lemma get2_in c s t n :
  NoDup (map fst c) ->
  Forall (fun st => NoDup (map fst (snd st))) c ->
  (In (s, t, n) (tally_items c) <-> get2 c s t = Some n).
Proof.
  rewrite in_tally_items.
  induction c as [| [s0 tm] rest IH]; cbn [map fst get2]; intros Hnd Hinner.
  - split; [intros [tm [[] _]] | discriminate].
  - inversion Hnd as [| x l Hnotin Hrest]; subst.
    inversion Hinner as [| x l Hhead Htail]; subst. cbn [snd] in Hhead.
    specialize (IH Hrest Htail).
    destruct (String.eqb_spec s0 s) as [E | Hne].
    + subst s0. rewrite <- (get1_in tm t n Hhead). split.
      * intros [tm' [[Heq | Hin] Htm]]; [congruence|].
        exfalso. apply Hnotin. apply in_map_iff. exists (s, tm'). auto.
      * intros H. exists tm. split; [left; reflexivity | exact H].
    + rewrite <- IH. split.
      * intros [tm' [[Heq | Hin] Htm]]; [congruence | eauto].
      * intros [tm' [Hin Htm]]. exists tm'. split; [right; exact Hin | exact Htm].
Qed.

Lemma tally_items_nodup c :
  NoDup (map fst c) ->
  Forall (fun st => NoDup (map fst (snd st))) c ->
  NoDup (map fst (tally_items c)).
Proof.
  induction c as [| [s0 tm] rest IH]; intros Hnd Hinner; [constructor|].
  inversion Hnd as [| x l Hnotin Hrest]; subst.
  inversion Hinner as [| x l Hhead Htail]; subst. cbn [snd] in Hhead.
  unfold tally_items. cbn [flat_map fst snd]. fold (tally_items rest).
  rewrite map_app, map_map. cbn [fst].
  apply NoDup_app.
  - clear -Hhead. induction tm as [| [t n] tm IH]; [constructor|].
    cbn [map fst] in *. inversion Hhead as [| x l Hn Hr]; subst.
    constructor; [|apply IH; exact Hr].
    intros Hin. apply in_map_iff in Hin. destruct Hin as [[t' n'] [Heq Hin]].
    cbn [fst] in Heq. injection Heq as ->. apply Hn.
    apply in_map_iff. exists (t, n'). auto.
  - apply IH; assumption.
  - intros [s t] Hin1 Hin2.
    apply in_map_iff in Hin1. destruct Hin1 as [[t' n'] [Heq _]].
    cbn [fst] in Heq. injection Heq as <- _.
    apply in_map_iff in Hin2. destruct Hin2 as [[[s' t''] n''] [Heq Hin]].
    cbn [fst] in Heq. injection Heq as -> ->.
    apply in_tally_items in Hin. destruct Hin as [tm' [Hin _]].
    apply Hnotin. apply in_map_iff. exists (s0, tm'). auto.
Qed.

(** The groups the code builds are the distinct pairs of the list, each
    once, with the number of its leases. *)
Lemma tally_groups keys :
  NoDup (map fst (tally_items (tally keys)))
  /\ forall s t n,
       In (s, t, n) (tally_items (tally keys))
       <-> (In (s, t) keys /\ n = leases_in_group keys (s, t)).
Proof.
  destruct (fold_bump2_nodup keys [] (NoDup_nil _) (Forall_nil _)) as [Hnd Hinner].
  fold (tally keys) in Hnd, Hinner. split.
  - apply tally_items_nodup; assumption.
  - intros s t n. rewrite (get2_in (tally keys) s t n Hnd Hinner).
    unfold tally. rewrite fold_bump2_get. cbn [get2].
    unfold leases_in_group.
    pose proof (count_occ_In pair_eq_dec keys (s, t)) as Hocc.
    destruct (Z.eqb_spec (Z.of_nat (count_occ pair_eq_dec keys (s, t))) 0) as [E | E].
    + split; [discriminate|]. intros [Hin _]. apply Hocc in Hin. lia.
    + split.
      * intros H. injection H as <-. split; [apply Hocc; lia | reflexivity].
      * intros [_ ->]. reflexivity.
Qed.

Lemma py_float_int n : converts (JInt n) -> py_float (JInt n) = inr (float_of_Z n).
Proof.
  intros [f Hf]. unfold py_float in *. destruct (float_of_Z n); congruence.
Qed.

Lemma group_sizes keys s t n :
  In (s, t, n) (tally_items (tally keys)) ->
  (0 < n <= Z.of_nat (List.length keys))%Z.
Proof.
  intros H. apply (proj2 (tally_groups keys)) in H. destruct H as [Hin ->].
  unfold leases_in_group.
  pose proof (proj1 (count_occ_In pair_eq_dec keys (s, t)) Hin).
  pose proof (count_occ_bound pair_eq_dec (s, t) keys). lia.
Qed.

Lemma dhcp_stats_run pkvs ls keys :
  leases_payload = JObj pkvs ->
  dict_get pkvs "leases" (JArr []) = JArr (map JObj ls) ->
  map lease_key ls = map (fun st => (JStr (fst st), JStr (snd st))) keys ->
  (forall n, (0 < n <= Z.of_nat (List.length ls))%Z -> converts (JInt n)) ->
  dhcp_stats
  = ((fst (_call_api "/api/dhcp/leases/list" None)
        ++ match ls with
           | [] => []
           | _ =>
               [Yield (dhcp_lease_metric
                         (map (fun g => Sample [server; JStr (fst (fst g));
                                                JStr (snd (fst g))]
                                          (GaugeValue (float_of_Z (snd g))))
                            (tally_items (tally keys))))]
           end)%list,
     inr tt).
Proof.
  unfold leases_payload, dhcp_stats. intros Hpayload Hleases Hkeys Hconv.
  rewrite call_api_run, Hpayload. cbn [bind lift py_get]. rewrite Hleases.
  destruct ls as [| l rest]; [reflexivity|].
  set (ls := l :: rest) in *.
  assert (Hlen : List.length keys = List.length ls).
  { rewrite <- (length_map (fun st => (JStr (fst st), JStr (snd st))) keys),
      <- Hkeys, length_map. reflexivity. }
  assert (Hsamples :
    sbind (py_iter (JArr (map JObj ls)))
      (fun ls0 => sbind (count_leases ls0 [])
                    (fun counts => collect_samples (count_items counts) lease_sample))
    = inr (map (fun g => Sample [server; JStr (fst (fst g)); JStr (snd (fst g))]
                           (GaugeValue (float_of_Z (snd g))))
             (tally_items (tally keys)))).
  { cbn [py_iter sbind].
    change (@nil (json * list (json * Z))) with (embed_counts []).
    rewrite (count_leases_embed ls keys [] Hkeys). cbn [sbind].
    fold (tally keys). rewrite count_items_embed.
    generalize (group_sizes keys).
    induction (tally_items (tally keys)) as [| [[s t] n] items IH]; intros Hsize;
      [reflexivity|].
    cbn [map collect_samples lease_sample fst snd].
    rewrite py_float_int.
    2:{ apply Hconv. rewrite <- Hlen. apply (Hsize s t n). left. reflexivity. }
    cbn [sbind]. rewrite IH; [reflexivity|].
    intros s' t' n' Hin. apply (Hsize s' t' n'). right. exact Hin. }
  subst ls. cbn [map truthy] in Hsamples |- *. cbn [bind lift].
  rewrite Hsamples. reflexivity.
Qed.

(** C8 (as the code has it): in a cycle that reaches the leases query, for
    a returned list of lease objects whose scope and type are
    strings (default "unknown" and "Unknown") and whose length [float] can
    take (as that of any list in memory), a family named
    technitium_dhcp_leases_total is yielded only for a non-empty list and then
    holds exactly one sample per distinct (scope, type) pair of the list,
    with the server label, the scope and the type as labels and the number of
    leases of the pair as value; for a non-empty list it is yielded. *)
Theorem dhcp_lease_family start_t end_t pkvs
  (ls : list (list (string * json))) (keys : list (string * string)) :
  sent "/api/dhcp/leases/list" (fst (collect start_t end_t)) ->
  leases_payload = JObj pkvs ->
  dict_get pkvs "leases" (JArr []) = JArr (map JObj ls) ->
  map lease_key ls = map (fun st => (JStr (fst st), JStr (snd st))) keys ->
  (forall n, (0 < n <= Z.of_nat (List.length ls))%Z -> converts (JInt n)) ->
  exists groups : list (string * string * Z),
    NoDup (map fst groups)
    /\ (forall s t n,
          In (s, t, n) groups
          <-> (In (s, t) keys /\ n = leases_in_group keys (s, t)))
    /\ let d_family :=
         Family Gauge "technitium_dhcp_leases_total"
           "Number of DHCP leases by scope and type" ["server"; "scope"; "type"]
           (map (fun g => Sample [JStr SERVER_LABEL; JStr (fst (fst g));
                                  JStr (snd (fst g))]
                            (GaugeValue (float_of_Z (snd g)))) groups) in
       (forall f, In f (yielded (fst (collect start_t end_t))) ->
                  f_name f = "technitium_dhcp_leases_total" ->
                  ls <> [] /\ f = d_family)
       /\ (ls <> [] -> In d_family (yielded (fst (collect start_t end_t)))).
Proof.
  intros Hsent Hpayload Hleases Hkeys Hconv.
  pose proof (dhcp_stats_run pkvs ls keys Hpayload Hleases Hkeys Hconv) as Hrun.
  destruct (tally_groups keys) as [Hnd Hgroups].
  exists (tally_items (tally keys)). split; [exact Hnd|]. split; [exact Hgroups|].
  cbn zeta. split.
  - intros f Hf Hname.
    destruct (yielded_by_step start_t end_t f Hf)
      as [Hn | [[_ Hz] | [[_ [_ Hd]] | [Hn | ->]]]]; try discriminate.
    + exfalso. rewrite Hname in Hn. cbn in Hn. intuition discriminate.
    + exfalso. apply in_yielded in Hz.
      pose proof (names_of_yield _ _ f zone_health_names Hz) as Hn.
      rewrite Hname in Hn. cbn in Hn. intuition discriminate.
    + rewrite Hrun in Hd. cbn [fst] in Hd.
      rewrite yielded_app, call_api_yields_nothing in Hd.
      destruct ls; [contradiction|]. destruct Hd as [<- | []].
      split; [discriminate | reflexivity].
    + exfalso. rewrite Hname in Hn. cbn in Hn. intuition discriminate.
  - intros Hne. apply yielded_in. unfold collect.
    destruct (leases_sent_after start_t end_t Hsent) as [H1 H2].
    eapply in_bind_r; [reflexivity|].
    eapply in_bind_r; [exact H1|].
    eapply in_bind_r; [exact H2|].
    apply in_bind_l. rewrite Hrun. cbn [fst]. apply in_or_app. right.
    destruct ls; [congruence | left; reflexivity].
Qed.

(** ** The chart families *)

Lemma zip_length {A B : Type} (a : list A) :
  forall b : list B, List.length (zip a b) = Nat.min (List.length a) (List.length b).
Proof.
  induction a as [| x a IH]; intros [| y b]; cbn; try reflexivity.
  rewrite IH. reflexivity.
Qed.

Lemma collect_samples_Forall2 {A : Type} (R : A -> sample -> Prop)
  (f : A -> exn + sample) :
  (forall x s, f x = inr s -> R x s) ->
  forall l ss, collect_samples l f = inr ss -> Forall2 R l ss.
Proof.
  intros Hf. induction l as [| x rest IH]; intros ss H; cbn in H.
  - injection H as <-. constructor.
  - destruct (f x) as [e | s] eqn:Hx; [discriminate|].
    destruct (collect_samples rest f) as [e | ss'] eqn:Hrest; [discriminate|].
    injection H as <-. constructor; [apply Hf; exact Hx | apply IH; reflexivity].
Qed.

Lemma chart_sample_pairs lv s : chart_sample lv = inr s -> pairs_with lv s.
Proof.
  unfold chart_sample, pairs_with. destruct lv as [label val]. cbn [fst snd].
  destruct (py_float val) as [e | v]; cbn [sbind]; [discriminate|].
  intros H. injection H as <-. cbn. eauto.
Qed.

Lemma chart_metric_yield stats_data key name doc label_name (f : family) :
  In (Yield f) (fst (chart_metric stats_data key name doc label_name)) ->
  f_name f = name /\ chart_family_spec stats_data key f.
Proof.
  unfold chart_metric.
  destruct stats_data as [| | | | | | pkvs];
    try (cbn [py_get]; rewrite bind_lift_inl; intros []).
  cbn [py_get]. rewrite bind_lift_inr.
  destruct (dict_get pkvs key (JObj [])) as [| | | | | | chart] eqn:Hchart;
    try (destruct (truthy _);
         [cbn [py_get]; rewrite bind_lift_inl; cbn [bind]; intros []
         | rewrite bind_ret; intros []]).
  destruct chart as [| kv chart']; [cbn [truthy]; rewrite bind_ret; intros []|].
  set (chart := kv :: chart') in *.
  replace (truthy (JObj chart)) with true by reflexivity.
  cbn [py_get]. rewrite bind_lift_inr, bind_ret.
  destruct (truthy (dict_get chart "datasets" JNull)) eqn:Hsets; [|intros []].
  rewrite bind_lift_inr. cbn [py_getitem].
  destruct (dict_mem chart "datasets");
    [|cbn [sbind]; rewrite bind_lift_inl; intros []].
  cbn [sbind].
  destruct (dict_get chart "datasets" JNull) as [| | | | s | dsets | ] eqn:Hdsets;
    try (cbn [py_index0 sbind]; rewrite bind_lift_inl; intros []).
  { cbn [py_index0]. destruct (code_points s);
      cbn [sbind py_get]; rewrite bind_lift_inl; intros []. }
  destruct dsets as [| first others];
    [cbn [py_index0 sbind]; rewrite bind_lift_inl; intros []|].
  cbn [py_index0 sbind].
  destruct first as [| | | | | | first];
    try (cbn [py_get]; rewrite bind_lift_inl; intros []).
  cbn [py_get]. rewrite bind_lift_inr.
  destruct (py_iter (dict_get chart "labels" (JArr []))) as [e | labels] eqn:Hlabels;
    [cbn [sbind]; rewrite bind_lift_inl; intros []|].
  destruct (py_iter (dict_get first "data" (JArr []))) as [e | data] eqn:Hdata;
    [cbn [sbind]; rewrite bind_lift_inl; intros []|].
  cbn [sbind]. rewrite bind_lift_inr.
  destruct (collect_samples (zip labels data) chart_sample) as [e | samples] eqn:Hs;
    [rewrite bind_lift_inl; intros []|].
  rewrite bind_lift_inr. cbn [emit fst In]. intros [H | []]. injection H as <-.
  split; [reflexivity|].
  exists pkvs, chart, first, others, labels, data. cbn [f_samples].
  repeat split; try assumption; try reflexivity.
  - discriminate.
  - apply (collect_samples_Forall2 pairs_with chart_sample chart_sample_pairs _ _ Hs).
  - rewrite (collect_samples_length chart_sample _ _ Hs). apply zip_length.
Qed.

Lemma chart_metric_trace stats_data key name doc label_name :
  trace_all (yields_as name (chart_family_spec stats_data key))
    (chart_metric stats_data key name doc label_name).
Proof.
  unfold trace_all. apply Forall_forall. intros [f | l | url ps | now] Hin; cbn; auto.
  intros _. exact (proj2 (chart_metric_yield _ _ _ _ _ f Hin)).
Qed.

Lemma simple_gauges_names stats :
  trace_all (names_within (map fst simple_map)) (for_each simple_map (simple_gauge stats)).
Proof.
  apply trace_all_for_each_in. intros x Hx. cbn in Hx.
  repeat (destruct Hx as [<- | Hx]); [.. | contradiction];
    unfold simple_gauge; repeat names_step.
Qed.

Lemma dashboard_stats_charts key name doc label_name :
  In (key, name, doc, label_name) chart_blocks ->
  trace_all (yields_as name (chart_family_spec stats_payload key)) dashboard_stats.
Proof.
  intros Hblock. unfold dashboard_stats.
  apply trace_all_bind; [apply call_api_trace; intros; exact I|].
  intros stats_data Hdata. rewrite call_api_returns in Hdata.
  injection Hdata as <-. fold stats_payload.
  apply trace_all_bind; [apply trace_all_lift|]. intros stats _.
  assert (Hsimple : trace_all (yields_as name (chart_family_spec stats_payload key))
                      (for_each simple_map (simple_gauge stats))).
  { apply (names_within_yields_as (map fst simple_map));
      [|apply simple_gauges_names].
    cbn in Hblock |- *.
    repeat (destruct Hblock as [Hb | Hblock]; [injection Hb as <- <- <- <-|]);
      try contradiction; intuition discriminate. }
  cbn in Hblock.
  repeat (destruct Hblock as [Hb | Hblock]; [injection Hb as <- <- <- <-|]);
    try contradiction;
    (apply trace_all_bind; [apply trace_all_emit; cbn; intros; discriminate|];
     intros _ _; apply trace_all_if; [|apply trace_all_ret];
     unfold stats_metrics;
     apply trace_all_bind; [exact Hsimple|]; intros _ _;
     apply trace_all_bind; [apply trace_all_lift|]; intros samples _;
     apply trace_all_bind; [apply trace_all_emit; cbn; intros; discriminate|];
     intros _ _;
     repeat first
       [ apply chart_metric_trace
       | apply names_within_yields_as with (2 := chart_metric_names _ _ _ _ _);
         cbn; intuition discriminate
       | apply trace_all_bind; [| intros _ _] ]).
Qed.

Lemma chart_samples_return pairs :
  (forall l v, In (l, v) pairs -> converts v) ->
  exists samples, collect_samples pairs chart_sample = inr samples.
Proof.
  induction pairs as [| [l v] rest IH]; intros Hconv; [eexists; reflexivity|].
  destruct (Hconv l v (or_introl eq_refl)) as [x Hx].
  destruct IH as [ss Hss]; [intros l' v' Hin; apply (Hconv l' v'); right; exact Hin|].
  exists (Sample [server; l] (GaugeValue x) :: ss).
  cbn [collect_samples chart_sample]. rewrite Hx. cbn [sbind]. rewrite Hss.
  reflexivity.
Qed.

(** The block of a chart with a first dataset, arrays of labels and data, and
    paired values that convert: only the pairs are read. *)
Lemma chart_metric_zip pkvs key name doc label_name chart first others ls ds :
  dict_get pkvs key (JObj []) = JObj chart ->
  chart <> [] ->
  dict_get chart "datasets" JNull = JArr (JObj first :: others) ->
  dict_get chart "labels" (JArr []) = JArr ls ->
  dict_get first "data" (JArr []) = JArr ds ->
  (forall l v, In (l, v) (zip ls ds) -> converts v) ->
  exists samples,
    chart_metric (JObj pkvs) key name doc label_name
    = ([Yield (Family Gauge name doc ["server"; label_name] samples)], inr tt)
    /\ Forall2 pairs_with (zip ls ds) samples
    /\ List.length samples = Nat.min (List.length ls) (List.length ds).
Proof.
  intros Hchart Hne Hsets Hlabels Hdata Hconv.
  destruct (chart_samples_return (zip ls ds) Hconv) as [samples Hs].
  exists samples. split; [|split].
  - unfold chart_metric. cbn [py_get]. rewrite bind_lift_inr, Hchart.
    destruct chart as [| kv chart']; [congruence|]. set (chart := kv :: chart') in *.
    replace (truthy (JObj chart)) with true by reflexivity.
    cbn [py_get]. rewrite bind_lift_inr, bind_ret, Hsets. cbn [truthy].
    rewrite bind_lift_inr. cbn [py_getitem].
    destruct (dict_mem chart "datasets") eqn:Hmem.
    2:{ rewrite (dict_get_absent chart "datasets" JNull Hmem) in Hsets.
        discriminate. }
    rewrite Hsets. cbn [sbind py_index0 py_get]. rewrite bind_lift_inr.
    rewrite Hlabels, Hdata. cbn [py_iter sbind]. rewrite bind_lift_inr, Hs.
    rewrite bind_lift_inr. reflexivity.
  - exact (collect_samples_Forall2 pairs_with chart_sample chart_sample_pairs _ _ Hs).
  - rewrite (collect_samples_length chart_sample _ _ Hs). apply zip_length.
Qed.

(** The chart blocks run one after the other at the end of the stats step. *)
Lemma chart_block_in_stats_metrics pkvs kvs pre post key name doc label_name ev :
  (forall k v, In (k, v) kvs -> converts v) ->
  chart_blocks = (pre ++ (key, name, doc, label_name) :: post)%list ->
  Forall (chart_returns (JObj pkvs)) pre ->
  In ev (fst (chart_metric (JObj pkvs) key name doc label_name)) ->
  In ev (fst (stats_metrics (JObj pkvs) (JObj kvs))).
Proof.
  intros Hconv Hsplit Hpre Hev. unfold stats_metrics.
  eapply in_bind_r; [exact (simple_gauges_return kvs Hconv)|].
  rewrite (q_samples_return kvs Hconv), bind_lift_inr.
  eapply in_bind_r; [reflexivity|].
  unfold chart_blocks in Hsplit.
  destruct pre as [| b1 [| b2 [| b3 pre]]]; cbn [app] in Hsplit.
  - inversion Hsplit; subst. apply in_bind_l. exact Hev.
  - inversion Hsplit; subst. apply Forall_inv in Hpre.
    eapply in_bind_r; [exact Hpre|]. apply in_bind_l. exact Hev.
  - inversion Hsplit; subst.
    pose proof (Forall_inv Hpre) as H1.
    pose proof (Forall_inv (Forall_inv_tail Hpre)) as H2.
    eapply in_bind_r; [exact H1|]. eapply in_bind_r; [exact H2|]. exact Hev.
  - exfalso. inversion Hsplit as [[Hb1 Hb2 Hb3 Hnil]].
    destruct pre; discriminate Hnil.
Qed.

(** C6 (as the code has it): a family of one of the three chart blocks is
    yielded in a cycle only if its chart object is present with a first
    dataset, and its samples then pair the labels with the data of that
    dataset position by position, as many as the shorter of the two.  It is
    yielded, with exactly these samples, in a cycle whose stats answer holds
    counters that convert, whose earlier chart blocks return, and whose chart
    holds an array of labels and, in its first dataset, an array of data
    whose paired values convert; what lies beyond the shorter array is not
    read. *)
Theorem chart_families start_t end_t key name doc label_name :
  In (key, name, doc, label_name) chart_blocks ->
  (forall f, In f (yielded (fst (collect start_t end_t))) ->
             f_name f = name -> chart_family_spec stats_payload key f)
  /\ (forall pkvs kvs pre post chart first others ls ds,
        stats_payload = JObj pkvs ->
        dict_get pkvs "stats" (JObj []) = JObj kvs ->
        kvs <> [] ->
        (forall k v, In (k, v) kvs -> converts v) ->
        chart_blocks = (pre ++ (key, name, doc, label_name) :: post)%list ->
        Forall (chart_returns (JObj pkvs)) pre ->
        dict_get pkvs key (JObj []) = JObj chart ->
        chart <> [] ->
        dict_get chart "datasets" JNull = JArr (JObj first :: others) ->
        dict_get chart "labels" (JArr []) = JArr ls ->
        dict_get first "data" (JArr []) = JArr ds ->
        (forall l v, In (l, v) (zip ls ds) -> converts v) ->
        exists samples,
          In (Family Gauge name doc ["server"; label_name] samples)
            (yielded (fst (collect start_t end_t)))
          /\ Forall2 pairs_with (zip ls ds) samples
          /\ List.length samples = Nat.min (List.length ls) (List.length ds)).
Proof.
  intros Hblock. split.
  - intros f Hf Hname. apply in_yielded in Hf.
    assert (Hother : forall ns, In (f_name f) ns -> ~ In name ns -> False).
    { intros ns Hin Hout. rewrite Hname in Hin. contradiction. }
    apply collect_event_cases in Hf.
    destruct Hf as [[H | H] | [H | [[_ H] | [[_ [_ H]] | [_ [_ [_ [H | H]]]]]]]];
      try discriminate.
    + pose proof (dashboard_stats_charts key name doc label_name Hblock) as Hall.
      unfold trace_all in Hall. rewrite Forall_forall in Hall.
      exact (Hall _ H Hname).
    + exfalso. apply (Hother _ (names_of_yield _ _ f zone_health_names H)).
      cbn in Hblock |- *.
      repeat (destruct Hblock as [Hb | Hblock]; [injection Hb as <- <- <- <-|]);
        try contradiction; intuition discriminate.
    + exfalso. apply (Hother _ (names_of_yield _ _ f dhcp_stats_names H)).
      cbn in Hblock |- *.
      repeat (destruct Hblock as [Hb | Hblock]; [injection Hb as <- <- <- <-|]);
        try contradiction; intuition discriminate.
    + exfalso. apply (Hother _ (names_of_yield _ _ f top_stats_names H)).
      cbn in Hblock |- *.
      repeat (destruct Hblock as [Hb | Hblock]; [injection Hb as <- <- <- <-|]);
        try contradiction; intuition discriminate.
    + exfalso. injection H as ->. cbn in Hname, Hblock.
      repeat (destruct Hblock as [Hb | Hblock]; [injection Hb as <- <- <- <-|]);
        try contradiction; subst; discriminate.
  - intros pkvs kvs pre post chart first others ls ds
      Hpayload Hstats Hne Hconv Hsplit Hpre Hchart Hcne Hsets Hlabels Hdata Hpairs.
    destruct (chart_metric_zip pkvs key name doc label_name chart first others
                ls ds Hchart Hcne Hsets Hlabels Hdata Hpairs)
      as [samples [Hrun [Hzip Hlen]]].
    exists samples. split; [|split; assumption].
    apply yielded_in.
    apply (stats_metrics_in_collect start_t end_t pkvs kvs _ Hpayload Hstats Hne).
    apply (chart_block_in_stats_metrics pkvs kvs pre post key name doc label_name
             _ Hconv Hsplit Hpre).
    rewrite Hrun. left. reflexivity.
Qed.

(** ** The scrape duration *)

Lemma shr_1_nonneg mrs : (0 <= shr_m mrs)%Z -> (0 <= shr_m (shr_1 mrs))%Z.
Proof.
  destruct mrs as [m r s]. cbn [shr_m]. intros Hm.
  destruct m as [| p | p]; [cbn; lia | | lia].
  destruct p; cbn; lia.
Qed.

Lemma iter_shr_1_nonneg p :
  forall mrs, (0 <= shr_m mrs)%Z -> (0 <= shr_m (iter_pos shr_1 p mrs))%Z.
Proof.
  induction p as [p IH | p IH |]; intros mrs Hm; cbn [iter_pos].
  - apply IH, IH, shr_1_nonneg, Hm.
  - apply IH, IH, Hm.
  - apply shr_1_nonneg, Hm.
Qed.

Lemma shr_fexp_nonneg m e l :
  (0 <= m)%Z -> (0 <= shr_m (fst (shr_fexp prec emax m e l)))%Z.
Proof.
  intros Hm. unfold shr_fexp, shr.
  assert (H0 : (0 <= shr_m (shr_record_of_loc m l))%Z).
  { destruct l as [| []]; exact Hm. }
  destruct (fexp prec emax (Zdigits2 m + e) - e)%Z; cbn [fst]; try exact H0.
  apply iter_shr_1_nonneg. exact H0.
Qed.

Lemma round_nearest_even_nonneg m l : (0 <= m)%Z -> (0 <= round_nearest_even m l)%Z.
Proof.
  intros Hm. unfold round_nearest_even.
  destruct l as [| []]; try destruct (Z.even m); lia.
Qed.

Lemma binary_round_aux_nonneg m e l :
  (0 <= m)%Z -> non_negative (binary_round_aux prec emax false m e l) = true.
Proof.
  intros Hm. unfold binary_round_aux.
  pose proof (shr_fexp_nonneg m e l Hm) as H1.
  destruct (shr_fexp prec emax m e l) as [mrs' e']. cbn [fst] in H1.
  pose proof (shr_fexp_nonneg
                (round_nearest_even (shr_m mrs') (loc_of_shr_record mrs')) e' loc_Exact
                (round_nearest_even_nonneg _ _ H1)) as H2.
  destruct (shr_fexp prec emax _ e' loc_Exact) as [mrs'' e'']. cbn [fst] in H2.
  destruct (shr_m mrs'') as [| p | p]; [reflexivity | | lia].
  destruct (e'' <=? emax - prec)%Z; reflexivity.
Qed.

Lemma binary_normalize_nonneg m e :
  (0 <= m)%Z -> non_negative (binary_normalize prec emax m e false) = true.
Proof.
  intros Hm. destruct m as [| p | p]; [reflexivity | | lia].
  unfold binary_normalize, binary_round.
  destruct (shl_align p e _) as [mz ez]. apply binary_round_aux_nonneg. lia.
Qed.

Lemma shl_align_value m e ez :
  (ez <= e)%Z -> Z.pos (fst (shl_align m e ez)) = (Z.pos m * 2 ^ (e - ez))%Z.
Proof.
  intros Hle. unfold shl_align. destruct (ez - e)%Z as [| p | d] eqn:Hd.
  - replace (e - ez)%Z with 0%Z by lia. cbn [fst]. rewrite Z.pow_0_r. lia.
  - lia.
  - replace (e - ez)%Z with (Z.pos d) by lia. cbn [fst].
    change (Pos.iter xO m d) with (shift_pos d m).
    rewrite shift_pos_correct. cbn [Z.pow]. lia.
Qed.

(** When the clock has not gone back between the two readings, their
    difference is not negative. *)
Lemma elapsed_nonneg (a b : spec_float) :
  is_reading a = true -> is_reading b = true -> reading_le a b ->
  non_negative (SFsub prec emax b a) = true.
Proof.
  unfold reading_le.
  destruct a as [sa | sa | | sa ma ea], b as [sb | sb | | sb mb eb];
    try discriminate; intros _ _ Hle; cbn [exponent_of signed_mantissa] in Hle.
  - destruct sb, sa; reflexivity.
  - cbn [SFsub non_negative]. destruct sb; [|reflexivity].
    exfalso. pose proof (Z.pow_pos_nonneg 2 (eb - Z.min 0 eb)). nia.
  - cbn [SFsub non_negative]. destruct sa; [reflexivity|].
    exfalso. pose proof (Z.pow_pos_nonneg 2 (ea - Z.min ea 0)). nia.
  - cbn [SFsub]. apply binary_normalize_nonneg.
    rewrite (shl_align_value mb eb (Z.min eb ea)) by lia.
    rewrite (shl_align_value ma ea (Z.min eb ea)) by lia.
    rewrite (Z.min_comm eb ea).
    pose proof (Z.pow_pos_nonneg 2 (ea - Z.min ea eb)).
    pose proof (Z.pow_pos_nonneg 2 (eb - Z.min ea eb)).
    destruct sb, sa; cbn [cond_Zopp] in *;
      change (Z.neg mb) with (- Z.pos mb)%Z in *;
      change (Z.neg ma) with (- Z.pos ma)%Z in *; nia.
Qed.

Lemma collect_returns start_t end_t :
  snd dashboard_stats = inr tt ->
  snd zone_health = inr tt ->
  snd dhcp_stats = inr tt ->
  collect start_t end_t
  = ((Tick start_t
        :: (fst dashboard_stats ++ fst zone_health ++ fst dhcp_stats ++ fst top_stats)
        ++ [Tick end_t; Yield (g_dur start_t end_t)])%list,
     inr tt).
Proof.
  unfold collect. rewrite bind_emit. rewrite top_stats_total.
  destruct dashboard_stats as [t1 r1], zone_health as [t2 r2], dhcp_stats as [t3 r3].
  cbn [snd fst]. intros -> -> ->. cbn. rewrite <- !app_assoc. reflexivity.
Qed.

(** A query that fails leaves its step with nothing to translate: the step
    returns. *)
Lemma failed_queries_return :
  (call_fails (session_get (TECHNITIUM_BASE_URL ++ "/api/dashboard/stats/get")
                 (request_params (Some [("type", JStr TECHNITIUM_STATS_RANGE);
                                        ("utc", JStr "true")]))) = true ->
   snd dashboard_stats = inr tt)
  /\ (call_fails (session_get (TECHNITIUM_BASE_URL ++ "/api/zones/list")
                    (request_params (Some [("pageNumber", JInt 1);
                                           ("pageSize", JInt 1000)]))) = true ->
      snd zone_health = inr tt)
  /\ (call_fails (session_get (TECHNITIUM_BASE_URL ++ "/api/dhcp/leases/list")
                    (request_params None)) = true ->
      snd dhcp_stats = inr tt).
Proof.
  repeat split; intros Hfail;
    destruct (call_api_noisy _ _ Hfail) as [l Hl];
    unfold dashboard_stats, zone_health, dhcp_stats; rewrite Hl; reflexivity.
Qed.

Lemma names_filter ns name {A : Type} (m : M A) :
  trace_all (names_within ns) m -> ~ In name ns ->
  filter (fun f => f_name f =? name) (yielded (fst m)) = [].
Proof.
  unfold trace_all. intros Hall Hout.
  induction (fst m) as [| ev t IH]; [reflexivity|].
  inversion Hall as [| x l Hev Ht]; subst. specialize (IH Ht).
  destruct ev as [f | l | url ps | now]; cbn [yielded flat_map app] in *; auto.
  cbn [filter]. destruct (String.eqb_spec (f_name f) name) as [E | _]; [|exact IH].
  exfalso. cbn in Hev. rewrite E in Hev. contradiction.
Qed.

(** C9 (as the code has it): in a cycle whose first three steps raise
    nothing, the collection returns and the scrape-duration gauge is yielded
    exactly once, as the last family, after a second reading of the clock;
    its value is that reading minus the one taken on entry, before anything
    is sent upstream, and it is not negative when the clock has not gone back
    between the two readings. *)
Theorem scrape_duration_last start_t end_t :
  snd dashboard_stats = inr tt ->
  snd zone_health = inr tt ->
  snd dhcp_stats = inr tt ->
  let duration :=
    Family Gauge "technitium_scrape_duration_seconds" "Exporter scrape duration"
      ["server"]
      [Sample [JStr SERVER_LABEL] (GaugeValue (SFsub prec emax end_t start_t))] in
  snd (collect start_t end_t) = inr tt
  /\ hd_error (fst (collect start_t end_t)) = Some (Tick start_t)
  /\ (exists before,
        fst (collect start_t end_t) = (before ++ [Tick end_t; Yield duration])%list)
  /\ (exists families,
        yielded (fst (collect start_t end_t)) = (families ++ [duration])%list)
  /\ times_yielded "technitium_scrape_duration_seconds" (fst (collect start_t end_t))
     = 1%nat
  /\ (is_reading start_t = true -> is_reading end_t = true ->
      reading_le start_t end_t ->
      non_negative (SFsub prec emax end_t start_t) = true).
Proof.
  intros H1 H2 H3 duration. rewrite (collect_returns start_t end_t H1 H2 H3).
  cbn [fst snd hd_error]. repeat split.
  - eexists (Tick start_t :: _). reflexivity.
  - exists (yielded (fst dashboard_stats ++ fst zone_health ++ fst dhcp_stats
                       ++ fst top_stats)%list).
    change (yielded (Tick start_t :: ?t)) with (yielded t).
    rewrite yielded_app. reflexivity.
  - unfold times_yielded.
    change (yielded (Tick start_t :: ?t)) with (yielded t).
    rewrite !yielded_app, !filter_app.
    rewrite (names_filter dashboard_names _ dashboard_stats dashboard_stats_names),
      (names_filter _ _ zone_health zone_health_names),
      (names_filter _ _ dhcp_stats dhcp_stats_names),
      (names_filter _ _ top_stats top_stats_names);
      try (cbn; intuition discriminate).
  - apply elapsed_nonneg.
Qed.

(** ** Every exception is logged redacted *)

Lemma trace_all_try_raised (P : event -> Prop) {A : Type} (m : M A) (h : exn -> M A) :
  trace_all P m -> (forall e, snd m = inl e -> trace_all P (h e)) ->
  trace_all P (try_except m h).
Proof.
  unfold trace_all, try_except. destruct m as [t [e | a]]; intros Hm Hh; [|exact Hm].
  specialize (Hh e eq_refl). destruct (h e) as [t' r]. cbn in *.
  apply Forall_app. split; assumption.
Qed.

(** The run of the query operation, by the exception of its [try] block. *)
Lemma call_api_by_exception endpoint params :
  match call_exception (session_get (TECHNITIUM_BASE_URL ++ endpoint)
                          (request_params params)) with
  | Some e =>
      _call_api endpoint params
      = ([ Call (TECHNITIUM_BASE_URL ++ endpoint) (request_params params);
           Log (LogError "Request Failed [%s]: %s" [endpoint; redact (exn_msg e)]) ],
         inr (JObj []))
  | None =>
      logged (fst (_call_api endpoint params)) = []
      \/ logged (fst (_call_api endpoint params))
         = [LogError "Technitium API returned non-ok status for %s" [endpoint]]
  end.
Proof.
  unfold _call_api, call_exception.
  destruct (session_get _ _) as [e | r]; [reflexivity|].
  cbn [bind emit lift].
  destruct (raise_for_status r) as [e | []]; cbn [sbind]; [reflexivity|].
  destruct (resp_json r) as [e | data]; cbn [sbind]; [reflexivity|].
  destruct (py_get data "status" JNull) as [e | status]; cbn [sbind];
    [reflexivity|].
  destruct (is_ok status); cbn [negb].
  - destruct (py_get data "response" (JObj [])) as [e | payload];
      [reflexivity | left; reflexivity].
  - right. reflexivity.
Qed.

Lemma logged_in (t : list event) (l : log_line) : In (Log l) t -> In l (logged t).
Proof.
  intros H. unfold logged. apply in_flat_map. exists (Log l).
  split; [exact H | left; reflexivity].
Qed.

Lemma call_api_redacted endpoint params :
  trace_all redacted_line (_call_api endpoint params).
Proof.
  pose proof (call_api_by_exception endpoint params) as Hrun.
  destruct (call_exception _) as [e |] eqn:He.
  - rewrite Hrun. unfold trace_all. cbn [fst].
    repeat constructor. cbn [redacted_line log_fmt log_args]. intros _.
    exists endpoint, e. split; [|reflexivity].
    left. split; [reflexivity|]. exists params. exact He.
  - unfold trace_all. apply Forall_forall.
    intros [f | l | url ps | now] Hin; cbn [redacted_line]; auto.
    intros Hexc. exfalso. apply logged_in in Hin.
    destruct Hrun as [Hrun | Hrun]; rewrite Hrun in Hin; cbn in Hin;
      [contradiction|].
    destruct Hin as [<- | []]. discriminate Hexc.
Qed.

Lemma top_round_redacted row :
  In row top_table -> trace_all redacted_line (top_round row).
Proof.
  intros Hrow. unfold top_round. apply trace_all_try_raised.
  - destruct row as [[[stats_type metric_name] labels] json_key]. unfold top_try.
    repeat first [ apply call_api_redacted
                 | apply trace_all_emit; exact I
                 | trace_step ].
  - intros e He. destruct row as [[[stats_type metric_name] labels] json_key].
    unfold top_except. apply trace_all_emit.
    cbn [redacted_line log_fmt log_args]. intros _.
    exists stats_type, e. split; [|reflexivity].
    right. split; [reflexivity|].
    exists (stats_type, metric_name, labels, json_key).
    split; [exact Hrow|]. split; [reflexivity | exact He].
Qed.

Lemma collect_redacted start_t end_t : trace_all redacted_line (collect start_t end_t).
Proof.
  unfold collect, dashboard_stats, stats_metrics, simple_gauge, chart_metric,
    zone_health, dhcp_stats, top_stats.
  repeat first
    [ apply call_api_redacted
    | apply trace_all_emit; exact I
    | match goal with
      | |- trace_all _ (let (_, _) := ?x in _) => destruct x
      | |- trace_all _ (for_each top_table top_round) =>
          apply trace_all_for_each_in; exact top_round_redacted
      end
    | trace_step ].
Qed.

Lemma redact_replaces (error_msg : string) :
  TECHNITIUM_TOKEN <> "" ->
  redact error_msg = replace TECHNITIUM_TOKEN "REDACTED" error_msg.
Proof.
  intros Hne. unfold redact. destruct TECHNITIUM_TOKEN; [congruence | reflexivity].
Qed.

(** C2 (as the code has it): when the token is not empty, its first character
    does not occur in the marker REDACTED and it does not hold the letter R,
    an exception raised in the [try] block of the query operation is logged
    in one line that carries the text of that exception with every occurrence
    of the token replaced by the marker, and this text does not contain the
    token; so is an exception raised in the [try] block of a top-N round;
    and every line a cycle logs from an exception is of one of the two kinds:
    it carries the replaced text of an exception raised in a query or in a
    round, and no token. *)
Theorem logged_exception_has_no_token :
  TECHNITIUM_TOKEN <> "" ->
  (forall c t, TECHNITIUM_TOKEN = String c t ->
               ~ In c (list_ascii_of_string "REDACTED")) ->
  ~ In "R"%char (list_ascii_of_string TECHNITIUM_TOKEN) ->
  (forall endpoint params e,
     call_exception (session_get (TECHNITIUM_BASE_URL ++ endpoint)
                       (request_params params)) = Some e ->
     logged (fst (_call_api endpoint params))
     = [LogError "Request Failed [%s]: %s"
          [endpoint; replace TECHNITIUM_TOKEN "REDACTED" (exn_msg e)]]
     /\ contains TECHNITIUM_TOKEN
          (replace TECHNITIUM_TOKEN "REDACTED" (exn_msg e)) = false)
  /\ (forall row e,
        snd (top_try row) = inl e ->
        logged (fst (top_round row))
        = (logged (fst (top_try row))
             ++ [LogError "Failed to scrape %s: %s"
                   [fst (fst (fst row));
                    replace TECHNITIUM_TOKEN "REDACTED" (exn_msg e)]])%list
        /\ contains TECHNITIUM_TOKEN
             (replace TECHNITIUM_TOKEN "REDACTED" (exn_msg e)) = false)
  /\ (forall start_t end_t l,
        In l (logged (fst (collect start_t end_t))) ->
        exception_line l = true ->
        exists what e,
          ((log_fmt l = "Request Failed [%s]: %s" /\ raised_by_query what e)
           \/ (log_fmt l = "Failed to scrape %s: %s" /\ raised_by_round what e))
          /\ log_args l = [what; replace TECHNITIUM_TOKEN "REDACTED" (exn_msg e)]
          /\ contains TECHNITIUM_TOKEN
               (replace TECHNITIUM_TOKEN "REDACTED" (exn_msg e)) = false).
Proof.
  intros Hne Hhead HR.
  assert (Hclean : forall e,
            contains TECHNITIUM_TOKEN
              (replace TECHNITIUM_TOKEN "REDACTED" (exn_msg e)) = false).
  { intros e. rewrite <- (redact_replaces _ Hne). apply redact_clean; assumption. }
  split; [|split].
  - intros endpoint params e He. split; [|apply Hclean].
    pose proof (call_api_by_exception endpoint params) as Hrun.
    rewrite He in Hrun. rewrite Hrun, (redact_replaces _ Hne). reflexivity.
  - intros [[[stats_type metric_name] labels] json_key] e He.
    split; [|apply Hclean].
    unfold top_round, try_except.
    destruct (top_try _) as [t [e' | []]]; [|discriminate He].
    cbn [snd] in He. injection He as ->.
    cbn [top_except emit fst snd]. rewrite logged_app, (redact_replaces _ Hne).
    reflexivity.
  - intros start_t end_t l Hl Hexc. apply in_logged in Hl.
    pose proof (collect_redacted start_t end_t) as Hall.
    unfold trace_all in Hall. rewrite Forall_forall in Hall.
    destruct (Hall _ Hl Hexc) as [what [e [Hfrom Hargs]]].
    exists what, e. split; [exact Hfrom|].
    split; [|apply Hclean].
    rewrite <- (redact_replaces (exn_msg e) Hne). exact Hargs.
Qed.

(** ** The parameters of a request *)

Lemma dict_get_set_same kvs k v d : dict_get (dict_set kvs k v) k d = v.
Proof.
  induction kvs as [| [k0 w] rest IH]; cbn [dict_set dict_get].
  - rewrite String.eqb_refl. reflexivity.
  - destruct (String.eqb_spec k0 k) as [E | Hne]; cbn [dict_get].
    + subst k0. rewrite String.eqb_refl. reflexivity.
    + rewrite (proj2 (String.eqb_neq k0 k) Hne). exact IH.
Qed.

Lemma dict_get_set_other kvs k v k' d :
  k' <> k -> dict_get (dict_set kvs k v) k' d = dict_get kvs k' d.
Proof.
  intros Hne. induction kvs as [| [k0 w] rest IH]; cbn [dict_set dict_get].
  - rewrite (proj2 (String.eqb_neq k k')) by congruence. reflexivity.
  - destruct (String.eqb_spec k0 k) as [E | Hne0]; cbn [dict_get].
    + subst k0. rewrite (proj2 (String.eqb_neq k k')) by congruence. reflexivity.
    + rewrite IH. reflexivity.
Qed.

Lemma dict_update_absent other :
  forall kvs k d,
    dict_mem other k = false ->
    dict_get (dict_update kvs other) k d = dict_get kvs k d.
Proof.
  unfold dict_update.
  induction other as [| [k0 v0] rest IH]; intros kvs k d Habs; [reflexivity|].
  cbn [dict_mem] in Habs. apply orb_false_iff in Habs. destruct Habs as [Hk Hrest].
  cbn [fold_left fst snd]. rewrite (IH _ k d Hrest).
  apply dict_get_set_other. apply String.eqb_neq. rewrite String.eqb_sym. exact Hk.
Qed.

Lemma dict_mem_in kvs k : dict_mem kvs k = true <-> In k (map fst kvs).
Proof.
  induction kvs as [| [k0 v0] rest IH]; cbn [dict_mem map fst In].
  - split; [discriminate | contradiction].
  - rewrite orb_true_iff, IH, String.eqb_eq. split; intros [H | H]; auto.
Qed.

Lemma dict_update_present other :
  forall kvs k v d,
    NoDup (map fst other) -> In (k, v) other ->
    dict_get (dict_update kvs other) k d = v.
Proof.
  unfold dict_update.
  induction other as [| [k0 v0] rest IH]; intros kvs k v d Hnd Hin; [contradiction|].
  cbn [map fst] in Hnd. inversion Hnd as [| x l Hnotin Hrest]; subst.
  cbn [fold_left fst snd]. destruct Hin as [Heq | Hin].
  - injection Heq as -> ->.
    fold (dict_update (dict_set kvs k v) rest).
    rewrite dict_update_absent; [apply dict_get_set_same|].
    destruct (dict_mem rest k) eqn:Hmem; [|reflexivity].
    exfalso. apply Hnotin. apply dict_mem_in. exact Hmem.
  - apply (IH _ k v d Hrest Hin).
Qed.

(** X1: in the parameters of a request, every parameter the caller passes
    is found with the caller's value (also when it is named token or node);
    the token is injected when the caller passes none, and the node selector
    is injected when it is configured and absent otherwise. *)
Theorem request_params_precedence (extra : list (string * json)) :
  NoDup (map fst extra) ->
  (forall k v d, In (k, v) extra -> dict_get (request_params (Some extra)) k d = v)
  /\ (dict_mem extra "token" = false ->
      dict_get (request_params (Some extra)) "token" JNull = JStr TECHNITIUM_TOKEN)
  /\ (dict_mem extra "node" = false ->
      dict_get (request_params (Some extra)) "node" JNull
      = if TECHNITIUM_NODE =? "" then JNull else JStr TECHNITIUM_NODE).
Proof.
  intros Hnd.
  assert (Hrp : request_params (Some extra)
                = dict_update
                    (if negb (TECHNITIUM_NODE =? "")
                     then dict_set [("token", JStr TECHNITIUM_TOKEN)] "node"
                            (JStr TECHNITIUM_NODE)
                     else [("token", JStr TECHNITIUM_TOKEN)]) extra).
  { unfold request_params. destruct extra; reflexivity. }
  repeat split.
  - intros k v d Hin. rewrite Hrp. apply dict_update_present; assumption.
  - intros Habs. rewrite Hrp, (dict_update_absent extra _ "token" JNull Habs).
    destruct (TECHNITIUM_NODE =? ""); reflexivity.
  - intros Habs. rewrite Hrp, (dict_update_absent extra _ "node" JNull Habs).
    destruct (TECHNITIUM_NODE =? ""); reflexivity.
Qed.

(** ** One request, at most one line *)

Lemma call_api_failure_line endpoint params :
  call_fails (session_get (TECHNITIUM_BASE_URL ++ endpoint) (request_params params))
  = true ->
  exists l,
    _call_api endpoint params
    = ([Call (TECHNITIUM_BASE_URL ++ endpoint) (request_params params); Log l],
       inr (JObj []))
    /\ hd_error (log_args l) = Some endpoint.
Proof.
  unfold _call_api, call_fails.
  destruct (session_get _ _) as [e | r]; [intros _; cbn; eauto|].
  destruct (rejected_status r) eqn:Hrej.
  - intros _. destruct (raise_for_status_rejected r Hrej) as [e He].
    cbn. rewrite He. cbn. eauto.
  - cbn [orb]. intros Hbody. cbn. rewrite (raise_for_status_accepted r Hrej).
    unfold resp_json. destruct (body r) as [msg | data]; [cbn; eauto|].
    destruct data; try (cbn; eauto; fail).
    cbn. apply negb_true_iff in Hbody. rewrite Hbody. cbn. eauto.
Qed.

(** X2: one call of the query operation sends exactly one request, the one
    for its endpoint with the injected parameters (no retry), yields nothing,
    and logs exactly one error line, which names the endpoint, when the
    exchange fails, and nothing when it succeeds. *)
Theorem call_api_events (endpoint : string) (params : option (list (string * json))) :
  calls (fst (_call_api endpoint params))
  = [(TECHNITIUM_BASE_URL ++ endpoint, request_params params)]
  /\ yielded (fst (_call_api endpoint params)) = []
  /\ if call_fails (session_get (TECHNITIUM_BASE_URL ++ endpoint)
                     (request_params params))
     then exists l, logged (fst (_call_api endpoint params)) = [l]
                    /\ hd_error (log_args l) = Some endpoint
     else logged (fst (_call_api endpoint params)) = [].
Proof.
  destruct (call_fails _) eqn:Hcall.
  - destruct (call_api_failure_line endpoint params Hcall) as [l [Hrun Hl]].
    rewrite Hrun. cbn. eauto.
  - rewrite (call_api_quiet endpoint params Hcall). cbn. auto.
Qed.

(** ** Redaction leaves other text alone *)

Lemma replace_scan_absent (old new : string) :
  forall s, contains old s = false -> replace_scan old new 0 s = s.
Proof.
  induction s as [| c rest IH]; intros Habs; [reflexivity|].
  cbn [contains] in Habs. apply orb_false_iff in Habs. destruct Habs as [Hpre Hrest].
  cbn [replace_scan]. rewrite Hpre, (IH Hrest). reflexivity.
Qed.

(** X3: the sanitising step changes nothing in a message that does not
    hold the token, and nothing at all when no token is configured. *)
Theorem redact_keeps_clean_text (error_msg : string) :
  TECHNITIUM_TOKEN = "" \/ contains TECHNITIUM_TOKEN error_msg = false ->
  redact error_msg = error_msg.
Proof.
  unfold redact. intros [Hempty | Habs].
  - rewrite Hempty. reflexivity.
  - destruct TECHNITIUM_TOKEN as [| c t] eqn:Htok; [reflexivity|].
    cbn [String.eqb negb String.length Nat.ltb Nat.leb andb replace].
    apply replace_scan_absent. exact Habs.
Qed.

(** ** The base URL *)

Lemma rstrip_tail (c : ascii) :
  forall s, exists n, s = rstrip c s ++ repeat_char c n.
Proof.
  induction s as [| a rest [n IH]]; [exists 0%nat; reflexivity|].
  cbn [rstrip]. destruct (rstrip c rest) as [| b kept] eqn:Hr.
  - cbn in IH. destruct (Ascii.eqb_spec a c) as [-> | Hne].
    + exists (S n). cbn. rewrite <- IH. reflexivity.
    + exists n. cbn. rewrite <- IH. reflexivity.
  - exists n. cbn. cbn in IH. rewrite <- IH. reflexivity.
Qed.

Lemma append_single_nonempty (p : string) (c : ascii) : p ++ String c "" <> "".
Proof. destruct p; discriminate. Qed.

Lemma rstrip_no_trailing (c : ascii) :
  forall s p, rstrip c s <> p ++ String c "".
Proof.
  induction s as [| a rest IH]; intros p H; cbn [rstrip] in H.
  - symmetry in H. exact (append_single_nonempty p c H).
  - destruct (rstrip c rest) as [| b kept] eqn:Hr.
    + destruct (Ascii.eqb_spec a c) as [-> | Hne].
      * symmetry in H. exact (append_single_nonempty p c H).
      * destruct p as [| x p']; cbn in H.
        -- injection H as Ha. congruence.
        -- injection H as Ha Hp. symmetry in Hp.
           exact (append_single_nonempty p' c Hp).
    + destruct p as [| x p']; cbn in H.
      * discriminate.
      * injection H as Ha Hp. exact (IH p' Hp).
Qed.

(** X4: the base URL the exporter uses is the value of the environment (or
    the default) without its trailing slashes: the two differ by slashes at
    the end only, and the base URL never ends with a slash. *)
Theorem base_url_has_no_trailing_slash (env : string -> option string) :
  (exists n,
     getenv env "TECHNITIUM_BASE_URL" "http://technitium:5380"
     = base_url_of_env env ++ repeat_char "/" n)
  /\ forall p, base_url_of_env env <> p ++ "/".
Proof.
  split; [apply rstrip_tail | apply rstrip_no_trailing].
Qed.

(** ** The requests of a cycle *)

Lemma calls_app (t1 t2 : list event) : calls (t1 ++ t2)%list = (calls t1 ++ calls t2)%list.
Proof. apply flat_map_app. Qed.

Lemma calls_bind {A B : Type} (m : M A) (k : A -> M B) :
  calls (fst (bind m k))
  = (calls (fst m)
       ++ match snd m with
          | inr a => calls (fst (k a))
          | inl _ => []
          end)%list.
Proof.
  unfold bind. destruct m as [t [e | a]]; cbn [fst snd].
  - rewrite app_nil_r. reflexivity.
  - destruct (k a) as [t' r]. cbn [fst]. apply calls_app.
Qed.

Lemma calls_try {A : Type} (m : M A) (h : exn -> M A) :
  calls (fst (try_except m h))
  = (calls (fst m)
       ++ match snd m with
          | inl e => calls (fst (h e))
          | inr _ => []
          end)%list.
Proof.
  unfold try_except. destruct m as [t [e | a]]; cbn [fst snd].
  - destruct (h e) as [t' r]. cbn [fst]. apply calls_app.
  - rewrite app_nil_r. reflexivity.
Qed.

Lemma silent_calls {A : Type} (m : M A) : trace_all silent m -> calls (fst m) = [].
Proof.
  unfold trace_all. induction (fst m) as [| ev t IH]; intros Hall; [reflexivity|].
  inversion Hall as [| x l Hev Ht]; subst.
  destruct ev; cbn in Hev |- *; try contradiction; exact (IH Ht).
Qed.

Ltac silent_step :=
  first [ apply trace_all_emit; exact I
        | match goal with
          | |- trace_all _ (let (_, _) := ?x in _) => destruct x
          end
        | trace_step ].

Lemma call_api_calls endpoint params :
  calls (fst (_call_api endpoint params))
  = [(TECHNITIUM_BASE_URL ++ endpoint, request_params params)].
Proof.
  destruct (call_fails (session_get (TECHNITIUM_BASE_URL ++ endpoint)
                          (request_params params))) eqn:Hcall.
  - destruct (call_api_noisy endpoint params Hcall) as [l ->]. reflexivity.
  - rewrite (call_api_quiet endpoint params Hcall). reflexivity.
Qed.

Lemma dashboard_stats_calls :
  calls (fst dashboard_stats)
  = [(TECHNITIUM_BASE_URL ++ "/api/dashboard/stats/get",
      request_params (Some [("type", JStr TECHNITIUM_STATS_RANGE);
                            ("utc", JStr "true")]))].
Proof.
  unfold dashboard_stats. rewrite calls_bind, call_api_calls, call_api_returns.
  rewrite silent_calls; [reflexivity|].
  unfold stats_metrics, simple_gauge, chart_metric. repeat silent_step.
Qed.

Lemma zone_health_calls :
  calls (fst zone_health)
  = [(TECHNITIUM_BASE_URL ++ "/api/zones/list",
      request_params (Some [("pageNumber", JInt 1); ("pageSize", JInt 1000)]))].
Proof.
  unfold zone_health. rewrite calls_bind, call_api_calls, call_api_returns.
  rewrite silent_calls; [reflexivity|]. repeat silent_step.
Qed.

Lemma dhcp_stats_calls :
  calls (fst dhcp_stats)
  = [(TECHNITIUM_BASE_URL ++ "/api/dhcp/leases/list", request_params None)].
Proof.
  unfold dhcp_stats. rewrite calls_bind, call_api_calls, call_api_returns.
  rewrite silent_calls; [reflexivity|]. repeat silent_step.
Qed.

Lemma top_round_calls row : calls (fst (top_round row)) = [(top_url, top_params row)].
Proof.
  destruct row as [[[stats_type metric_name] labels] json_key].
  unfold top_round. rewrite calls_try.
  assert (Htry : calls (fst (top_try (stats_type, metric_name, labels, json_key)))
                 = [(top_url, top_params (stats_type, metric_name, labels, json_key))]).
  { unfold top_try. rewrite calls_bind, call_api_calls, call_api_returns.
    rewrite silent_calls; [reflexivity|]. repeat silent_step. }
  rewrite Htry. destruct (snd (top_try _)); reflexivity.
Qed.

Lemma top_stats_calls :
  calls (fst top_stats) = map (fun row => (top_url, top_params row)) top_table.
Proof.
  rewrite top_stats_total. cbn [fst top_table flat_map map].
  rewrite !calls_app, !top_round_calls. reflexivity.
Qed.

(** X5: the top-N step never raises, whatever the three answers hold: it
    returns after sending exactly its three requests, one per statistics
    type, each asking for the configured limit. *)
Theorem top_stats_never_raises :
  snd top_stats = inr tt
  /\ calls (fst top_stats)
     = [ (TECHNITIUM_BASE_URL ++ "/api/dashboard/stats/getTop",
          request_params (Some [("statsType", JStr "TopClients");
                                ("limit", JInt TECHNITIUM_TOP_LIMIT)]));
         (TECHNITIUM_BASE_URL ++ "/api/dashboard/stats/getTop",
          request_params (Some [("statsType", JStr "TopDomains");
                                ("limit", JInt TECHNITIUM_TOP_LIMIT)]));
         (TECHNITIUM_BASE_URL ++ "/api/dashboard/stats/getTop",
          request_params (Some [("statsType", JStr "TopBlockedDomains");
                                ("limit", JInt TECHNITIUM_TOP_LIMIT)])) ].
Proof.
  split; [rewrite top_stats_total; reflexivity | apply top_stats_calls].
Qed.

(** X6: a cycle sends the six requests of [cycle_requests] in that order
    and no other; when an exception escapes the cycle, it stopped within the
    first three and sent none of the top-N requests. *)
Theorem cycle_sends_fixed_requests start_t end_t :
  match snd (collect start_t end_t) with
  | inr _ => calls (fst (collect start_t end_t)) = cycle_requests
  | inl _ => prefix_of (calls (fst (collect start_t end_t))) (firstn 3 cycle_requests)
  end.
Proof.
  unfold collect. rewrite bind_emit. cbn [fst snd calls flat_map app].
  fold (calls (fst (dashboard_stats ;;; zone_health ;;; dhcp_stats ;;; top_stats ;;;
                    emit (Tick end_t) ;;; emit (Yield (g_dur start_t end_t))))).
  pose proof dashboard_stats_calls as Hd. pose proof zone_health_calls as Hz.
  pose proof dhcp_stats_calls as Hh. pose proof top_stats_calls as Ht.
  rewrite top_stats_total in *.
  destruct dashboard_stats as [t1 [e1 | []]]; cbn [bind fst snd] in *.
  { rewrite Hd. exists (skipn 1 (firstn 3 cycle_requests)). reflexivity. }
  destruct zone_health as [t2 [e2 | []]]; cbn [bind fst snd] in *.
  { rewrite calls_app, Hd, Hz. exists (skipn 2 (firstn 3 cycle_requests)). reflexivity. }
  destruct dhcp_stats as [t3 [e3 | []]]; cbn [bind fst snd] in *.
  { rewrite !calls_app, Hd, Hz, Hh. exists []. reflexivity. }
  unfold emit. cbn [bind fst snd].
  rewrite !calls_app, Hd, Hz, Hh, Ht. reflexivity.
Qed.

(** ** The order of the families *)

Lemma subseq_refl {A : Type} (l : list A) : subseq l l.
Proof. induction l; constructor; assumption. Qed.

Lemma subseq_app {A : Type} (a b c d : list A) :
  subseq a b -> subseq c d -> subseq (a ++ c)%list (b ++ d)%list.
Proof.
  intros Hab Hcd. induction Hab as [l | x l1 l2 _ IH | x l1 l2 _ IH]; cbn.
  - induction l as [| y l IHl]; [exact Hcd | constructor; exact IHl].
  - constructor. exact IH.
  - constructor. exact IH.
Qed.

Lemma subseq_app_nil_r {A : Type} (a b c : list A) :
  subseq a b -> subseq a (b ++ c)%list.
Proof.
  intros H. rewrite <- (app_nil_r a). apply subseq_app; [exact H | constructor].
Qed.

Lemma subseq_in {A : Type} (a b : list A) (x : A) : subseq a b -> In x a -> In x b.
Proof.
  intros H. induction H as [l | y l1 l2 _ IH | y l1 l2 _ IH]; cbn; intros Hin.
  - contradiction.
  - destruct Hin as [-> | Hin]; auto.
  - auto.
Qed.

Lemma subseq_nodup {A : Type} (a b : list A) : subseq a b -> NoDup b -> NoDup a.
Proof.
  intros H. induction H as [l | y l1 l2 Hsub IH | y l1 l2 _ IH]; intros Hnd.
  - constructor.
  - inversion Hnd as [| x l Hnotin Hrest]; subst. constructor; [|exact (IH Hrest)].
    intros Hin. apply Hnotin. exact (subseq_in l1 l2 y Hsub Hin).
  - inversion Hnd as [| x l Hnotin Hrest]; subst. exact (IH Hrest).
Qed.

Lemma in_order_ret ns {A : Type} (a : A) : in_order ns (ret a).
Proof. constructor. Qed.

Lemma in_order_lift ns {A : Type} (r : exn + A) : in_order ns (lift r).
Proof. constructor. Qed.

Lemma in_order_yield (f : family) : in_order [f_name f] (emit (Yield f)).
Proof. apply subseq_refl. Qed.

Lemma in_order_call_api ns endpoint params : in_order ns (_call_api endpoint params).
Proof. unfold in_order. rewrite call_api_yields_nothing. constructor. Qed.

Lemma in_order_bind ns1 ns2 {A B : Type} (m : M A) (k : A -> M B) :
  in_order ns1 m -> (forall a, in_order ns2 (k a)) ->
  in_order (ns1 ++ ns2)%list (bind m k).
Proof.
  unfold in_order, bind. destruct m as [t [e | a]]; cbn [fst]; intros Hm Hk.
  - apply subseq_app_nil_r. exact Hm.
  - specialize (Hk a). destruct (k a) as [t' r]. cbn [fst] in *.
    rewrite yielded_app, map_app. apply subseq_app; assumption.
Qed.

Lemma in_order_try ns1 ns2 {A : Type} (m : M A) (h : exn -> M A) :
  in_order ns1 m -> (forall e, in_order ns2 (h e)) ->
  in_order (ns1 ++ ns2)%list (try_except m h).
Proof.
  unfold in_order, try_except. destruct m as [t [e | a]]; cbn [fst]; intros Hm Hh.
  - specialize (Hh e). destruct (h e) as [t' r]. cbn [fst] in *.
    rewrite yielded_app, map_app. apply subseq_app; assumption.
  - apply subseq_app_nil_r. exact Hm.
Qed.

Lemma in_order_if ns {A : Type} (b : bool) (m1 m2 : M A) :
  in_order ns m1 -> in_order ns m2 -> in_order ns (if b then m1 else m2).
Proof. destruct b; auto. Qed.

Lemma in_order_for_each {A : Type} (g : A -> list string) (body : A -> M unit) :
  (forall x, in_order (g x) (body x)) ->
  forall l, in_order (flat_map g l) (for_each l body).
Proof.
  intros Hb. induction l as [| x rest IH]; cbn [for_each flat_map].
  - apply in_order_ret.
  - apply in_order_bind; [apply Hb | intros _; exact IH].
Qed.

Lemma chart_metric_in_order stats_data chart_key name doc label_name :
  in_order [name] (chart_metric stats_data chart_key name doc label_name).
Proof.
  unfold chart_metric.
  apply (in_order_bind [] [name]); [apply in_order_lift | intros chart].
  apply (in_order_bind [] [name]).
  { apply in_order_if; [|apply in_order_ret].
    apply (in_order_bind [] []); [apply in_order_lift | intros d; apply in_order_ret]. }
  intros shown. apply in_order_if; [|apply in_order_ret].
  apply (in_order_bind [] [name]); [apply in_order_lift | intros labels].
  apply (in_order_bind [] [name]); [apply in_order_lift | intros data].
  apply (in_order_bind [] [name]); [apply in_order_lift | intros pairs].
  apply (in_order_bind [] [name]); [apply in_order_lift | intros samples].
  apply (in_order_yield (Family Gauge name doc ["server"; label_name] samples)).
Qed.

Lemma dashboard_stats_in_order : in_order dashboard_names dashboard_stats.
Proof.
  unfold dashboard_stats.
  apply (in_order_bind [] dashboard_names); [apply in_order_call_api | intros sd].
  apply (in_order_bind [] dashboard_names); [apply in_order_lift | intros stats].
  apply (in_order_bind ["technitium_up"] (tl dashboard_names));
    [apply (in_order_yield (g_up stats)) | intros _].
  apply in_order_if; [|apply in_order_ret]. unfold stats_metrics.
  apply (in_order_bind (flat_map (fun mk => [fst mk]) simple_map)
           [ "technitium_dns_queries_window"; "technitium_dns_response_type_total";
             "technitium_dns_query_type_total"; "technitium_dns_protocol_queries" ]).
  { apply in_order_for_each. intros [metric key]. unfold simple_gauge.
    apply (in_order_bind [] [metric]); [apply in_order_lift | intros v].
    apply (in_order_yield
             (Family Gauge metric ("From Dashboard Stats: " ++ key) ["server"]
                [Sample [server] (GaugeValue v)])). }
  intros _.
  apply (in_order_bind [] _); [apply in_order_lift | intros samples].
  apply (in_order_bind ["technitium_dns_queries_window"] _);
    [apply (in_order_yield (q_metric samples)) | intros _].
  apply (in_order_bind ["technitium_dns_response_type_total"] _);
    [apply chart_metric_in_order | intros _].
  apply (in_order_bind ["technitium_dns_query_type_total"] _);
    [apply chart_metric_in_order | intros _].
  apply chart_metric_in_order.
Qed.

Lemma zone_health_in_order : in_order ["technitium_zone"] zone_health.
Proof.
  unfold zone_health.
  apply (in_order_bind [] _); [apply in_order_call_api | intros zd].
  apply (in_order_bind [] _); [apply in_order_lift | intros zl].
  apply in_order_if; [|apply in_order_ret].
  apply (in_order_bind [] _); [apply in_order_lift | intros samples].
  apply (in_order_yield (z_info samples)).
Qed.

Lemma dhcp_stats_in_order : in_order ["technitium_dhcp_leases_total"] dhcp_stats.
Proof.
  unfold dhcp_stats.
  apply (in_order_bind [] _); [apply in_order_call_api | intros zd].
  apply (in_order_bind [] _); [apply in_order_lift | intros zl].
  apply in_order_if; [|apply in_order_ret].
  apply (in_order_bind [] _); [apply in_order_lift | intros samples].
  apply (in_order_yield (dhcp_lease_metric samples)).
Qed.

Lemma top_round_in_order row : in_order [snd (fst (fst row))] (top_round row).
Proof.
  destruct row as [[[stats_type metric_name] labels] json_key]. cbn [fst snd].
  unfold top_round.
  apply (in_order_try [metric_name] []).
  - unfold top_try.
    apply (in_order_bind [] _); [apply in_order_call_api | intros data].
    apply (in_order_bind [] _); [apply in_order_lift | intros items].
    apply in_order_if; [|apply in_order_ret].
    apply (in_order_bind [] _); [apply in_order_lift | intros samples].
    apply (in_order_yield
             (Family Gauge metric_name ("Hits for " ++ stats_type) labels samples)).
  - intros e. unfold top_except. constructor.
Qed.

Lemma top_stats_in_order : in_order top_names top_stats.
Proof.
  unfold top_stats.
  apply (in_order_for_each (fun row => [snd (fst (fst row))]) top_round
           top_round_in_order top_table).
Qed.

Lemma family_order_nodup : NoDup family_order.
Proof.
  unfold family_order, dashboard_names, top_names. cbn.
  repeat (constructor; [cbn; intuition discriminate|]). constructor.
Qed.

(** X7: whatever the upstream answers, the families of a cycle come in the
    fixed order of [family_order], some possibly left out; so no two families
    of one cycle share a name. *)
Theorem families_in_fixed_order start_t end_t :
  subseq (map f_name (yielded (fst (collect start_t end_t)))) family_order
  /\ NoDup (map f_name (yielded (fst (collect start_t end_t)))).
Proof.
  assert (Hsub : in_order family_order (collect start_t end_t)).
  { unfold collect, family_order.
    apply (in_order_bind [] _); [constructor | intros _].
    apply (in_order_bind dashboard_names _); [apply dashboard_stats_in_order | intros _].
    apply (in_order_bind ["technitium_zone"] _); [apply zone_health_in_order | intros _].
    apply (in_order_bind ["technitium_dhcp_leases_total"] _);
      [apply dhcp_stats_in_order | intros _].
    apply (in_order_bind top_names _); [apply top_stats_in_order | intros _].
    apply (in_order_bind [] _); [constructor | intros _].
    apply (in_order_yield (g_dur start_t end_t)). }
  split; [exact Hsub|]. exact (subseq_nodup _ _ Hsub family_order_nodup).
Qed.

(** ** As many label values as label names *)

Lemma q_sample_arity stats kl s :
  q_sample stats kl = inr s -> List.length (s_labels s) = 2%nat.
Proof.
  unfold q_sample. destruct kl as [key label]. intros H. sbind_inv.
  subst s. reflexivity.
Qed.

Lemma chart_sample_arity lv s :
  chart_sample lv = inr s -> List.length (s_labels s) = 2%nat.
Proof.
  unfold chart_sample. destruct lv as [label val]. intros H. sbind_inv.
  subst s. reflexivity.
Qed.

Lemma zone_sample_arity zone s :
  zone_sample zone = inr s -> List.length (s_labels s) = 5%nat.
Proof. unfold zone_sample. intros H. sbind_inv. subst s. reflexivity. Qed.

Lemma lease_sample_arity g s :
  lease_sample g = inr s -> List.length (s_labels s) = 3%nat.
Proof.
  unfold lease_sample. destruct g as [[scope ltype] count]. intros H. sbind_inv.
  subst s. reflexivity.
Qed.

Lemma top_sample_arity stats_type item s :
  top_sample stats_type item = inr s ->
  List.length (s_labels s) = if stats_type =? "TopClients" then 3%nat else 2%nat.
Proof.
  unfold top_sample. intros H.
  destruct (stats_type =? "TopClients"); sbind_inv; subst; reflexivity.
Qed.

Lemma call_api_arity endpoint params : trace_all arity_ok (_call_api endpoint params).
Proof. apply call_api_trace; intros; exact I. Qed.

Ltac arity_walk :=
  repeat first [ apply call_api_arity
               | apply trace_all_emit
               | match goal with
                 | |- trace_all _ (let (_, _) := ?x in _) => destruct x
                 end
               | trace_step ];
  cbn [snd lift arity_ok f_samples f_labelnames q_metric z_info dhcp_lease_metric g_up]
    in *;
  try exact I.

Lemma dashboard_stats_arity : trace_all arity_ok dashboard_stats.
Proof.
  unfold dashboard_stats, stats_metrics, simple_gauge, chart_metric. arity_walk.
  - repeat constructor.
  - repeat constructor.
  - eapply collect_samples_Forall; [|eassumption].
    intros x s Hs. exact (q_sample_arity _ _ _ Hs).
  - eapply collect_samples_Forall; [|eassumption].
    intros x s Hs. exact (chart_sample_arity _ _ Hs).
  - eapply collect_samples_Forall; [|eassumption].
    intros x s Hs. exact (chart_sample_arity _ _ Hs).
  - eapply collect_samples_Forall; [|eassumption].
    intros x s Hs. exact (chart_sample_arity _ _ Hs).
Qed.

Lemma zone_health_arity : trace_all arity_ok zone_health.
Proof.
  unfold zone_health. arity_walk. sbind_inv.
  eapply collect_samples_Forall; [|eassumption].
  intros x s Hs. exact (zone_sample_arity _ _ Hs).
Qed.

Lemma dhcp_stats_arity : trace_all arity_ok dhcp_stats.
Proof.
  unfold dhcp_stats. arity_walk. sbind_inv.
  eapply collect_samples_Forall; [|eassumption].
  intros x s Hs. exact (lease_sample_arity _ _ Hs).
Qed.

Lemma top_stats_arity : trace_all arity_ok top_stats.
Proof.
  unfold top_stats. apply trace_all_for_each_in. intros row Hrow. cbn in Hrow.
  repeat (destruct Hrow as [<- | Hrow]); [.. | contradiction];
    unfold top_round, top_try, top_except; arity_walk; sbind_inv;
    (eapply collect_samples_Forall; [|eassumption]);
    intros x s Hs; exact (top_sample_arity _ _ _ Hs).
Qed.

(** X8: whatever the upstream answers, every sample of every family of a
    cycle has exactly one label value per label name of its family. *)
Theorem samples_match_label_names start_t end_t (f : family) (s : sample) :
  In f (yielded (fst (collect start_t end_t))) ->
  In s (f_samples f) ->
  List.length (s_labels s) = List.length (f_labelnames f).
Proof.
  intros Hf Hs. apply in_yielded in Hf.
  assert (Hall : trace_all arity_ok (collect start_t end_t)).
  { unfold collect.
    repeat first [ apply dashboard_stats_arity | apply zone_health_arity
                 | apply dhcp_stats_arity | apply top_stats_arity
                 | apply trace_all_emit; exact I
                 | apply trace_all_emit | trace_step ].
    repeat constructor. }
  unfold trace_all in Hall. rewrite Forall_forall in Hall.
  specialize (Hall _ Hf). cbn in Hall. rewrite Forall_forall in Hall.
  exact (Hall _ Hs).
Qed.

(** ** Every lease is counted once *)

Lemma count_incr_sum tm k :
  fold_right Z.add 0%Z (map snd (count_incr tm k))
  = (fold_right Z.add 0%Z (map snd tm) + 1)%Z.
Proof.
  induction tm as [| [k0 n] rest IH]; cbn [count_incr]; [reflexivity|].
  destruct (key_eqb k0 k); cbn [map snd fold_right]; [lia|].
  rewrite IH. lia.
Qed.

Lemma count_incr_positive tm k :
  Forall (fun kn => (0 < snd kn)%Z) tm ->
  Forall (fun kn => (0 < snd kn)%Z) (count_incr tm k).
Proof.
  induction tm as [| [k0 n] rest IH]; cbn [count_incr]; intros Hall.
  - repeat constructor.
  - inversion Hall as [| x l Hn Hrest]; subst. cbn [snd] in Hn.
    destruct (key_eqb k0 k); constructor; auto. cbn [snd]. lia.
Qed.

Lemma counted_cons s tm rest :
  counted ((s, tm) :: rest) = (fold_right Z.add 0%Z (map snd tm) + counted rest)%Z.
Proof.
  unfold counted, count_items. cbn [flat_map fst snd].
  rewrite map_app, map_map. cbn [snd].
  induction tm as [| [k n] tm IH]; cbn [map snd fold_right app]; [reflexivity|].
  rewrite IH. lia.
Qed.

Lemma counts_incr_sum counts scope ltype :
  counted (counts_incr counts scope ltype) = (counted counts + 1)%Z.
Proof.
  induction counts as [| [s tm] rest IH]; cbn [counts_incr]; [reflexivity|].
  destruct (key_eqb s scope); rewrite !counted_cons.
  - rewrite count_incr_sum. lia.
  - rewrite IH. lia.
Qed.

Lemma counts_incr_positive counts scope ltype :
  Forall (fun g => (0 < snd g)%Z) (count_items counts) ->
  Forall (fun g => (0 < snd g)%Z) (count_items (counts_incr counts scope ltype)).
Proof.
  unfold count_items.
  induction counts as [| [s tm] rest IH]; cbn [counts_incr flat_map fst snd];
    intros Hall.
  - repeat constructor.
  - apply Forall_app in Hall. destruct Hall as [Htm Hrest].
    assert (Htm' : Forall (fun kn => (0 < snd kn)%Z) tm).
    { rewrite Forall_map in Htm. exact Htm. }
    destruct (key_eqb s scope); cbn [flat_map fst snd]; apply Forall_app; split;
      auto.
    rewrite Forall_map. cbn [snd]. apply count_incr_positive. exact Htm'.
Qed.

Lemma count_leases_sum :
  forall leases counts counts',
    count_leases leases counts = inr counts' ->
    counted counts' = (counted counts + Z.of_nat (List.length leases))%Z
    /\ (Forall (fun g => (0 < snd g)%Z) (count_items counts) ->
        Forall (fun g => (0 < snd g)%Z) (count_items counts')).
Proof.
  induction leases as [| lease rest IH]; intros counts counts' H.
  - cbn in H. injection H as <-. split; [cbn; lia | auto].
  - cbn [count_leases] in H. apply sbind_inr in H. destruct H as [c1 [Hstep Hrest]].
    unfold count_lease in Hstep. sbind_inv; try discriminate. subst c1.
    destruct (IH _ _ Hrest) as [Hsum Hpos]. split.
    + rewrite Hsum, counts_incr_sum. cbn [List.length]. lia.
    + intros Hall. apply Hpos. apply counts_incr_positive. exact Hall.
Qed.

(** X9: when the counting loop over the leases ends without raising,
    whatever the scopes and types are, every lease has been counted exactly
    once: the counts of all groups add up to the number of leases, and no
    group is empty. *)
Theorem every_lease_counted_once (leases : list json)
  (counts : list (json * list (json * Z))) :
  count_leases leases [] = inr counts ->
  counted counts = Z.of_nat (List.length leases)
  /\ Forall (fun g => (0 < snd g)%Z) (count_items counts).
Proof.
  intros H. destruct (count_leases_sum leases [] counts H) as [Hsum Hpos].
  split; [exact Hsum | apply Hpos; constructor].
Qed.

(** ** No empty family but a chart *)

Lemma trace_all_if_eq (P : event -> Prop) {A : Type} (b : bool) (m1 m2 : M A) :
  (b = true -> trace_all P m1) -> (b = false -> trace_all P m2) ->
  trace_all P (if b then m1 else m2).
Proof. destruct b; auto. Qed.

Lemma code_points_nonempty c rest : code_points (String c rest) <> [].
Proof.
  unfold code_points. cbn [split_code_points].
  destruct (split_code_points rest) as [tail cps].
  destruct (is_continuation c); discriminate.
Qed.

Lemma truthy_iter_nonempty v l : truthy v = true -> py_iter v = inr l -> l <> [].
Proof.
  destruct v as [| b | z | f | s | l0 | kvs]; cbn [truthy py_iter]; try discriminate.
  - destruct s as [| c rest]; [discriminate|]. intros _ H. injection H as <-.
    unfold chars. intros Hnil. apply map_eq_nil in Hnil.
    exact (code_points_nonempty c rest Hnil).
  - destruct l0; [discriminate|]. intros _ H. injection H as <-. discriminate.
  - destruct kvs; [discriminate|]. intros _ H. injection H as <-. discriminate.
Qed.

Lemma collect_samples_nonempty {A : Type} (f : A -> exn + sample) l ss :
  collect_samples l f = inr ss -> l <> [] -> ss <> [].
Proof.
  intros H Hne Hss. apply collect_samples_length in H. subst ss.
  destruct l; [congruence | discriminate].
Qed.

Lemma call_api_populated endpoint params : trace_all populated (_call_api endpoint params).
Proof. apply call_api_trace; intros; exact I. Qed.

Lemma chart_metric_populated stats_data key name doc label_name :
  In name (map (fun b : string * string * string * string => snd (fst (fst b)))
             chart_blocks) ->
  trace_all populated (chart_metric stats_data key name doc label_name).
Proof.
  intros Hname. unfold chart_metric.
  repeat first [ apply trace_all_emit | trace_step ]; try exact I.
  right. exact Hname.
Qed.

Lemma dashboard_stats_populated : trace_all populated dashboard_stats.
Proof.
  unfold dashboard_stats, stats_metrics.
  apply trace_all_bind; [apply call_api_populated | intros sd _].
  apply trace_all_bind; [apply trace_all_lift | intros stats _].
  apply trace_all_bind; [apply trace_all_emit; left; discriminate | intros _ _].
  apply trace_all_if; [|apply trace_all_ret].
  apply trace_all_bind.
  { apply trace_all_for_each. intros [metric key]. unfold simple_gauge.
    apply trace_all_bind; [apply trace_all_lift | intros v _].
    apply trace_all_emit. left. discriminate. }
  intros _ _. apply trace_all_bind; [apply trace_all_lift | intros samples Hs].
  apply trace_all_bind.
  { apply trace_all_emit. left. cbn [snd lift] in Hs.
    apply (collect_samples_nonempty _ _ _ Hs). discriminate. }
  intros _ _.
  repeat (apply trace_all_bind; [| intros _ _]);
    apply chart_metric_populated; cbn; tauto.
Qed.

Lemma zone_health_populated : trace_all populated zone_health.
Proof.
  unfold zone_health.
  apply trace_all_bind; [apply call_api_populated | intros zd _].
  apply trace_all_bind; [apply trace_all_lift | intros zl _].
  apply trace_all_if_eq; [intros Htruthy | intros _; apply trace_all_ret].
  apply trace_all_bind; [apply trace_all_lift | intros samples Hs].
  apply trace_all_emit. left. cbn [snd lift] in Hs.
  apply sbind_inr in Hs. destruct Hs as [zones [Hiter Hs]].
  apply (collect_samples_nonempty _ _ _ Hs).
  exact (truthy_iter_nonempty _ _ Htruthy Hiter).
Qed.

Lemma dhcp_stats_populated : trace_all populated dhcp_stats.
Proof.
  unfold dhcp_stats.
  apply trace_all_bind; [apply call_api_populated | intros ld _].
  apply trace_all_bind; [apply trace_all_lift | intros leases _].
  apply trace_all_if_eq; [intros Htruthy | intros _; apply trace_all_ret].
  apply trace_all_bind; [apply trace_all_lift | intros samples Hs].
  apply trace_all_emit. left. cbn [snd lift] in Hs.
  apply sbind_inr in Hs. destruct Hs as [ls [Hiter Hs]].
  apply sbind_inr in Hs. destruct Hs as [counts [Hcounts Hs]].
  apply (collect_samples_nonempty _ _ _ Hs).
  pose proof (truthy_iter_nonempty _ _ Htruthy Hiter) as Hne.
  destruct (count_leases_sum ls [] counts Hcounts) as [Hsum _].
  intros Hempty. unfold counted in Hsum. rewrite Hempty in Hsum. cbn in Hsum.
  destruct ls; [congruence | cbn in Hsum; lia].
Qed.

Lemma top_stats_populated : trace_all populated top_stats.
Proof.
  unfold top_stats. apply trace_all_for_each.
  intros [[[stats_type metric_name] labels] json_key].
  unfold top_round, top_try, top_except.
  apply trace_all_try; [|intros e; apply trace_all_emit; exact I].
  apply trace_all_bind; [apply call_api_populated | intros data _].
  apply trace_all_bind; [apply trace_all_lift | intros items _].
  apply trace_all_if_eq; [intros Htruthy | intros _; apply trace_all_ret].
  apply trace_all_bind; [apply trace_all_lift | intros samples Hs].
  apply trace_all_emit. left. cbn [snd lift] in Hs.
  apply sbind_inr in Hs. destruct Hs as [its [Hiter Hs]].
  apply (collect_samples_nonempty _ _ _ Hs).
  exact (truthy_iter_nonempty _ _ Htruthy Hiter).
Qed.

(** X10: whatever the upstream answers, a family yielded in a cycle has at
    least one sample, unless it is one of the three chart families. *)
Theorem families_have_samples start_t end_t (f : family) :
  In f (yielded (fst (collect start_t end_t))) ->
  f_samples f <> []
  \/ In (f_name f) [ "technitium_dns_response_type_total";
                     "technitium_dns_query_type_total";
                     "technitium_dns_protocol_queries" ].
Proof.
  intros Hf. apply in_yielded in Hf.
  assert (Hall : trace_all populated (collect start_t end_t)).
  { unfold collect.
    repeat first [ apply dashboard_stats_populated | apply zone_health_populated
                 | apply dhcp_stats_populated | apply top_stats_populated
                 | apply trace_all_emit; exact I
                 | apply trace_all_emit; left; discriminate
                 | trace_step ]. }
  unfold trace_all in Hall. rewrite Forall_forall in Hall.
  exact (Hall _ Hf).
Qed.

(** X11: a chart whose labels are missing or empty still yields its family,
    with no sample at all, whatever the data of its first dataset hold, as
    long as they can be iterated. *)
Theorem chart_without_labels_is_empty pkvs key name doc label_name
  chart first others ds :
  dict_get pkvs key (JObj []) = JObj chart ->
  chart <> [] ->
  dict_get chart "datasets" JNull = JArr (JObj first :: others) ->
  dict_get chart "labels" (JArr []) = JArr [] ->
  py_iter (dict_get first "data" (JArr [])) = inr ds ->
  chart_metric (JObj pkvs) key name doc label_name
  = ([Yield (Family Gauge name doc ["server"; label_name] [])], inr tt).
Proof.
  intros Hchart Hne Hsets Hlabels Hdata.
  unfold chart_metric. cbn [py_get]. rewrite bind_lift_inr, Hchart.
  destruct chart as [| kv chart']; [congruence|]. set (chart := kv :: chart') in *.
  replace (truthy (JObj chart)) with true by reflexivity.
  cbn [py_get]. rewrite bind_lift_inr, bind_ret, Hsets. cbn [truthy].
  rewrite bind_lift_inr. cbn [py_getitem].
  destruct (dict_mem chart "datasets") eqn:Hmem.
  2:{ rewrite (dict_get_absent chart "datasets" JNull Hmem) in Hsets. discriminate. }
  rewrite Hsets. cbn [sbind py_index0 py_get]. rewrite bind_lift_inr.
  rewrite Hlabels, Hdata. cbn [py_iter sbind zip collect_samples].
  rewrite !bind_lift_inr. reflexivity.
Qed.

(** ** Charts that are not there *)

(** X12: when the chart object is missing, null or empty, or holds no
    dataset ([datasets] missing, null or empty), its block yields nothing and
    raises nothing. *)
Theorem chart_block_skipped pkvs key name doc label_name :
  truthy (dict_get pkvs key (JObj [])) = false
  \/ (exists chart, dict_get pkvs key (JObj []) = JObj chart
                    /\ truthy (dict_get chart "datasets" JNull) = false) ->
  chart_metric (JObj pkvs) key name doc label_name = ([], inr tt).
Proof.
  unfold chart_metric. cbn [py_get]. rewrite bind_lift_inr.
  intros [Hfalsy | [chart [Hchart Hsets]]].
  - rewrite Hfalsy, bind_ret. reflexivity.
  - rewrite Hchart. destruct (truthy (JObj chart)); [|rewrite bind_ret; reflexivity].
    cbn [py_get]. rewrite bind_lift_inr, bind_ret, Hsets. reflexivity.
Qed.

(** ** The stats families *)

Lemma fst_bind_inr {A B : Type} (m : M A) (k : A -> M B) (a : A) :
  snd m = inr a -> fst (bind m k) = (fst m ++ fst (k a))%list.
Proof.
  unfold bind. destruct m as [t r]. cbn [fst snd]. intros ->.
  destruct (k a) as [t' r']. reflexivity.
Qed.

Lemma for_each_map {A : Type} (body : A -> M unit) (g : A -> event) :
  (forall x, body x = ([g x], inr tt)) ->
  forall l, for_each l body = (map g l, inr tt).
Proof.
  intros Hb. induction l as [| x rest IH]; [reflexivity|].
  cbn [for_each map]. rewrite Hb, IH. reflexivity.
Qed.

Lemma simple_gauges_run kvs :
  (forall k v, In (k, v) kvs -> converts v) ->
  for_each simple_map (simple_gauge (JObj kvs))
  = (map (fun mk => Yield (simple_gauge_family kvs mk)) simple_map, inr tt).
Proof.
  intros Hall. apply for_each_map. intros [metric key].
  unfold simple_gauge. cbn [py_get sbind].
  rewrite (counter_value_spec kvs key Hall). reflexivity.
Qed.

Lemma stats_step_run pkvs :
  stats_payload = JObj pkvs ->
  dashboard_stats
  = bind (fst (_call_api "/api/dashboard/stats/get"
                 (Some [("type", JStr TECHNITIUM_STATS_RANGE); ("utc", JStr "true")])),
          inr tt)
      (fun _ =>
         emit (Yield (g_up (dict_get pkvs "stats" (JObj [])))) ;;;
         if truthy (dict_get pkvs "stats" (JObj []))
         then stats_metrics (JObj pkvs) (dict_get pkvs "stats" (JObj []))
         else ret tt).
Proof.
  unfold stats_payload, dashboard_stats. intros Hpayload.
  rewrite call_api_run, Hpayload. cbn [bind py_get]. rewrite bind_lift_inr.
  reflexivity.
Qed.

(** X13: for a non-empty stats payload whose fields are all numbers, step 1
    yields, right after the reachability gauge, the seven gauges of
    [simple_map] in the order of the table, each with the single server label
    and the float of its field (0 when the field is absent), and then the
    query-category family. *)
Theorem simple_gauges_follow_up pkvs kvs :
  stats_payload = JObj pkvs ->
  dict_get pkvs "stats" (JObj []) = JObj kvs ->
  kvs <> [] ->
  (forall k v, In (k, v) kvs -> converts v) ->
  exists q_samples rest,
    yielded (fst dashboard_stats)
    = (Family Gauge "technitium_up" "Technitium API reachable" ["server"]
         [Sample [JStr SERVER_LABEL] (GaugeValue (float_of_Z 1))]
       :: map (simple_gauge_family kvs) simple_map
       ++ q_metric q_samples :: rest)%list.
Proof.
  intros Hpayload Hstats Hne Hall.
  rewrite (stats_step_run pkvs Hpayload), Hstats.
  destruct kvs as [| kv kvs']; [congruence|]. set (kvs := kv :: kvs') in *.
  replace (truthy (JObj kvs)) with true by reflexivity.
  unfold stats_metrics. rewrite (simple_gauges_run kvs Hall).
  rewrite (q_samples_return kvs Hall), bind_lift_inr, bind_emit.
  set (qs := map _ q_map).
  set (charts := chart_metric _ "queryResponseChartData" _ _ _ ;;; _).
  exists qs, (yielded (fst charts)).
  destruct charts as [tc rc]. unfold emit. cbn [bind fst snd].
  rewrite yielded_app, call_api_yields_nothing. cbn [app].
  change (yielded (Yield ?f :: ?t)) with (f :: yielded t).
  assert (Hmap : yielded (map (fun mk => Yield (simple_gauge_family kvs mk)) simple_map)
                 = map (simple_gauge_family kvs) simple_map).
  { clear. induction simple_map as [| mk rest IH]; [reflexivity|].
    cbn [map]. change (yielded (Yield ?f :: ?t)) with (f :: yielded t).
    rewrite IH. reflexivity. }
  rewrite yielded_app, Hmap. reflexivity.
Qed.

(** X14: when the stats object of the payload is missing or empty, none of
    the seven simple gauges, the query-category family and the chart families
    is yielded in the cycle. *)
Theorem stats_families_need_stats start_t end_t pkvs (f : family) :
  stats_payload = JObj pkvs ->
  truthy (dict_get pkvs "stats" (JObj [])) = false ->
  In f (yielded (fst (collect start_t end_t))) ->
  ~ In (f_name f) (tl dashboard_names).
Proof.
  intros Hpayload Hfalsy Hf Hname. apply in_yielded in Hf.
  apply collect_event_cases in Hf.
  destruct Hf as [[H | H] | [H | [[_ H] | [[_ [_ H]] | [_ [_ [_ [H | H]]]]]]]];
    try discriminate.
  - rewrite (stats_step_run pkvs Hpayload), Hfalsy in H.
    rewrite bind_emit in H. unfold bind in H. cbn [fst snd ret app] in H.
    apply in_app_or in H. destruct H as [H | [H | []]].
    + apply yielded_in in H. rewrite call_api_yields_nothing in H. exact H.
    + injection H as <-. cbn in Hname. intuition discriminate.
  - pose proof (names_of_yield _ _ f zone_health_names H) as Hn.
    destruct Hn as [Hn | []]. rewrite <- Hn in Hname. cbn in Hname.
    intuition discriminate.
  - pose proof (names_of_yield _ _ f dhcp_stats_names H) as Hn.
    destruct Hn as [Hn | []]. rewrite <- Hn in Hname. cbn in Hname.
    intuition discriminate.
  - pose proof (names_of_yield _ _ f top_stats_names H) as Hn. cbn in Hn.
    destruct Hn as [Hn | [Hn | [Hn | []]]]; rewrite <- Hn in Hname; cbn in Hname;
      intuition discriminate.
  - injection H as ->. cbn in Hname. intuition discriminate.
Qed.

(** ** The top-N families *)

Lemma counter_value_converts kvs key :
  converts (dict_get kvs key (JInt 0)) ->
  py_float (dict_get kvs key (JInt 0)) = inr (counter_value kvs key).
Proof. intros [f Hf]. unfold counter_value. rewrite Hf. reflexivity. Qed.

Lemma top_samples_return stats_type items :
  (forall item, In item items -> converts (dict_get item "hits" (JInt 0))) ->
  collect_samples (map JObj items) (top_sample stats_type)
  = inr (map (top_item_sample stats_type) items).
Proof.
  induction items as [| item rest IH]; intros Hconv; [reflexivity|].
  cbn [map collect_samples]. rewrite IH by (intros i Hi; apply Hconv; right; exact Hi).
  unfold top_sample, top_item_sample.
  destruct (stats_type =? "TopClients"); cbn [py_get sbind];
    rewrite (counter_value_converts item "hits" (Hconv item (or_introl eq_refl)));
    reflexivity.
Qed.

(** X15: a top-N query that succeeds with a list of item objects whose hits
    are numbers gives, when the list is not empty, one family named after its
    row, with one sample per item in the order of the list: the server label,
    the item's name (and, for top clients, its domain), both defaulting to the
    empty string, and the float of its hits, 0 by default; an empty list
    gives no family. *)
Theorem top_family_content (row : string * string * list string * string)
  (items : list (list (string * json))) :
  call_fails (top_request row) = false ->
  py_get (api_payload_spec (top_request row)) (snd row) (JArr [])
  = inr (JArr (map JObj items)) ->
  (forall item, In item items -> converts (dict_get item "hits" (JInt 0))) ->
  top_round row
  = (Call top_url (top_params row)
       :: match items with
          | [] => []
          | _ => [Yield (Family Gauge (snd (fst (fst row)))
                           ("Hits for " ++ fst (fst (fst row))) (snd (fst row))
                           (map (top_item_sample (fst (fst (fst row)))) items))]
          end,
     inr tt).
Proof.
  destruct row as [[[stats_type metric_name] labels] json_key]. cbn [fst snd].
  intros Hquiet Hitems Hconv.
  unfold top_round, top_try.
  rewrite call_api_run.
  rewrite (call_api_quiet "/api/dashboard/stats/getTop"
             (Some [("statsType", JStr stats_type);
                    ("limit", JInt TECHNITIUM_TOP_LIMIT)]) Hquiet).
  unfold top_request, top_url, top_params in Hitems.
  cbn [bind]. rewrite Hitems, bind_lift_inr.
  destruct items as [| item rest]; [reflexivity|].
  pose proof (top_samples_return stats_type (item :: rest) Hconv) as Hs.
  cbn [map truthy py_iter sbind] in Hs |- *. rewrite Hs, bind_lift_inr.
  reflexivity.
Qed.

(** ** An upstream that is down *)

Lemma dashboard_stats_down :
  call_fails (session_get (TECHNITIUM_BASE_URL ++ "/api/dashboard/stats/get")
                (request_params (Some [("type", JStr TECHNITIUM_STATS_RANGE);
                                       ("utc", JStr "true")]))) = true ->
  snd dashboard_stats = inr tt
  /\ yielded (fst dashboard_stats) = [g_up (JObj [])]
  /\ List.length (logged (fst dashboard_stats)) = 1%nat.
Proof.
  intros Hfail. destruct (call_api_noisy _ _ Hfail) as [l Hl].
  unfold dashboard_stats. rewrite Hl. repeat split.
Qed.

Lemma zone_health_down :
  call_fails (session_get (TECHNITIUM_BASE_URL ++ "/api/zones/list")
                (request_params (Some [("pageNumber", JInt 1);
                                       ("pageSize", JInt 1000)]))) = true ->
  snd zone_health = inr tt
  /\ yielded (fst zone_health) = []
  /\ List.length (logged (fst zone_health)) = 1%nat.
Proof.
  intros Hfail. destruct (call_api_noisy _ _ Hfail) as [l Hl].
  unfold zone_health. rewrite Hl. repeat split.
Qed.

Lemma dhcp_stats_down :
  call_fails (session_get (TECHNITIUM_BASE_URL ++ "/api/dhcp/leases/list")
                (request_params None)) = true ->
  snd dhcp_stats = inr tt
  /\ yielded (fst dhcp_stats) = []
  /\ List.length (logged (fst dhcp_stats)) = 1%nat.
Proof.
  intros Hfail. destruct (call_api_noisy _ _ Hfail) as [l Hl].
  unfold dhcp_stats. rewrite Hl. repeat split.
Qed.

Lemma top_round_down row :
  call_fails (top_request row) = true ->
  yielded (fst (top_round row)) = []
  /\ List.length (logged (fst (top_round row))) = 1%nat.
Proof.
  intros Hfail. destruct (top_try_noisy row Hfail) as [l Hl].
  unfold top_round. rewrite Hl. split; reflexivity.
Qed.

(** X16: when all six queries of a cycle fail, the cycle still returns; it
    yields exactly two families, the reachability gauge with value 0 and the
    scrape duration, and logs exactly six error lines. *)
Theorem unreachable_upstream start_t end_t :
  Forall (fun req => call_fails (session_get (fst req) (snd req)) = true)
    cycle_requests ->
  snd (collect start_t end_t) = inr tt
  /\ yielded (fst (collect start_t end_t))
     = [ Family Gauge "technitium_up" "Technitium API reachable" ["server"]
           [Sample [JStr SERVER_LABEL] (GaugeValue (float_of_Z 0))];
         Family Gauge "technitium_scrape_duration_seconds" "Exporter scrape duration"
           ["server"]
           [Sample [JStr SERVER_LABEL] (GaugeValue (SFsub prec emax end_t start_t))] ]
  /\ List.length (logged (fst (collect start_t end_t))) = 6%nat.
Proof.
  unfold cycle_requests. cbn [top_table map]. intros Hall.
  inversion Hall as [| r1 l1 H1 Hall1]; subst. clear Hall.
  inversion Hall1 as [| r2 l2 H2 Hall2]; subst. clear Hall1.
  inversion Hall2 as [| r3 l3 H3 Hall3]; subst. clear Hall2.
  inversion Hall3 as [| r4 l4 H4 Hall4]; subst. clear Hall3.
  inversion Hall4 as [| r5 l5 H5 Hall5]; subst. clear Hall4.
  inversion Hall5 as [| r6 l6 H6 _]; subst. clear Hall5.
  cbn [fst snd] in *.
  destruct (dashboard_stats_down H1) as [Hd1 [Hd2 Hd3]].
  destruct (zone_health_down H2) as [Hz1 [Hz2 Hz3]].
  destruct (dhcp_stats_down H3) as [Hh1 [Hh2 Hh3]].
  destruct (top_round_down
              ("TopClients", "technitium_dns_top_client_hits",
               ["server"; "client_ip"; "client_name"], "topClients") H4)
    as [Ha1 Ha2].
  destruct (top_round_down
              ("TopDomains", "technitium_dns_top_domain_hits",
               ["server"; "domain"], "topDomains") H5)
    as [Hb1 Hb2].
  destruct (top_round_down
              ("TopBlockedDomains", "technitium_dns_top_blocked_domain_hits",
               ["server"; "domain"], "topBlockedDomains") H6)
    as [Hc1 Hc2].
  rewrite (collect_returns start_t end_t Hd1 Hz1 Hh1). cbn [fst snd].
  rewrite top_stats_total. cbn [fst top_table flat_map].
  split; [reflexivity|]. split.
  - change (yielded (Tick start_t :: ?t)) with (yielded t).
    rewrite !yielded_app, Hd2, Hz2, Hh2, Ha1, Hb1, Hc1. reflexivity.
  - change (logged (Tick start_t :: ?t)) with (logged t).
    rewrite !logged_app, !length_app, Hd3, Hz3, Hh3, Ha2, Hb2, Hc2. reflexivity.
Qed.

End Collector.

(** ** The deployment of [Fixture], run *)

Local Abbreviation at_fixture f :=
  (f Fixture.base_url Fixture.token Fixture.stats_range Fixture.top_limit
     Fixture.server_label Fixture.node Fixture.float_of_str Fixture.py_repr
     Fixture.str_lower).

Local Abbreviation cycle up := (at_fixture collect up).

Local Abbreviation query up :=
  (_call_api Fixture.base_url Fixture.token Fixture.node up).

Ltac in_trace := repeat first [left; reflexivity | right].

(** C1, as stated, fails: a 304 answer is not 2xx, yet [raise_for_status]
    lets it through and the payload of its body is returned. *)
Lemma call_api_non_2xx_counterexample :
  exists r,
    Fixture.upstream_304 (Fixture.base_url ++ "/api/zones/list")
      (request_params Fixture.token Fixture.node None)
    = Responds r
    /\ non_2xx r = true
    /\ snd (query Fixture.upstream_304 "/api/zones/list" None)
       = inr Fixture.zones_answer
    /\ Fixture.zones_answer <> JObj [].
Proof.
  eexists. split; [reflexivity|]. split; [reflexivity|]. split; [reflexivity|].
  discriminate.
Qed.

(** C2, as stated, fails: with the token [RED], the text logged for an
    exception whose message holds the token still holds it. *)
Lemma redaction_counterexample :
  contains "RED" "Max retries exceeded with url: /?token=RED" = true
  /\ logged (fst (_call_api Fixture.base_url "RED" Fixture.node Fixture.upstream_red
                    "/api/zones/list" None))
     = [LogError "Request Failed [%s]: %s"
          ["/api/zones/list"; "Max retries exceeded with url: /?token=REDACTED"]]
  /\ contains "RED" "Max retries exceeded with url: /?token=REDACTED" = true.
Proof. split; [|split]; reflexivity. Qed.

(** The first character of the token matters: with the token [DEADBEEF], the
    end of the marker and the text that follows it spell the token again. *)
Example redaction_across_marker :
  redact "DEADBEEF" "token=DEADBEEFEADBEEF" = "token=REDACTEDEADBEEF"
  /\ contains "DEADBEEF" "token=REDACTEDEADBEEF" = true.
Proof. split; reflexivity. Qed.

Lemma logged_exception_has_no_token_witness :
  Fixture.token <> ""
  /\ logged (fst (query Fixture.upstream "/api/dashboard/stats/getTop"
                    (Some [("statsType", JStr "TopDomains");
                           ("limit", JInt Fixture.top_limit)])))
     = [Fixture.timeout_line]
  /\ contains Fixture.token
       "Read timed out for url: /api/dashboard/stats/getTop?token=REDACTED" = false
  /\ In Fixture.timeout_line
       (logged (fst (cycle Fixture.upstream Fixture.t0 Fixture.t1)))
  /\ exists what e,
       log_args Fixture.timeout_line
       = [what; replace Fixture.token "REDACTED" (exn_msg e)]
       /\ contains Fixture.token (replace Fixture.token "REDACTED" (exn_msg e))
          = false.
Proof.
  assert (h1 : Fixture.token <> "") by discriminate.
  assert (h2 : forall c t, Fixture.token = String c t ->
                           ~ In c (list_ascii_of_string "REDACTED")).
  { intros c t H. injection H as <- _. simpl. intuition discriminate. }
  assert (h3 : ~ In "R"%char (list_ascii_of_string Fixture.token)).
  { simpl. intuition discriminate. }
  assert (h4 : In Fixture.timeout_line
                 (logged (fst (cycle Fixture.upstream Fixture.t0 Fixture.t1)))).
  { vm_compute. in_trace. }
  assert (h5 : exception_line Fixture.timeout_line = true) by reflexivity.
  pose proof (at_fixture logged_exception_has_no_token Fixture.upstream h1 h2 h3)
    as [Hquery [_ Hcycle]].
  destruct (Hquery "/api/dashboard/stats/getTop"
              (Some [("statsType", JStr "TopDomains");
                     ("limit", JInt Fixture.top_limit)])
              (Exn RequestException
                 "Read timed out for url: /api/dashboard/stats/getTop?token=s3cr3t")
              eq_refl) as [r1 r2].
  destruct (Hcycle Fixture.t0 Fixture.t1 Fixture.timeout_line h4 h5)
    as [what [e [_ [r3 r4]]]].
  exact (conj h1 (conj r1 (conj r2 (conj h4
           (ex_intro _ what (ex_intro _ e (conj r3 r4))))))).
Defined.

Local Abbreviation top_at f :=
  (f Fixture.base_url Fixture.token Fixture.top_limit Fixture.server_label
     Fixture.node Fixture.float_of_str Fixture.py_repr).



Local Abbreviation stats_payload_of up :=
  (stats_payload Fixture.base_url Fixture.token Fixture.stats_range Fixture.node up).

(** C4, as stated, fails: the stats query returns a payload that is not
    empty (it holds a chart), and the gauge is 0. *)
Lemma up_gauge_counterexample :
  truthy (stats_payload_of Fixture.upstream_no_counters) = true
  /\ hd_error (yielded (fst (cycle Fixture.upstream_no_counters Fixture.t0 Fixture.t1)))
     = Some (Family Gauge "technitium_up" "Technitium API reachable" ["server"]
               [Sample [JStr "technitium"] (GaugeValue (S754_zero false))]).
Proof. split; reflexivity. Qed.

Lemma up_gauge_first_witness :
  stats_payload_of Fixture.upstream = Fixture.stats_answer
  /\ hd_error (yielded (fst (cycle Fixture.upstream Fixture.t0 Fixture.t1)))
     = Some (Family Gauge "technitium_up" "Technitium API reachable" ["server"]
               [Sample [JStr "technitium"] (GaugeValue (float_of_Z 1))]).
Proof.
  assert (h1 : stats_payload_of Fixture.upstream = Fixture.stats_answer)
    by reflexivity.
  exact (conj h1 (at_fixture up_gauge_first Fixture.upstream Fixture.t0 Fixture.t1
                    _ h1)).
Defined.

(** C5, as stated, fails: the stats payload is not empty, but one of its
    counters is null; the default does not apply to it, [float] raises and
    the family is never yielded. *)
Lemma query_category_counterexample :
  dict_get [("stats", JObj [("totalQueries", JInt 100); ("totalBlocked", JNull)])]
    "stats" (JObj [])
  = JObj [("totalQueries", JInt 100); ("totalBlocked", JNull)]
  /\ truthy (JObj [("totalQueries", JInt 100); ("totalBlocked", JNull)]) = true
  /\ stats_payload_of Fixture.upstream_null_blocked
     = JObj [("stats", JObj [("totalQueries", JInt 100); ("totalBlocked", JNull)])]
  /\ times_yielded "technitium_dns_queries_window"
       (fst (cycle Fixture.upstream_null_blocked Fixture.t0 Fixture.t1)) = 0%nat
  /\ snd (cycle Fixture.upstream_null_blocked Fixture.t0 Fixture.t1)
     = inl (Exn TypeError
              "float() argument must be a string or a real number, not 'NoneType'").
Proof. repeat split; reflexivity. Qed.

Lemma query_category_family_witness :
  dict_get Fixture.stats_fields "stats" (JObj []) = JObj Fixture.counters
  /\ Fixture.counters <> []
  /\ In (Family Gauge "technitium_dns_queries_window"
           "Queries by result category in the current stats window"
           ["server"; "category"]
           [ Fixture.category_sample "all" 100;
             Fixture.category_sample "no_error" 80;
             Fixture.category_sample "servfail" 0;
             Fixture.category_sample "nxdomain" 20;
             Fixture.category_sample "refused" 0;
             Fixture.category_sample "authoritative" 0;
             Fixture.category_sample "recursive" 0;
             Fixture.category_sample "cached" 0;
             Fixture.category_sample "blocked" 0;
             Fixture.category_sample "dropped" 0 ])
        (yielded (fst (cycle Fixture.upstream Fixture.t0 Fixture.t1))).
Proof.
  assert (h1 : stats_payload_of Fixture.upstream = JObj Fixture.stats_fields)
    by reflexivity.
  assert (h2 : dict_get Fixture.stats_fields "stats" (JObj [])
               = JObj Fixture.counters) by reflexivity.
  assert (h3 : Fixture.counters <> []) by discriminate.
  assert (h4 : forall k v, In (k, v) Fixture.counters ->
                           converts Fixture.float_of_str Fixture.py_repr v).
  { intros k v [H | [H | [H | []]]]; injection H as <- <-; eexists; reflexivity. }
  exact (conj h2 (conj h3
           (proj1 (at_fixture query_category_family Fixture.upstream
                     Fixture.t0 Fixture.t1 _ _ h1 h2 h3 h4)))).
Defined.

(** C6, as stated, fails: three labels face two values, the second of them
    null; the arrays differ in length and the pairing is not cut short in
    peace: [float] raises on the null, the exception escapes the cycle and
    no response-type family is yielded. *)
Lemma chart_families_counterexample :
  stats_payload_of Fixture.upstream_null_datum = JObj Fixture.null_datum_fields
  /\ dict_get Fixture.chart_null_datum "labels" (JArr [])
     = JArr [JStr "NoError"; JStr "NxDomain"; JStr "Refused"]
  /\ dict_get Fixture.chart_null_datum "datasets" JNull
     = JArr [JObj [("data", JArr [JInt 80; JNull])]]
  /\ snd (cycle Fixture.upstream_null_datum Fixture.t0 Fixture.t1)
     = inl (Exn TypeError
              "float() argument must be a string or a real number, not 'NoneType'")
  /\ times_yielded "technitium_dns_response_type_total"
       (fst (cycle Fixture.upstream_null_datum Fixture.t0 Fixture.t1)) = 0%nat.
Proof. repeat split; reflexivity. Qed.

Lemma chart_families_witness :
  In Fixture.response_chart chart_blocks
  /\ stats_payload_of Fixture.upstream = JObj Fixture.stats_fields
  /\ (exists samples,
        In (Family Gauge "technitium_dns_response_type_total"
              "Response types in the current stats window" ["server"; "type"] samples)
          (yielded (fst (cycle Fixture.upstream Fixture.t0 Fixture.t1)))
        /\ List.length samples = 2%nat)
  /\ In Fixture.response_family
       (yielded (fst (cycle Fixture.upstream Fixture.t0 Fixture.t1))).
Proof.
  assert (h1 : In Fixture.response_chart chart_blocks) by (simpl; in_trace).
  assert (h2 : stats_payload_of Fixture.upstream = JObj Fixture.stats_fields)
    by reflexivity.
  assert (h3 : Fixture.counters <> []) by discriminate.
  assert (h4 : forall k v, In (k, v) Fixture.counters ->
                           converts Fixture.float_of_str Fixture.py_repr v).
  { intros k v [H | [H | [H | []]]]; injection H as <- <-; eexists; reflexivity. }
  assert (h5 : Fixture.chart <> []) by discriminate.
  assert (h6 : forall l v,
                 In (l, v) (zip [JStr "NoError"; JStr "NxDomain"; JStr "Refused"]
                              [JInt 80; JInt 20]) ->
                 converts Fixture.float_of_str Fixture.py_repr v).
  { intros l v [H | [H | []]]; injection H as <- <-; eexists; reflexivity. }
  assert (h7 : In Fixture.response_family
                 (yielded (fst (cycle Fixture.upstream Fixture.t0 Fixture.t1)))).
  { vm_compute. in_trace. }
  destruct (proj2 (at_fixture chart_families Fixture.upstream Fixture.t0 Fixture.t1
                     _ _ _ _ h1)
              Fixture.stats_fields Fixture.counters [] _ Fixture.chart
              [("data", JArr [JInt 80; JInt 20])] []
              [JStr "NoError"; JStr "NxDomain"; JStr "Refused"] [JInt 80; JInt 20]
              h2 eq_refl h3 h4 eq_refl (Forall_nil _) eq_refl h5
              eq_refl eq_refl eq_refl h6) as [samples [r1 [_ r2]]].
  exact (conj h1 (conj h2 (conj (ex_intro _ samples (conj r1 r2)) h7))).
Defined.

Local Abbreviation zones_payload_of up :=
  (zones_payload Fixture.base_url Fixture.token Fixture.node up).

Local Abbreviation leases_payload_of up :=
  (leases_payload Fixture.base_url Fixture.token Fixture.node up).

(** C7, as stated, fails: a returned zone list that holds a null is not
    empty, yet no zone-info family comes of it: [zone.get] raises on the
    null and the exception escapes the cycle. *)
Lemma zone_info_counterexample :
  zones_payload_of Fixture.upstream_null_zone = JObj [("zones", JArr [JNull])]
  /\ snd (cycle Fixture.upstream_null_zone Fixture.t0 Fixture.t1)
     = inl (Exn AttributeError "'NoneType' object has no attribute 'get'")
  /\ times_yielded "technitium_zone"
       (fst (cycle Fixture.upstream_null_zone Fixture.t0 Fixture.t1)) = 0%nat.
Proof. repeat split; reflexivity. Qed.

Lemma zone_info_family_witness :
  sent Fixture.base_url "/api/zones/list"
    (fst (cycle Fixture.upstream Fixture.t0 Fixture.t1))
  /\ zones_payload_of Fixture.upstream = JObj [("zones", JArr (map JObj [Fixture.zone]))]
  /\ In (Family Info "technitium_zone" "Zone detailed information"
           ["server"; "zone"; "type"; "disabled"; "internal"]
           [Sample [ JStr "technitium"; JStr "example.com"; JStr "Primary";
                     JStr "false"; JStr "false" ]
              (InfoValue [("serial", "5")])])
        (yielded (fst (cycle Fixture.upstream Fixture.t0 Fixture.t1))).
Proof.
  assert (h1 : sent Fixture.base_url "/api/zones/list"
                 (fst (cycle Fixture.upstream Fixture.t0 Fixture.t1))).
  { eexists. vm_compute. in_trace. }
  assert (h2 : zones_payload_of Fixture.upstream
               = JObj [("zones", JArr (map JObj [Fixture.zone]))]) by reflexivity.
  assert (h3 : dict_get [("zones", JArr (map JObj [Fixture.zone]))] "zones" (JArr [])
               = JArr (map JObj [Fixture.zone])) by reflexivity.
  assert (h4 : [Fixture.zone] <> []) by discriminate.
  exact (conj h1 (conj h2
           (proj1 (proj2 (at_fixture zone_info_family Fixture.upstream
                            Fixture.t0 Fixture.t1 _ [Fixture.zone] h1 h2 h3))
              h4))).
Defined.

(** C8, as stated, fails.  Three leases whose scopes are 1, true and 1.0
    hold three distinct (scope, type) pairs, but the three scopes are one
    key of [counts]: the family has a single sample, of value 3.  And a
    lease list that holds a null raises out of the cycle, with no family. *)
Lemma dhcp_lease_counterexample :
  leases_payload_of Fixture.upstream_numeric_scopes
  = JObj [("leases", JArr (map JObj Fixture.numeric_leases))]
  /\ NoDup (map lease_key Fixture.numeric_leases)
  /\ In (Family Gauge "technitium_dhcp_leases_total"
           "Number of DHCP leases by scope and type" ["server"; "scope"; "type"]
           [ Sample [JStr "technitium"; JInt 1; JStr "Dynamic"]
               (GaugeValue (float_of_Z 3)) ])
       (yielded (fst (cycle Fixture.upstream_numeric_scopes Fixture.t0 Fixture.t1)))
  /\ leases_payload_of Fixture.upstream_null_lease = JObj [("leases", JArr [JNull])]
  /\ snd (cycle Fixture.upstream_null_lease Fixture.t0 Fixture.t1)
     = inl (Exn AttributeError "'NoneType' object has no attribute 'get'")
  /\ times_yielded "technitium_dhcp_leases_total"
       (fst (cycle Fixture.upstream_null_lease Fixture.t0 Fixture.t1)) = 0%nat.
Proof.
  split; [reflexivity|]. split.
  { repeat constructor; simpl; intuition discriminate. }
  split; [vm_compute; in_trace|]. repeat split; reflexivity.
Qed.

Lemma dhcp_lease_family_witness :
  sent Fixture.base_url "/api/dhcp/leases/list"
    (fst (cycle Fixture.upstream Fixture.t0 Fixture.t1))
  /\ map lease_key Fixture.leases
     = map (fun st => (JStr (fst st), JStr (snd st))) Fixture.lease_keys
  /\ exists groups : list (string * string * Z),
       NoDup (map fst groups)
       /\ (forall s t n,
             In (s, t, n) groups
             <-> (In (s, t) Fixture.lease_keys
                  /\ n = leases_in_group Fixture.lease_keys (s, t)))
       /\ In (Family Gauge "technitium_dhcp_leases_total"
                "Number of DHCP leases by scope and type" ["server"; "scope"; "type"]
                (map (fun g => Sample [JStr "technitium"; JStr (fst (fst g));
                                       JStr (snd (fst g))]
                                 (GaugeValue (float_of_Z (snd g)))) groups))
            (yielded (fst (cycle Fixture.upstream Fixture.t0 Fixture.t1))).
Proof.
  assert (h1 : sent Fixture.base_url "/api/dhcp/leases/list"
                 (fst (cycle Fixture.upstream Fixture.t0 Fixture.t1))).
  { eexists. vm_compute. in_trace. }
  assert (h2 : leases_payload_of Fixture.upstream
               = JObj [("leases", JArr (map JObj Fixture.leases))]) by reflexivity.
  assert (h3 : dict_get [("leases", JArr (map JObj Fixture.leases))] "leases" (JArr [])
               = JArr (map JObj Fixture.leases)) by reflexivity.
  assert (h4 : map lease_key Fixture.leases
               = map (fun st => (JStr (fst st), JStr (snd st))) Fixture.lease_keys)
    by reflexivity.
  assert (h5 : forall n, (0 < n <= Z.of_nat (List.length Fixture.leases))%Z ->
                         converts Fixture.float_of_str Fixture.py_repr (JInt n)).
  { intros n Hn. simpl in Hn.
    assert (Hcases : n = 1%Z \/ n = 2%Z \/ n = 3%Z) by lia.
    destruct Hcases as [-> | [-> | ->]]; eexists; reflexivity. }
  assert (h6 : Fixture.leases <> []) by discriminate.
  destruct (at_fixture dhcp_lease_family Fixture.upstream Fixture.t0 Fixture.t1
              _ Fixture.leases Fixture.lease_keys h1 h2 h3 h4 h5)
    as [groups [Hnd [Hgroups [_ Hin]]]].
  exact (conj h1 (conj h4
           (ex_intro _ groups (conj Hnd (conj Hgroups (Hin h6)))))).
Defined.

(** The lease list of the spec, run: two samples, (A, Dynamic) = 2 and
    (A, Reserved) = 1. *)
Example dhcp_two_groups :
  In (Family Gauge "technitium_dhcp_leases_total"
        "Number of DHCP leases by scope and type" ["server"; "scope"; "type"]
        [ Sample [JStr "technitium"; JStr "A"; JStr "Dynamic"]
            (GaugeValue (float_of_Z 2));
          Sample [JStr "technitium"; JStr "A"; JStr "Reserved"]
            (GaugeValue (float_of_Z 1)) ])
     (yielded (fst (cycle Fixture.upstream Fixture.t0 Fixture.t1))).
Proof. vm_compute. in_trace. Qed.

(** C9, as stated, fails twice.  A stats answer with a null counter makes
    [float] raise in step 1: the exception escapes and no duration is
    yielded.  And when the clock is set back during the cycle (here with the
    upstream down), the duration yielded is negative. *)
Lemma scrape_duration_counterexample :
  (exists e, snd (cycle Fixture.upstream_null_counter Fixture.t0 Fixture.t1) = inl e)
  /\ times_yielded "technitium_scrape_duration_seconds"
       (fst (cycle Fixture.upstream_null_counter Fixture.t0 Fixture.t1)) = 0%nat
  /\ last (yielded (fst (cycle Fixture.upstream_down Fixture.t1 Fixture.t0)))
          (Family Gauge "" "" [] [])
     = Family Gauge "technitium_scrape_duration_seconds" "Exporter scrape duration"
         ["server"]
         [Sample [JStr "technitium"]
            (GaugeValue (SFsub prec emax Fixture.t0 Fixture.t1))]
  /\ non_negative (SFsub prec emax Fixture.t0 Fixture.t1) = false.
Proof.
  split; [eexists; reflexivity|]. split; [reflexivity|]. split; reflexivity.
Qed.

Lemma scrape_duration_last_witness :
  snd (dashboard_stats Fixture.base_url Fixture.token Fixture.stats_range
         Fixture.server_label Fixture.node Fixture.float_of_str Fixture.py_repr
         Fixture.upstream_down) = inr tt
  /\ snd (zone_health Fixture.base_url Fixture.token Fixture.server_label Fixture.node
            Fixture.py_repr Fixture.str_lower Fixture.upstream_down) = inr tt
  /\ snd (dhcp_stats Fixture.base_url Fixture.token Fixture.server_label Fixture.node
            Fixture.float_of_str Fixture.py_repr Fixture.upstream_down) = inr tt
  /\ reading_le Fixture.t0 Fixture.t1
  /\ snd (cycle Fixture.upstream_down Fixture.t0 Fixture.t1) = inr tt
  /\ times_yielded "technitium_scrape_duration_seconds"
       (fst (cycle Fixture.upstream_down Fixture.t0 Fixture.t1)) = 1%nat
  /\ non_negative (SFsub prec emax Fixture.t1 Fixture.t0) = true.
Proof.
  assert (h1 : snd (dashboard_stats Fixture.base_url Fixture.token Fixture.stats_range
                      Fixture.server_label Fixture.node Fixture.float_of_str
                      Fixture.py_repr Fixture.upstream_down) = inr tt) by reflexivity.
  assert (h2 : snd (zone_health Fixture.base_url Fixture.token Fixture.server_label
                      Fixture.node Fixture.py_repr Fixture.str_lower
                      Fixture.upstream_down) = inr tt)
    by reflexivity.
  assert (h3 : snd (dhcp_stats Fixture.base_url Fixture.token Fixture.server_label
                      Fixture.node Fixture.float_of_str Fixture.py_repr
                      Fixture.upstream_down) = inr tt) by reflexivity.
  assert (h4 : reading_le Fixture.t0 Fixture.t1).
  { unfold reading_le. simpl. lia. }
  destruct (at_fixture scrape_duration_last Fixture.upstream_down Fixture.t0 Fixture.t1
              h1 h2 h3) as [r1 [_ [_ [_ [r5 r6]]]]].
  exact (conj h1 (conj h2 (conj h3 (conj h4 (conj r1 (conj r5
           (r6 eq_refl eq_refl h4))))))).
Defined.

Lemma server_label_first_witness :
  In (Family Gauge "technitium_up" "Technitium API reachable" ["server"]
        [Sample [JStr "technitium"] (GaugeValue (float_of_Z 1))])
     (yielded (fst (cycle Fixture.upstream Fixture.t0 Fixture.t1)))
  /\ hd_error [JStr "technitium"] = Some (JStr Fixture.server_label).
Proof.
  assert (h1 : In (Family Gauge "technitium_up" "Technitium API reachable" ["server"]
                     [Sample [JStr "technitium"] (GaugeValue (float_of_Z 1))])
                  (yielded (fst (cycle Fixture.upstream Fixture.t0 Fixture.t1)))).
  { vm_compute. in_trace. }
  exact (conj h1
           (at_fixture server_label_first Fixture.upstream Fixture.t0 Fixture.t1
              _ (Sample [JStr "technitium"] (GaugeValue (float_of_Z 1)))
              h1 (or_introl eq_refl))).
Defined.

(** ** The further properties, on the deployment *)

Lemma request_params_precedence_witness :
  NoDup (map fst Fixture.top_clients_params)
  /\ dict_get (request_params Fixture.token Fixture.node
                 (Some Fixture.top_clients_params)) "limit" JNull
     = JInt 50
  /\ dict_get (request_params Fixture.token Fixture.node
                 (Some Fixture.top_clients_params)) "token" JNull
     = JStr "s3cr3t".
Proof.
  assert (h1 : NoDup (map fst Fixture.top_clients_params)).
  { simpl. repeat (constructor; [simpl; intuition discriminate|]). constructor. }
  destruct (request_params_precedence Fixture.token Fixture.node
              Fixture.top_clients_params h1) as [r1 [r2 _]].
  exact (conj h1 (conj (r1 "limit" (JInt 50) JNull (or_intror (or_introl eq_refl)))
                    (r2 eq_refl))).
Defined.

Lemma redact_keeps_clean_text_witness :
  contains Fixture.token "Connection refused" = false
  /\ redact Fixture.token "Connection refused" = "Connection refused".
Proof.
  assert (h1 : contains Fixture.token "Connection refused" = false) by reflexivity.
  exact (conj h1 (redact_keeps_clean_text Fixture.token "Connection refused"
                    (or_intror h1))).
Defined.

Lemma samples_match_label_names_witness :
  In Fixture.zone_family (yielded (fst (cycle Fixture.upstream Fixture.t0 Fixture.t1)))
  /\ List.length [ JStr "technitium"; JStr "example.com"; JStr "Primary";
                   JStr "false"; JStr "false" ]
     = List.length ["server"; "zone"; "type"; "disabled"; "internal"].
Proof.
  assert (h1 : In Fixture.zone_family
                 (yielded (fst (cycle Fixture.upstream Fixture.t0 Fixture.t1)))).
  { vm_compute. in_trace. }
  exact (conj h1
           (at_fixture samples_match_label_names Fixture.upstream Fixture.t0 Fixture.t1
              Fixture.zone_family
              (Sample [ JStr "technitium"; JStr "example.com"; JStr "Primary";
                        JStr "false"; JStr "false" ]
                 (InfoValue [("serial", "5")]))
              h1 (or_introl eq_refl))).
Defined.

Lemma every_lease_counted_once_witness :
  count_leases (map JObj Fixture.leases) [] = inr Fixture.lease_counts
  /\ counted Fixture.lease_counts = 3%Z
  /\ Forall (fun g => (0 < snd g)%Z) (count_items Fixture.lease_counts).
Proof.
  assert (h1 : count_leases (map JObj Fixture.leases) [] = inr Fixture.lease_counts)
    by reflexivity.
  exact (conj h1 (every_lease_counted_once (map JObj Fixture.leases)
                    Fixture.lease_counts h1)).
Defined.

Lemma families_have_samples_witness :
  In Fixture.zone_family (yielded (fst (cycle Fixture.upstream Fixture.t0 Fixture.t1)))
  /\ (f_samples Fixture.zone_family <> []
      \/ In (f_name Fixture.zone_family)
           [ "technitium_dns_response_type_total";
             "technitium_dns_query_type_total";
             "technitium_dns_protocol_queries" ]).
Proof.
  assert (h1 : In Fixture.zone_family
                 (yielded (fst (cycle Fixture.upstream Fixture.t0 Fixture.t1)))).
  { vm_compute. in_trace. }
  exact (conj h1
           (at_fixture families_have_samples Fixture.upstream Fixture.t0 Fixture.t1
              Fixture.zone_family h1)).
Defined.

Local Abbreviation chart_block fields key name doc label_name :=
  (chart_metric Fixture.server_label Fixture.float_of_str Fixture.py_repr
     (JObj fields) key name doc label_name).

Lemma chart_without_labels_is_empty_witness :
  dict_get Fixture.no_label_fields "queryTypeChartData" (JObj [])
  = JObj Fixture.chart_no_labels
  /\ dict_get Fixture.chart_no_labels "labels" (JArr []) = JArr []
  /\ chart_block Fixture.no_label_fields "queryTypeChartData"
       "technitium_dns_query_type_total"
       "DNS query types in the current stats window" "qtype"
     = ([Yield (Family Gauge "technitium_dns_query_type_total"
                  "DNS query types in the current stats window"
                  ["server"; "qtype"] [])], inr tt).
Proof.
  assert (h1 : dict_get Fixture.no_label_fields "queryTypeChartData" (JObj [])
               = JObj Fixture.chart_no_labels) by reflexivity.
  assert (h2 : Fixture.chart_no_labels <> []) by discriminate.
  assert (h3 : dict_get Fixture.chart_no_labels "datasets" JNull
               = JArr [JObj [("data", JArr [JInt 1; JNull])]]) by reflexivity.
  assert (h4 : dict_get Fixture.chart_no_labels "labels" (JArr []) = JArr [])
    by reflexivity.
  assert (h5 : py_iter (dict_get [("data", JArr [JInt 1; JNull])] "data" (JArr []))
               = inr [JInt 1; JNull]) by reflexivity.
  exact (conj h1 (conj h4
           (chart_without_labels_is_empty Fixture.server_label Fixture.float_of_str
              Fixture.py_repr Fixture.no_label_fields "queryTypeChartData"
              "technitium_dns_query_type_total"
              "DNS query types in the current stats window" "qtype"
              Fixture.chart_no_labels [("data", JArr [JInt 1; JNull])] []
              [JInt 1; JNull] h1 h2 h3 h4 h5))).
Defined.

Lemma chart_block_skipped_witness :
  truthy (dict_get Fixture.stats_fields "protocolTypeChartData" (JObj [])) = false
  /\ chart_block Fixture.stats_fields "protocolTypeChartData"
       "technitium_dns_protocol_queries"
       "Queries by protocol in the current stats window" "protocol"
     = ([], inr tt).
Proof.
  assert (h1 : truthy (dict_get Fixture.stats_fields "protocolTypeChartData" (JObj []))
               = false) by reflexivity.
  exact (conj h1
           (chart_block_skipped Fixture.server_label Fixture.float_of_str
              Fixture.py_repr Fixture.stats_fields "protocolTypeChartData"
              "technitium_dns_protocol_queries"
              "Queries by protocol in the current stats window" "protocol"
              (or_introl h1))).
Defined.

Local Abbreviation stats_step up :=
  (dashboard_stats Fixture.base_url Fixture.token Fixture.stats_range
     Fixture.server_label Fixture.node Fixture.float_of_str Fixture.py_repr up).

Lemma simple_gauges_follow_up_witness :
  dict_get Fixture.stats_fields "stats" (JObj []) = JObj Fixture.counters
  /\ Fixture.counters <> []
  /\ exists q_samples rest,
       yielded (fst (stats_step Fixture.upstream))
       = (Family Gauge "technitium_up" "Technitium API reachable" ["server"]
            [Sample [JStr "technitium"] (GaugeValue (float_of_Z 1))]
          :: map (simple_gauge_family Fixture.server_label Fixture.float_of_str
                    Fixture.py_repr Fixture.counters) simple_map
          ++ q_metric q_samples :: rest)%list.
Proof.
  assert (h1 : stats_payload_of Fixture.upstream = JObj Fixture.stats_fields)
    by reflexivity.
  assert (h2 : dict_get Fixture.stats_fields "stats" (JObj [])
               = JObj Fixture.counters) by reflexivity.
  assert (h3 : Fixture.counters <> []) by discriminate.
  assert (h4 : forall k v, In (k, v) Fixture.counters ->
                           converts Fixture.float_of_str Fixture.py_repr v).
  { intros k v [H | [H | [H | []]]]; injection H as <- <-; eexists; reflexivity. }
  exact (conj h2 (conj h3
           (simple_gauges_follow_up Fixture.base_url Fixture.token Fixture.stats_range
              Fixture.server_label Fixture.node Fixture.float_of_str Fixture.py_repr
              Fixture.upstream Fixture.stats_fields Fixture.counters h1 h2 h3 h4))).
Defined.

Lemma stats_families_need_stats_witness :
  stats_payload_of Fixture.upstream_no_counters = JObj Fixture.no_counter_fields
  /\ truthy (dict_get Fixture.no_counter_fields "stats" (JObj [])) = false
  /\ In (Family Gauge "technitium_up" "Technitium API reachable" ["server"]
           [Sample [JStr "technitium"] (GaugeValue (float_of_Z 0))])
        (yielded (fst (cycle Fixture.upstream_no_counters Fixture.t0 Fixture.t1)))
  /\ ~ In "technitium_up" (tl dashboard_names).
Proof.
  assert (h1 : stats_payload_of Fixture.upstream_no_counters
               = JObj Fixture.no_counter_fields) by reflexivity.
  assert (h2 : truthy (dict_get Fixture.no_counter_fields "stats" (JObj [])) = false)
    by reflexivity.
  assert (h3 : In (Family Gauge "technitium_up" "Technitium API reachable" ["server"]
                     [Sample [JStr "technitium"] (GaugeValue (float_of_Z 0))])
                  (yielded (fst (cycle Fixture.upstream_no_counters
                                   Fixture.t0 Fixture.t1)))).
  { vm_compute. in_trace. }
  exact (conj h1 (conj h2 (conj h3
           (at_fixture stats_families_need_stats Fixture.upstream_no_counters
              Fixture.t0 Fixture.t1 Fixture.no_counter_fields _ h1 h2 h3)))).
Defined.

Lemma top_family_content_witness :
  call_fails (top_request Fixture.base_url Fixture.token Fixture.top_limit Fixture.node
                Fixture.upstream Fixture.top_clients) = false
  /\ top_at top_round Fixture.upstream Fixture.top_clients
     = ([ Call "http://technitium:5380/api/dashboard/stats/getTop"
            [ ("token", JStr "s3cr3t"); ("statsType", JStr "TopClients");
              ("limit", JInt 50) ];
          Yield (Family Gauge "technitium_dns_top_client_hits" "Hits for TopClients"
                   ["server"; "client_ip"; "client_name"]
                   [Sample [JStr "technitium"; JStr "10.0.0.2"; JStr "laptop"]
                      (GaugeValue (float_of_Z 7))]) ],
        inr tt).
Proof.
  assert (h1 : call_fails (top_request Fixture.base_url Fixture.token Fixture.top_limit
                             Fixture.node Fixture.upstream Fixture.top_clients)
               = false) by reflexivity.
  assert (h2 : py_get (api_payload_spec
                         (top_request Fixture.base_url Fixture.token Fixture.top_limit
                            Fixture.node Fixture.upstream Fixture.top_clients))
                 (snd Fixture.top_clients) (JArr [])
               = inr (JArr (map JObj [Fixture.client_item]))) by reflexivity.
  assert (h3 : forall item, In item [Fixture.client_item] ->
                 converts Fixture.float_of_str Fixture.py_repr
                   (dict_get item "hits" (JInt 0))).
  { intros item [<- | []]. eexists. reflexivity. }
  exact (conj h1
           (top_at top_family_content Fixture.upstream Fixture.top_clients
              [Fixture.client_item] h1 h2 h3)).
Defined.

Lemma unreachable_upstream_witness :
  Forall (fun req => call_fails (Fixture.upstream_down (fst req) (snd req)) = true)
    (cycle_requests Fixture.base_url Fixture.token Fixture.stats_range
       Fixture.top_limit Fixture.node)
  /\ snd (cycle Fixture.upstream_down Fixture.t0 Fixture.t1) = inr tt
  /\ List.length (logged (fst (cycle Fixture.upstream_down Fixture.t0 Fixture.t1)))
     = 6%nat.
Proof.
  assert (h1 : Forall (fun req => call_fails (Fixture.upstream_down (fst req) (snd req))
                                  = true)
                 (cycle_requests Fixture.base_url Fixture.token Fixture.stats_range
                    Fixture.top_limit Fixture.node)).
  { repeat constructor. }
  destruct (at_fixture unreachable_upstream Fixture.upstream_down Fixture.t0 Fixture.t1
              h1) as [r1 [_ r3]].
  exact (conj h1 (conj r1 r3)).
Defined.
